(** * Cura: stack resolution of a bound setting and the slice-job payload

    A shallow embedding of

    - [cura/Settings/CuraPropertyProvider.py]: which container stack a bound
      setting key is resolved against, and whether the "inherit" button is
      shown for it;
    - [plugins/CuraEngineBackend/StartSliceJob.py]: the flattening of the
      global settings and of the scene into the messages sent to the engine,
      with the token expansion of the start/end g-code.

    Python objects are modelled by records, exceptions by an outcome type
    threaded through a small state monad, dictionaries by association lists
    in insertion order.  The Uranium framework classes the two files call
    into ([ContainerStack], [ExtruderManager], the scene iterators, the
    socket) are collaborators: their observable interface is a record field
    or an explicit argument.  [Job.yieldThread()] changes nothing of the
    state modelled here and is left out. *)

From Stdlib Require Import ZArith List String Ascii Bool Lia DecimalString.
From Stdlib Require Import Setoid.
Import ListNotations.
Open Scope string_scope.
Open Scope Z_scope.

Set Implicit Arguments.
Set Warnings "-register-all".

(* ================================================================== *)
(** ** Python values, exceptions and the effect monad                  *)
(* ================================================================== *)

Module Py.

(** The exceptions the modelled code can raise. *)
Inductive exn : Type :=
| NameError (name : string)
| AttributeError
| TypeError
| ValueError
| KeyError (key : string)
| IndexError
| UnicodeEncodeError.

(** [UM.Settings.SettingInstance.InstanceState]. *)
Inductive InstanceState : Type := Default | Calculated | User.

(** [UM.Settings.SettingFunction]: an expression over other settings.
    [getUsedSettingKeys] lists the names occurring in its code. *)
Record SettingFunction : Type := mkFunction {
  getUsedSettingKeys : list string;
  code : string
}.

(** The values a property lookup can yield. *)
Inductive value : Type :=
| VNone
| VBool (b : bool)
| VInt (n : Z)
| VStr (s : string)
| VState (st : InstanceState)
| VFunction (f : SettingFunction).

(** [bool(v)]: Python truthiness. *)
Definition truthy (v : value) : bool :=
  match v with
  | VNone => false
  | VBool b => b
  | VInt n => negb (n =? 0)
  | VStr s => negb (String.eqb s "")
  | VState _ => true
  | VFunction _ => true
  end.

(** [v != None]. *)
Definition not_None (v : value) : bool :=
  match v with VNone => false | _ => true end.

(** [isinstance(v, SettingFunction)]. *)
Definition isinstance_SettingFunction (v : value) : bool :=
  match v with VFunction _ => true | _ => false end.

(** [v != InstanceState.User]. *)
Definition ne_User (v : value) : bool :=
  match v with VState User => false | _ => true end.

(** [v == s] for a string literal [s]. *)
Definition eq_str (v : value) (s : string) : bool :=
  match v with VStr s' => String.eqb s' s | _ => false end.

(** Result of an expression that may raise. *)
Inductive res (A : Type) : Type :=
| Val (a : A)
| Exc (e : exn).
Arguments Exc {A} e.

(** [v <= n] for an integer literal [n]: ordering against an [int] is
    defined for numbers only. *)
Definition le_int (v : value) (n : Z) : res bool :=
  match v with
  | VInt m => Val (m <=? n)
  | VBool b => Val (Z.b2z b <=? n)
  | _ => Exc TypeError
  end.

Definition is_digit (c : ascii) : bool :=
  let n := nat_of_ascii c in (48 <=? n)%nat && (n <=? 57)%nat.

Definition all_digits (s : string) : bool :=
  forallb is_digit (list_ascii_of_string s).

(** Decimal numeral of a non-empty digit string. *)
Definition nat_of_digits (s : string) : nat :=
  fold_left (fun acc c => (10 * acc + (nat_of_ascii c - 48))%nat)
            (list_ascii_of_string s) 0%nat.

(** [int(v)].  Of the strings Python accepts, the plain decimal numerals
    with an optional sign are covered; the others are reported as
    [ValueError]. *)
Definition int (v : value) : res Z :=
  match v with
  | VInt m => Val m
  | VBool b => Val (Z.b2z b)
  | VStr (String "-" d) =>
      if negb (String.eqb d "") && all_digits d
      then Val (- Z.of_nat (nat_of_digits d)) else Exc ValueError
  | VStr (String "+" d) =>
      if negb (String.eqb d "") && all_digits d
      then Val (Z.of_nat (nat_of_digits d)) else Exc ValueError
  | VStr d =>
      if negb (String.eqb d "") && all_digits d
      then Val (Z.of_nat (nat_of_digits d)) else Exc ValueError
  | _ => Exc TypeError
  end.

(** The number a digit string denotes, and the numeral of a number, in
    binary representation. *)
Definition N_of_digits (s : string) : N :=
  fold_left (fun acc c => (10 * acc + N.of_nat (nat_of_ascii c - 48))%N)
            (list_ascii_of_string s) 0%N.

Definition str_of_N (n : N) : string :=
  NilZero.string_of_uint (N.to_uint n).

Definition str_of_Z (n : Z) : string :=
  NilZero.string_of_int (Z.to_int n).

(** [str(v)]. *)
Definition str (v : value) : string :=
  match v with
  | VNone => "None"
  | VBool true => "True"
  | VBool false => "False"
  | VInt n => str_of_Z n
  | VStr s => s
  | VState Default => "InstanceState.Default"
  | VState Calculated => "InstanceState.Calculated"
  | VState User => "InstanceState.User"
  | VFunction f => "=" ++ code f
  end.

(** *** Encoding

    A text is held as the bytes of its UTF-8 encoding.  A [str] of Python
    can also hold a lone surrogate (a code point from U+D800 to U+DFFF),
    which UTF-8 cannot encode; it is held as the three bytes the scheme
    of UTF-8 gives that code point: [ED], then a byte from [A0] to [BF],
    then a continuation byte. *)
Definition surrogate_lead (c c' : ascii) : bool :=
  (nat_of_ascii c =? 237)%nat
  && (160 <=? nat_of_ascii c')%nat && (nat_of_ascii c' <=? 191)%nat.

Fixpoint has_surrogate (s : string) : bool :=
  match s with
  | String c (String c' _ as rest) =>
      surrogate_lead c c' || has_surrogate rest
  | _ => false
  end.

(** [s.encode("utf-8")], also [s.encode()]: the bytes of the text, or
    [UnicodeEncodeError] when it holds a surrogate. *)
Definition encode (s : string) : res string :=
  if has_surrogate s then Exc UnicodeEncodeError else Val s.

(** [needle in hay] on strings. *)
Fixpoint contains (needle hay : string) : bool :=
  if prefix needle hay then true
  else match hay with
       | EmptyString => false
       | String _ rest => contains needle rest
       end.

(** *** Dictionaries

    A [dict] with string keys, as the list of its items in insertion
    order; assigning an existing key keeps its position. *)
Definition dict (V : Type) : Type := list (string * V).

Fixpoint get {V} (d : dict V) (k : string) : option V :=
  match d with
  | [] => None
  | (k', v) :: rest => if String.eqb k k' then Some v else get rest k
  end.

Fixpoint set {V} (d : dict V) (k : string) (v : V) : dict V :=
  match d with
  | [] => [(k, v)]
  | (k', v') :: rest =>
      if String.eqb k k' then (k, v) :: rest else (k', v') :: set rest k v
  end.

Definition keys {V} (d : dict V) : list string := map fst d.

(** [d[k]] *)
Definition getitem {V} (d : dict V) (k : string) : res V :=
  match get d k with
  | Some v => Val v
  | None => Exc (KeyError k)
  end.

(** [d.update(other)], also [for k, v in other.items(): d[k] = v]. *)
Definition update {V} (d other : dict V) : dict V :=
  fold_left (fun acc kv => set acc (fst kv) (snd kv)) other d.

(** *** Effects

    A computation reads and writes a state [S] (which holds the log) and
    either returns or raises; the state reached is kept in both cases. *)
Definition M (S A : Type) : Type := S -> res A * S.

Definition ret {S A} (a : A) : M S A := fun s => (Val a, s).

Definition bind {S A B} (m : M S A) (k : A -> M S B) : M S B :=
  fun s => match m s with
           | (Val a, s') => k a s'
           | (Exc e, s') => (Exc e, s')
           end.

Definition raise {S A} (e : exn) : M S A := fun s => (Exc e, s).

Definition lift {S A} (r : res A) : M S A := fun s => (r, s).

Definition gets {S A} (f : S -> A) : M S A := fun s => (Val (f s), s).

Definition modify {S} (f : S -> S) : M S unit := fun s => (Val tt, f s).

(** [try: m except: h] with a bare [except]. *)
Definition try_except {S A} (m : M S A) (h : exn -> M S A) : M S A :=
  fun s => match m s with
           | (Val a, s') => (Val a, s')
           | (Exc e, s') => h e s'
           end.

End Py.

Declare Scope py_scope.
Delimit Scope py_scope with py.
Notation "x <- m ;; k" := (Py.bind m (fun x => k))
  (at level 100, m at next level, right associativity) : py_scope.
Notation "m ;;; k" := (Py.bind m (fun _ => k))
  (at level 100, right associativity) : py_scope.

(* ================================================================== *)
(** ** The container-stack interface of Uranium                        *)
(* ================================================================== *)

Module UM.

(** The classes a container of a stack can have; only
    [DefinitionContainer] is told apart by the code. *)
Inductive ContainerClass : Type :=
| DefinitionContainer
| InstanceContainer
| OtherContainer.

Definition is_DefinitionContainer (c : ContainerClass) : bool :=
  match c with DefinitionContainer => true | _ => false end.

(** A setting definition: its key and its child definitions. *)
Inductive SettingDefinition : Type :=
| Def (key : string) (children : list SettingDefinition).

Definition key (d : SettingDefinition) : string :=
  match d with Def k _ => k end.

Definition children (d : SettingDefinition) : list SettingDefinition :=
  match d with Def _ c => c end.

(** A container.  [container_getProperty] is [None] for a container
    object without a [getProperty] attribute; otherwise it gives the raw
    property stored for a key ([VNone] when there is none). *)
Record Container : Type := mkContainer {
  container_class : ContainerClass;
  container_getProperty : option (string -> string -> Py.value);
  definitions : list SettingDefinition
}.

(** A container stack, seen through the methods the code calls.
    [getProperty] is the stack's own resolution of a property of a key;
    [getContainers] lists the containers, index 0 being the top;
    [getNextStack] is the parent stack. *)
Inductive ContainerStack : Type := mkStack {
  getId : string;
  getProperty : string -> string -> Py.value;
  getContainers : list Container;
  getNextStack : option ContainerStack;
  getAllKeys : list string
}.

(** [stack.getTop()]: the container at index 0, [None] without one. *)
Definition getTop (s : ContainerStack) : option Container :=
  hd_error (getContainers s).

(** Two references denote the same stack object when the ids agree. *)
Definition same_stack (a b : ContainerStack) : bool :=
  String.eqb (getId a) (getId b).

End UM.

(* ================================================================== *)
(** ** cura/Settings/CuraPropertyProvider.py                           *)
(* ================================================================== *)

Module CuraPropertyProvider.
Import Py UM.
Local Open Scope py_scope.

(** The names bound at the top level of the module: what its [import]
    statements bring in, and the class it defines. *)
Definition module_globals : list string :=
  [ "pyqtProperty"; "pyqtSignal"; "Application"; "SettingPropertyProvider";
    "InstanceState"; "SettingFunction"; "ExtruderManager";
    "CuraPropertyProvider" ].

Definition bound_global (name : string) : bool :=
  existsb (String.eqb name) module_globals.

(** The singletons the provider asks: [Application.getInstance()],
    [ExtruderManager.getInstance()], and the registry behind the inherited
    [setContainerStackId]; [stackLevels] is the inherited property of that
    name, a function of the stack the provider is bound to and its key. *)
Record Env : Type := mkEnv {
  getGlobalContainerStack : option ContainerStack;
  getExtruderStack : Py.value -> option ContainerStack;
  activeExtruderStackId : string;
  findContainerStack : string -> option ContainerStack;
  stackLevels : option ContainerStack -> string -> list nat
}.

(** The attributes of a provider object. *)
Record Provider : Type := mkProvider {
  _key : string;
  _global_container_stack : option ContainerStack;
  _stack_id : string;
  _stack : option ContainerStack;
  _should_show_inherit : bool
}.

(** What a call does besides changing attributes. *)
Inductive Event : Type :=
| Disconnect (stack_id : string)
| Connect (stack_id : string)
| SetContainerStackId (stack_id : string)
| DetermineInherit
| Emit (signal : string)
| Log (level : string) (key : string) (extruder : Py.value).

Record State : Type := mkState {
  self : Provider;
  trace : list Event
}.

Definition emit (e : Event) : M State unit :=
  modify (fun st => mkState (self st) (trace st ++ [e])%list).

Definition update_self (f : Provider -> Provider) : M State unit :=
  modify (fun st => mkState (f (self st)) (trace st)).

(** [Logger.log(...)]: the name [Logger] is looked up in the module's
    globals when the call is reached. *)
Definition Logger_log (level key : string) (extruder : Py.value)
  : M State unit :=
  if bound_global "Logger" then emit (Log level key extruder)
  else raise (NameError "Logger").

(** Modelled from the spec: the inherited [setContainerStackId] of
    [SettingPropertyProvider], which is not part of these sources.  The
    target becomes the stack of the given id, ["global"] standing for the
    global stack of the application. *)
Definition lookup_stack (env : Env) (id : string) : option ContainerStack :=
  if String.eqb id "global" then getGlobalContainerStack env
  else findContainerStack env id.

(** Modelled from the spec: [setContainerStackId] records the id and
    binds the provider to the stack found for it. *)
Definition setContainerStackId (env : Env) (id : string) : M State unit :=
  emit (SetContainerStackId id) ;;;
  update_self (fun p =>
    mkProvider (_key p) (_global_container_stack p) id
               (lookup_stack env id) (_should_show_inherit p)).

(** [shouldShowRevert]: [0 in self.stackLevels]. *)
Definition shouldShowRevert (env : Env) (p : Provider) : bool :=
  existsb (Nat.eqb 0) (stackLevels env (_stack p) (_key p)).

(** [shouldShowInherit] *)
Definition shouldShowInherit (p : Provider) : bool :=
  _should_show_inherit p.

(** The containers of a stack followed by those of its ancestors:
    [while stack: containers.extend(stack.getContainers()); ...]. *)
Fixpoint all_containers (stack : ContainerStack) : list Container :=
  getContainers stack ++
  match getNextStack stack with
  | Some next => all_containers next
  | None => []
  end.

(** [for setting_key in value.getUsedSettingKeys(): if setting_key in
    all_keys: break / else: ...]: whether the loop leaves by [break]. *)
Definition uses_setting_key (all_keys : list string) (f : SettingFunction)
  : bool :=
  existsb (fun k => existsb (String.eqb k) all_keys) (getUsedSettingKeys f).

(** The loop over the containers, with its two flags. *)
Fixpoint inherit_loop (key : string) (all_keys : list string)
         (containers : list Container)
         (has_setting_function has_non_function_value : bool)
  : bool * bool :=
  match containers with
  | [] => (has_setting_function, has_non_function_value)
  | container :: rest =>
      match container_getProperty container with
      | None =>  (* AttributeError: continue *)
          inherit_loop key all_keys rest
                       has_setting_function has_non_function_value
      | Some getprop =>
          match getprop key "value" with
          | VNone =>
              if has_setting_function
              then (has_setting_function, has_non_function_value)
              else inherit_loop key all_keys rest
                                has_setting_function has_non_function_value
          | v =>
              let has_setting_function' :=
                match v with
                | VFunction f => uses_setting_key all_keys f
                | _ => false
                end in
              if negb has_setting_function'
              then inherit_loop key all_keys rest has_setting_function' true
              else (has_setting_function', has_non_function_value)
          end
      end
  end.

(** [_determineInherit] *)
Definition determineInherit (p : Provider) : res bool :=
  match _stack p with
  | None => Exc AttributeError
  | Some stack =>
      let key := _key p in
      if not_None (getProperty stack key "resolve") then Val false
      else if ne_User (getProperty stack key "state") then Val false
      else if negb (truthy (getProperty stack key "enabled")) then Val false
      else
        match getTop stack with
        | None => Exc AttributeError
        | Some top =>
            match container_getProperty top with
            | None => Exc AttributeError
            | Some getprop =>
                if isinstance_SettingFunction (getprop key "value")
                then Val false
                else
                  let '(has_setting_function, has_non_function_value) :=
                    inherit_loop key (getAllKeys stack)
                                 (all_containers stack) false false in
                  Val (has_setting_function && has_non_function_value)
            end
        end
  end.

(** [_updateShouldShowInherit] *)
Definition updateShouldShowInherit : M State unit :=
  emit DetermineInherit ;;;
  p <- gets self ;;
  should_show_inherit <- lift (determineInherit p) ;;
  if Bool.eqb should_show_inherit (_should_show_inherit p) then ret tt
  else
    update_self (fun p =>
      mkProvider (_key p) (_global_container_stack p) (_stack_id p)
                 (_stack p) should_show_inherit) ;;;
    emit (Emit "shouldShowInheritChanged").

(** [global_container_stack != self._global_container_stack] *)
Definition differs (g : ContainerStack) (old : option ContainerStack)
  : bool :=
  match old with
  | Some o => negb (same_stack g o)
  | None => true
  end.

(** [_updateStack] *)
Definition updateStack (env : Env) : M State unit :=
  p <- gets self ;;
  if String.eqb (_key p) "" then ret tt
  else
    match getGlobalContainerStack env with
    | None => ret tt
    | Some global_container_stack =>
        (if differs global_container_stack (_global_container_stack p)
         then
           match _global_container_stack p with
           | Some old => emit (Disconnect (getId old))
           | None => ret tt
           end ;;;
           update_self (fun p =>
             mkProvider (_key p) (Some global_container_stack) (_stack_id p)
                        (_stack p) (_should_show_inherit p)) ;;;
           emit (Connect (getId global_container_stack))
         else ret tt) ;;;
        single <- lift (le_int (getProperty global_container_stack
                                  "machine_extruder_count" "value") 1) ;;
        if single : bool then setContainerStackId env "global"
        else
          let settable_per_extruder :=
            getProperty global_container_stack (_key p)
                        "settable_per_extruder" in
          if negb (truthy settable_per_extruder)
          then setContainerStackId env "global"
          else
            let limit_to_extruder :=
              getProperty global_container_stack (_key p)
                          "limit_to_extruder" in
            limited <-
              (if not_None limit_to_extruder
               then n <- lift (int limit_to_extruder) ;; ret (0 <=? n)
               else ret false) ;;
            if limited : bool then
              match getExtruderStack env limit_to_extruder with
              | Some extruder_stack =>
                  setContainerStackId env (getId extruder_stack)
              | None => Logger_log "w" (_key p) limit_to_extruder
              end
            else
              setContainerStackId env (activeExtruderStackId env) ;;;
              updateShouldShowInherit
    end.

(** The [return] a pass of [_updateStack] leaves through, by the tests
    that lead to it, numbered as the steps of the resolution. *)
Inductive Branch : Type :=
| NoKey                    (* 1 *)
| NoGlobalStack            (* 2 *)
| SingleExtruder           (* 3 *)
| NotSettablePerExtruder   (* 4 *)
| LimitToExtruder          (* 5 *)
| ActiveExtruder.          (* 6 *)

Definition branch (env : Env) (p : Provider) : res Branch :=
  if String.eqb (_key p) "" then Val NoKey
  else
    match getGlobalContainerStack env with
    | None => Val NoGlobalStack
    | Some g =>
        match le_int (getProperty g "machine_extruder_count" "value") 1 with
        | Exc e => Exc e
        | Val true => Val SingleExtruder
        | Val false =>
            if negb (truthy (getProperty g (_key p) "settable_per_extruder"))
            then Val NotSettablePerExtruder
            else
              let limit := getProperty g (_key p) "limit_to_extruder" in
              if not_None limit then
                match int limit with
                | Exc e => Exc e
                | Val n =>
                    if 0 <=? n then Val LimitToExtruder
                    else Val ActiveExtruder
                end
              else Val ActiveExtruder
        end
    end.

(** A pass recomputes [shouldShowInherit] when it calls
    [_updateShouldShowInherit]. *)
Definition recomputes_inherit (env : Env) (st : State) : Prop :=
  exists events,
    trace (snd (updateStack env st)) = (trace st ++ events)%list
    /\ In DetermineInherit events.

(** *** The container walk, container by container *)

(** The raw value a container holds for the key, when it can be asked. *)
Definition raw_value (key : string) (c : Container) : option Py.value :=
  match container_getProperty c with
  | Some getprop => Some (getprop key "value")
  | None => None
  end.

(** The container holds a function that uses a real setting key. *)
Definition holds_setting_function (key : string) (all_keys : list string)
           (c : Container) : bool :=
  match raw_value key c with
  | Some (VFunction f) => uses_setting_key all_keys f
  | _ => false
  end.

(** The container holds a literal: a value that is not a function. *)
Definition holds_literal (key : string) (c : Container) : bool :=
  match raw_value key c with
  | Some VNone | Some (VFunction _) | None => false
  | Some _ => true
  end.

(** The container holds a literal or a function that uses no real
    setting key. *)
Definition holds_fixed_value (key : string) (all_keys : list string)
           (c : Container) : bool :=
  match raw_value key c with
  | Some VNone | None => false
  | Some (VFunction f) => negb (uses_setting_key all_keys f)
  | Some _ => true
  end.

(** The four guards let the walk start. *)
Definition passes_guards (p : Provider) (stack : ContainerStack) : Prop :=
  _stack p = Some stack
  /\ not_None (getProperty stack (_key p) "resolve") = false
  /\ ne_User (getProperty stack (_key p) "state") = false
  /\ truthy (getProperty stack (_key p) "enabled") = true
  /\ exists top getprop,
       getTop stack = Some top
       /\ container_getProperty top = Some getprop
       /\ isinstance_SettingFunction (getprop (_key p) "value") = false.

(** The walk finds a function over a real setting key, stops there, and
    has met a container satisfying [before] on the way. *)
Definition walk_finds (key : string) (all_keys : list string)
           (before : Container -> bool) (containers : list Container)
  : Prop :=
  exists above c below,
    containers = (above ++ c :: below)%list
    /\ holds_setting_function key all_keys c = true
    /\ (forall a, In a above -> holds_setting_function key all_keys a = false)
    /\ exists l, In l above /\ before l = true.

(** *** The notification handlers *)

(** [_onLimitToExtruderChanged(key, property_names)] *)
Definition onLimitToExtruderChanged (env : Env) (key : string)
           (property_names : list string) : M State unit :=
  p <- gets self ;;
  if negb (String.eqb key (_key p)) then ret tt
  else
    (if existsb (String.eqb "limit_to_extruder") property_names
     then updateStack env else ret tt) ;;;
    (if existsb (String.eqb "value") property_names
     then updateShouldShowInherit else ret tt).

(** [_onPropertiesChanged(key, property_names)]; [super_handler] is the
    method of the base class, called first. *)
Definition onPropertiesChanged
           (super_handler : string -> list string -> M State unit)
           (key : string) (property_names : list string) : M State unit :=
  super_handler key property_names ;;;
  updateShouldShowInherit.

(** The signal events of the first lines of [_updateStack], when the
    application's global stack is [g] and the provider tracked [old]. *)
Definition connection_events (g : ContainerStack)
           (old : option ContainerStack) : list Event :=
  if differs g old then
    (match old with
     | Some o => [Disconnect (getId o)]
     | None => []
     end ++ [Connect (getId g)])%list
  else [].

(** What [_determineInherit] answers for a key on a stack. *)
Definition inherit_on (key : string) (stack : option ContainerStack)
  : res bool :=
  determineInherit (mkProvider key None "" stack false).

(** The event of the signal [shouldShowInheritChanged], when the flag
    goes from [old] to [new]. *)
Definition change_events (old new : bool) : list Event :=
  if Bool.eqb new old then [] else [Emit "shouldShowInheritChanged"].

(** The containers the walk looks at: those that answer with a value
    for the key, down to the first function over a real setting key. *)
Fixpoint inspected (key : string) (all_keys : list string)
         (containers : list Container) : list Container :=
  match containers with
  | [] => []
  | c :: rest =>
      if holds_setting_function key all_keys c then [c]
      else if holds_fixed_value key all_keys c
           then c :: inspected key all_keys rest
           else inspected key all_keys rest
  end.

End CuraPropertyProvider.

(* ================================================================== *)
(** ** plugins/CuraEngineBackend/StartSliceJob.py                      *)
(* ================================================================== *)

Module StartSliceJob.
Import Py UM.
Local Open Scope py_scope.

(** *** Wire messages

    Values are byte strings; a repeated field is the list of its
    sub-messages in the order of the [addRepeatedMessage] calls.  An
    [object_lists] message has two repeated fields, [settings] and
    [objects]: it is kept as the sequence of additions to either. *)
Section Messages.
Variable vertex : Type.

Record Setting : Type := mkSetting {
  name : string;
  value : string
}.

Record Object : Type := mkObject {
  id : Z;
  vertices : list vertex;
  settings : list Setting
}.

Inductive ObjectListEntry : Type :=
| AddSetting (s : Setting)
| AddObject (o : Object).

Inductive Message : Type :=
| SettingList (settings : list Setting)
| Slice (object_lists : list (list ObjectListEntry)).

(** The two repeated fields of an [object_lists] message. *)
Definition settings_of (m : list ObjectListEntry) : list Setting :=
  flat_map (fun e => match e with AddSetting s => [s] | _ => [] end) m.

Definition objects_of (m : list ObjectListEntry) : list Object :=
  flat_map (fun e => match e with AddObject o => [o] | _ => [] end) m.
End Messages.

Arguments AddSetting {vertex} s.
Arguments SettingList {vertex} settings.

(** A line of [Logger.log(level, message, argument)]. *)
Record LogEntry : Type := mkLog {
  level : string;
  message : string;
  argument : string
}.

Section Job.
(** A mesh coordinate with its multiplication by [-1], a transformation
    matrix, and [MeshData.getTransformed]. *)
Variable coord : Type.
Variable times_minus_one : coord -> coord.
Variable matrix : Type.

Definition vertex : Type := (coord * coord * coord)%type.

(** [MeshData]: [getVertices()] is [None] on a mesh without vertex
    array. *)
Record MeshData : Type := mkMesh {
  getVertices : option (list vertex)
}.

Variable getTransformed : MeshData -> matrix -> MeshData.

(** What [node.callDecoration(...)] answers for the four decorations
    read: the truth value of [getLayerData] and of [isGroup]; for
    [getProfile] the setting values of the profile, [None] without
    profile; for [getAllSettingValues] the dictionary or [None]. *)
Record Decorations : Type := mkDecorations {
  getLayerData : bool;
  isGroup : bool;
  getProfile : option (dict Py.value);
  getAllSettingValues : option (dict Py.value)
}.

(** A scene node.  [node_id] is [id(node)]; [is_SceneNode] is
    [type(node) is SceneNode]; [outside_buildarea] is
    [getattr(node, "_outside_buildarea", False)]; [getParent] gives the
    decorations of the parent node, all that is read of it;
    [getAllChildren] lists the descendants. *)
Inductive SceneNode : Type := mkNode {
  node_id : Z;
  is_SceneNode : bool;
  getMeshData : option MeshData;
  getWorldTransformation : matrix;
  outside_buildarea : bool;
  callDecoration : Decorations;
  getParent : option Decorations;
  getAllChildren : list SceneNode
}.

(** The scene iterators, and the scene root left by
    [node.getParent().removeChild(node)]. *)
Variable DepthFirstIterator : SceneNode -> list SceneNode.
Variable OneAtATimeIterator : SceneNode -> list SceneNode.
Variable removeChild : SceneNode -> SceneNode -> SceneNode.

(** The job object with what it reaches: the stack taken at
    construction, the global stack of the application when [run] asks
    for it again, the scene, the socket and the job result. *)
Record State : Type := mkState {
  _stack : option ContainerStack;
  getGlobalContainerStack : option ContainerStack;
  scene_root : SceneNode;
  scene_locked : bool;
  log : list LogEntry;
  sent : list (Message vertex);
  result : option bool
}.

Definition Logger_log (lvl msg arg : string) : M State unit :=
  modify (fun st =>
    mkState (_stack st) (getGlobalContainerStack st) (scene_root st)
            (scene_locked st) (log st ++ [mkLog lvl msg arg])
            (sent st) (result st)).

(** Lines logged one after the other. *)
Definition Logger_lines (lines : list LogEntry) : M State unit :=
  modify (fun st =>
    mkState (_stack st) (getGlobalContainerStack st) (scene_root st)
            (scene_locked st) (log st ++ lines)
            (sent st) (result st)).

Definition set_lock (b : bool) : M State unit :=
  modify (fun st =>
    mkState (_stack st) (getGlobalContainerStack st) (scene_root st)
            b (log st) (sent st) (result st)).

Definition set_root (r : SceneNode) : M State unit :=
  modify (fun st =>
    mkState (_stack st) (getGlobalContainerStack st) r
            (scene_locked st) (log st) (sent st) (result st)).

Definition sendMessage (m : Message vertex) : M State unit :=
  modify (fun st =>
    mkState (_stack st) (getGlobalContainerStack st) (scene_root st)
            (scene_locked st) (log st) (sent st ++ [m]) (result st)).

Definition setResult (b : bool) : M State unit :=
  modify (fun st =>
    mkState (_stack st) (getGlobalContainerStack st) (scene_root st)
            (scene_locked st) (log st) (sent st) (Some b)).

(** *** GcodeStartEndFormatter *)

(** The first component of a field name: a keyword or a position. *)
Inductive FieldKey : Type :=
| KStr (k : string)
| KInt (n : N).

(** [GcodeStartEndFormatter.get_value] *)
Definition get_value (key : FieldKey) (kwargs : dict Py.value)
  : M State Py.value :=
  match key with
  | KStr k =>
      match get kwargs k with
      | Some v => ret v
      | None =>
          Logger_log "w"
            "Unable to replace '%s' placeholder in start/end gcode" k ;;;
          ret (VStr ("{" ++ k ++ "}"))
      end
  | KInt n =>
      Logger_log "w"
        "Incorrectly formatted placeholder '%s' in start/end gcode"
        (str_of_N n) ;;;
      ret (VStr ("{" ++ str_of_N n ++ "}"))
  end.

(** [Formatter.vformat]'s automatic numbering of empty fields:
    [auto_arg_index] counts them, and is [False] once a field was
    numbered by hand. *)
Inductive auto_arg : Type :=
| Auto (n : nat)
| Manual.

(** The characters that make a field more than a name or a number in
    ASCII: those that open a conversion, a format specification, an
    attribute or index lookup or a nested field, and the bytes of a
    character outside ASCII, which [Formatter] may read as a decimal
    digit. *)
Definition compound_char (c : ascii) : bool :=
  existsb (Ascii.eqb c) ["!"; ":"; "."; "["; "{"; "}"]%char
  || (128 <=? nat_of_ascii c)%nat.

Definition is_compound (field : string) : bool :=
  existsb compound_char (list_ascii_of_string field).

(** The least [sys.maxsize] of an interpreter.  [Formatter] reads a
    number up to [sys.maxsize] as a position and raises [ValueError] on
    a larger one. *)
Definition least_maxsize : N := 2147483647.

(** The result type of what is left to [string.Formatter]: the warnings
    logged through [get_value], then the text produced with the
    numbering state after the field, or the exception. *)
Definition field_result : Type :=
  (list LogEntry * res (string * auto_arg))%type.

(** What [string.Formatter] does with a replacement field that has a
    conversion, a format specification, an attribute or index lookup or
    a nested brace, with one that holds a character outside ASCII, and
    with a number above [least_maxsize]: from the field, the numbering
    state before it and the keyword arguments. *)
Variable format_compound_field
  : string -> auto_arg -> dict Py.value -> field_result.

Definition format_field (field : string) (auto : auto_arg)
           (kwargs : dict Py.value) : M State (string * auto_arg) :=
  Logger_lines (fst (format_compound_field field auto kwargs)) ;;;
  lift (snd (format_compound_field field auto kwargs)).

(** One replacement field: the text it is replaced by, through
    [get_value], and the numbering state after it. *)
Definition replace_field (field : string) (auto : auto_arg)
           (kwargs : dict Py.value) : M State (string * auto_arg) :=
  if is_compound field then format_field field auto kwargs
  else if String.eqb field "" then
    match auto with
    | Manual => raise ValueError
    | Auto n =>
        v <- get_value (KInt (N.of_nat n)) kwargs ;; ret (str v, Auto (S n))
    end
  else if all_digits field then
    if (N_of_digits field <=? least_maxsize)%N then
      match auto with
      | Auto (S _) => raise ValueError
      | _ => v <- get_value (KInt (N_of_digits field)) kwargs ;;
             ret (str v, Manual)
      end
    else format_field field auto kwargs
  else
    v <- get_value (KStr field) kwargs ;; ret (str v, auto).

(** Where the scan of the format string stands: in literal text, or
    inside a replacement field at some brace depth with the field text
    read so far. *)
Inductive mode : Type :=
| Text
| Field (depth : nat) (acc : string).

Definition snoc (s : string) (c : ascii) : string :=
  s ++ String c EmptyString.

(** [Formatter.format(format_string, **kwargs)] of Python's [string]
    module, which [GcodeStartEndFormatter] inherits: one pass over the
    format string, left to right; doubled braces are literal braces, a
    lone brace is a [ValueError], a field runs to its matching closing
    brace and is replaced when that brace is reached, so the warnings of
    the fields before a malformed place are logged before the error. *)
Fixpoint vformat (kwargs : dict Py.value) (m : mode) (auto : auto_arg)
         (s : string) {struct s} : M State string :=
  match m, s with
  | Text, EmptyString => ret ""
  | Text, String c rest =>
      if Ascii.eqb c "{" then
        match rest with
        | EmptyString => raise ValueError
        | String c' rest' =>
            if Ascii.eqb c' "{"
            then out <- vformat kwargs Text auto rest' ;;
                 ret (String "{" out)
            else vformat kwargs (Field 1 "") auto rest
        end
      else if Ascii.eqb c "}" then
        match rest with
        | EmptyString => raise ValueError
        | String c' rest' =>
            if Ascii.eqb c' "}"
            then out <- vformat kwargs Text auto rest' ;;
                 ret (String "}" out)
            else raise ValueError
        end
      else
        out <- vformat kwargs Text auto rest ;; ret (String c out)
  | Field _ _, EmptyString => raise ValueError
  | Field depth acc, String c rest =>
      if Ascii.eqb c "}" then
        match depth with
        | O => raise ValueError
        | S O =>
            r <- replace_field acc auto kwargs ;;
            out <- vformat kwargs Text (snd r) rest ;;
            ret (fst r ++ out)
        | S depth' => vformat kwargs (Field depth' (snoc acc c)) auto rest
        end
      else if Ascii.eqb c "{" then
        vformat kwargs (Field (S depth) (snoc acc c)) auto rest
      else
        vformat kwargs (Field depth (snoc acc c)) auto rest
  end.

Definition format (format_string : Py.value) (kwargs : dict Py.value)
  : M State string :=
  match format_string with
  | VStr s => vformat kwargs Text (Auto 0) s
  | _ => raise TypeError
  end.

(** [_expandGcodeTokens] *)
Definition expandGcodeTokens (key : string) (value : Py.value)
           (settings : dict Py.value) : M State string :=
  try_except
    (out <- format value settings ;;
     lift (encode out))
    (fun _ =>
       Logger_log "w"
         "Unabled to do token replacement on start/end gcode %s"
         "traceback" ;;;
       lift (encode (str value))).

(** *** Global settings *)

(** [_getAllChildSettingValues] *)
Fixpoint getAllChildSettingValues (stack : ContainerStack)
         (definition : SettingDefinition) : dict Py.value :=
  match definition with
  | Def _ children =>
      fold_left
        (fun setting_values child =>
           update
             (set setting_values (key child)
                  (getProperty stack (key child) "value"))
             (getAllChildSettingValues stack child))
        children []
  end.

(** The body of the inner loop of [_getAllSettingValues], over the
    definitions of one definition container. *)
Definition collect_definition (stack : ContainerStack)
           (setting_values : dict Py.value)
           (definition : SettingDefinition) : dict Py.value :=
  update
    (set setting_values (key definition)
         (getProperty stack (key definition) "value"))
    (getAllChildSettingValues stack definition).

(** [_getAllSettingValues] *)
Definition getAllSettingValues_of (stack : ContainerStack)
  : dict Py.value :=
  let definition_containers :=
    filter (fun container =>
              is_DefinitionContainer (container_class container))
           (getContainers stack) in
  fold_left
    (fun setting_values definition_container =>
       fold_left (collect_definition stack)
                 (definitions definition_container) setting_values)
    definition_containers [].

Definition getAllSettingValues_job : M State (dict Py.value) :=
  stack <- gets _stack ;;
  match stack with
  | Some stack => ret (getAllSettingValues_of stack)
  | None => raise AttributeError
  end.

(** [needle not in v]: defined when [v] is a string. *)
Definition not_in (needle : string) (v : Py.value) : res bool :=
  match v with
  | VStr s => Val (negb (contains needle s))
  | _ => Exc TypeError
  end.

(** The loop of [_sendGlobalSettings] over [settings.items()]:
    the sub-messages added, in order. *)
Fixpoint setting_messages (items settings : dict Py.value)
  : M State (list Setting) :=
  match items with
  | [] => ret []
  | (key, value) :: rest =>
      bytes <-
        (if String.eqb key "machine_start_gcode"
            || String.eqb key "machine_end_gcode"
         then expandGcodeTokens key value settings
         else lift (encode (str value))) ;;
      more <- setting_messages rest settings ;;
      ret (mkSetting key bytes :: more)
  end.

(** [_sendGlobalSettings] *)
Definition sendGlobalSettings : M State unit :=
  settings <- getAllSettingValues_job ;;
  start_gcode <- lift (getitem settings "machine_start_gcode") ;;
  bed <- lift (not_in "{material_bed_temperature}" start_gcode) ;;
  let settings := set settings "material_bed_temp_prepend" (VBool bed) in
  print <- lift (not_in "{material_print_temperature}" start_gcode) ;;
  let settings :=
    set settings "material_print_temp_prepend" (VBool print) in
  message <- setting_messages settings settings ;;
  sendMessage (SettingList message).

(** *** Per-object settings *)

(** Either loop of [_handlePerObjectSettings] over the items of a
    dictionary: the sub-messages added, in order, each value encoded
    when its turn comes. *)
Fixpoint flatten (d : dict Py.value) : res (list Setting) :=
  match d with
  | [] => Val []
  | (key, value) :: rest =>
      match encode (str value) with
      | Exc e => Exc e
      | Val bytes =>
          match flatten rest with
          | Exc e => Exc e
          | Val more => Val (mkSetting key bytes :: more)
          end
      end
  end.

(** [_handlePerObjectSettings(node, message)]: the sub-messages it adds
    to the [settings] field of [message], in order. *)
Definition handlePerObjectSettings (node : Decorations)
  : res (list Setting) :=
  match match getProfile node with
        | Some profile => flatten profile
        | None => Val []
        end with
  | Exc e => Exc e
  | Val from_profile =>
      match getAllSettingValues node with
      | None => Val from_profile
      | Some object_settings =>
          match flatten object_settings with
          | Exc e => Exc e
          | Val own => Val (from_profile ++ own)%list
          end
      end
  end.

(** *** The scene *)

(** [node.getMeshData() and node.getMeshData().getVertices() is not None] *)
Definition has_vertices (node : SceneNode) : bool :=
  match getMeshData node with
  | Some mesh =>
      match getVertices mesh with Some _ => true | None => false end
  | None => false
  end.

(** The groups in one-at-a-time mode: per printable node of the
    iterator, its descendants and itself that carry vertices. *)
Definition one_at_a_time_groups (root : SceneNode)
  : list (list SceneNode) :=
  flat_map
    (fun node =>
       if outside_buildarea node then []
       else
         let children := (getAllChildren node ++ [node])%list in
         let temp_list :=
           filter (fun child_node =>
                     is_SceneNode child_node && has_vertices child_node)
                  children in
         match temp_list with
         | [] => []
         | _ => [temp_list]
         end)
    (OneAtATimeIterator root).

(** The single group otherwise. *)
Definition all_at_once_groups (root : SceneNode)
  : list (list SceneNode) :=
  let temp_list :=
    filter (fun node =>
              is_SceneNode node && has_vertices node
              && negb (outside_buildarea node))
           (DepthFirstIterator root) in
  match temp_list with
  | [] => []
  | _ => [temp_list]
  end.

(** [verts[:, [1, 2]] = verts[:, [2, 1]]] then [verts[:, 1] *= -1],
    on one row. *)
Definition swap_columns_1_2 (v : vertex) : vertex :=
  let '(c0, c1, c2) := v in (c0, c2, c1).

Definition negate_column_1 (v : vertex) : vertex :=
  let '(c0, c1, c2) := v in (c0, times_minus_one c1, c2).

Definition engine_vertices (verts : list vertex) : list vertex :=
  map negate_column_1 (map swap_columns_1_2 verts).

(** The body of the loop over the objects of a group. *)
Definition object_message (current_object : SceneNode)
  : res (Object vertex) :=
  match getMeshData current_object with
  | None => Exc AttributeError
  | Some mesh =>
      let mesh_data :=
        getTransformed mesh (getWorldTransformation current_object) in
      match getVertices mesh_data with
      | None => Exc IndexError
      | Some verts =>
          match handlePerObjectSettings (callDecoration current_object) with
          | Exc e => Exc e
          | Val own =>
              Val (mkObject (node_id current_object)
                            (engine_vertices verts) own)
          end
      end
  end.

Fixpoint object_messages (group : list SceneNode)
  : res (list (ObjectListEntry vertex)) :=
  match group with
  | [] => Val []
  | current_object :: rest =>
      match object_message current_object with
      | Exc e => Exc e
      | Val obj =>
          match object_messages rest with
          | Exc e => Exc e
          | Val more => Val (AddObject obj :: more)
          end
      end
  end.

(** The body of the loop over the groups: the [object_lists]
    message of one group. *)
Definition group_message (group : list SceneNode)
  : res (list (ObjectListEntry vertex)) :=
  match group with
  | [] => Exc IndexError
  | first :: _ =>
      match getParent first with
      | None => Exc AttributeError
      | Some parent =>
          match (if isGroup parent then handlePerObjectSettings parent
                 else Val []) with
          | Exc e => Exc e
          | Val own =>
              match object_messages group with
              | Exc e => Exc e
              | Val objects => Val (map AddSetting own ++ objects)%list
              end
          end
      end
  end.

Fixpoint group_messages (object_groups : list (list SceneNode))
  : res (list (list (ObjectListEntry vertex))) :=
  match object_groups with
  | [] => Val []
  | group :: rest =>
      match group_message group with
      | Exc e => Exc e
      | Val m =>
          match group_messages rest with
          | Exc e => Exc e
          | Val more => Val (m :: more)
          end
      end
  end.

(** The first part of [run], under the scene lock: the old layer data
    is removed and the groups are collected. *)
Definition collect_groups : M State (list (list SceneNode)) :=
  set_lock true ;;;
  root <- gets scene_root ;;
  match find (fun node => getLayerData (callDecoration node))
             (DepthFirstIterator root) with
  | Some node =>
      match getParent node with
      | Some _ => set_root (removeChild root node)
      | None => raise AttributeError
      end
  | None => ret tt
  end ;;;
  root <- gets scene_root ;;
  global <- gets getGlobalContainerStack ;;
  match global with
  | None => raise AttributeError
  | Some stack =>
      object_groups <-
        (if eq_str (getProperty stack "print_sequence" "value")
                   "one_at_a_time"
         then
           let object_groups := one_at_a_time_groups root in
           match object_groups with
           | [] =>
               Logger_log "w"
                 "No objects suitable for one at a time found, or no correct order found"
                 ""
           | _ => ret tt
           end ;;;
           ret object_groups
         else ret (all_at_once_groups root)) ;;
      set_lock false ;;;
      ret object_groups
  end.

(** [run] *)
Definition run : M State unit :=
  object_groups <- collect_groups ;;
  match object_groups with
  | [] => ret tt
  | _ =>
      sendGlobalSettings ;;;
      object_lists <- lift (group_messages object_groups) ;;
      Logger_log "d" "Sending data to engine for slicing." "" ;;;
      sendMessage (Slice object_lists) ;;;
      Logger_log "d" "Sending data to engine is completed" "" ;;;
      setResult true
  end.

(** A node the groups take: exactly a [SceneNode], with mesh data that
    has a vertex array. *)
Definition printable (node : SceneNode) : bool :=
  is_SceneNode node && has_vertices node.

(** The keys [_sendGlobalSettings] expands as g-code. *)
Definition is_gcode_key (key : string) : bool :=
  String.eqb key "machine_start_gcode" || String.eqb key "machine_end_gcode".

(** The items of a dictionary as name and value, the value as text. *)
Definition pairs (d : dict Py.value) : list Setting :=
  map (fun kv => mkSetting (fst kv) (str (snd kv))) d.

(** The entries a dictionary decoration contributes, none when the
    decoration is absent. *)
Definition entries (d : option (dict Py.value)) : list Setting :=
  match d with
  | Some d => pairs d
  | None => []
  end.

(** Every value of the dictionary has a text UTF-8 can encode. *)
Definition encodable (d : dict Py.value) : Prop :=
  Forall (fun kv => has_surrogate (str (snd kv)) = false) d.

(** The decorations hold no value UTF-8 cannot encode. *)
Definition encodable_decorations (node : Decorations) : Prop :=
  (forall profile, getProfile node = Some profile -> encodable profile)
  /\ (forall object_settings,
        getAllSettingValues node = Some object_settings ->
        encodable object_settings).

(** What the message of one object holds. *)
Definition written_from (node : SceneNode)
           (obj : Object vertex) : Prop :=
  exists mesh verts,
    getMeshData node = Some mesh
    /\ getVertices (getTransformed mesh (getWorldTransformation node))
       = Some verts
    /\ id obj = node_id node
    /\ vertices obj
       = map (fun v : vertex =>
                let '(x, y, z) := v in (x, times_minus_one z, y)) verts
    /\ settings obj
       = (entries (getProfile (callDecoration node))
          ++ entries (getAllSettingValues (callDecoration node)))%list.

End Job.

(** The keys a definition defines: its own and those of its
    descendants. *)
Fixpoint definition_keys (definition : SettingDefinition) : list string :=
  match definition with
  | Def k children => k :: flat_map definition_keys children
  end.

(** The keys defined by the definition containers of a stack. *)
Definition defined_keys (stack : ContainerStack) : list string :=
  flat_map
    (fun container =>
       if is_DefinitionContainer (container_class container)
       then flat_map definition_keys (definitions container)
       else [])
    (getContainers stack).

(** The warning of [run] for an empty one-at-a-time order. *)
Definition no_order_warning : LogEntry :=
  mkLog "w"
        "No objects suitable for one at a time found, or no correct order found"
        "".

(** Every value of the dictionary is the value the stack gives its
    key. *)
Definition current_values (stack : ContainerStack) (d : dict Py.value)
  : Prop :=
  Forall (fun kv => snd kv = getProperty stack (fst kv) "value") d.

(** The current value of every key the stack defines has a text UTF-8
    can encode. *)
Definition values_encodable (stack : ContainerStack) : Prop :=
  forall k,
    In k (defined_keys stack) ->
    has_surrogate (str (getProperty stack k "value")) = false.

End StartSliceJob.

(* ================================================================== *)
(** ** G-code templates, token by token                                *)
(* ================================================================== *)

Module GcodeTemplate.
Import Py StartSliceJob.

(** A template as its author sees it: ordinary characters, escaped
    braces, and placeholders naming a setting. *)
Inductive token : Type :=
| Character (c : ascii)
| OpenBrace
| CloseBrace
| Placeholder (key : string).

Definition is_brace (c : ascii) : bool :=
  Ascii.eqb c "{" || Ascii.eqb c "}".

(** An ordinary character is not a brace; a placeholder names a keyword
    in ASCII: not empty, not a number, free of the characters that make
    a compound field and of characters outside ASCII. *)
Definition well_formed (t : token) : bool :=
  match t with
  | Character c => negb (is_brace c)
  | Placeholder key =>
      negb (String.eqb key "") && negb (all_digits key)
      && negb (is_compound key)
  | _ => true
  end.

(** The text of the template. *)
Definition written (t : token) : string :=
  match t with
  | Character c => String c ""
  | OpenBrace => "{{"
  | CloseBrace => "}}"
  | Placeholder key => "{" ++ key ++ "}"
  end.

Fixpoint render (tokens : list token) : string :=
  match tokens with
  | [] => ""
  | t :: rest => written t ++ render rest
  end.

(** What each token should become: a placeholder the text of the value
    of its setting when the settings have it, itself otherwise. *)
Definition replaced (settings : dict Py.value) (t : token) : string :=
  match t with
  | Character c => String c ""
  | OpenBrace => "{"
  | CloseBrace => "}"
  | Placeholder key =>
      match get settings key with
      | Some v => str v
      | None => "{" ++ key ++ "}"
      end
  end.

Fixpoint expansion (settings : dict Py.value) (tokens : list token)
  : string :=
  match tokens with
  | [] => ""
  | t :: rest => replaced settings t ++ expansion settings rest
  end.

(** The warnings due: one per placeholder the settings do not have. *)
Definition warning (settings : dict Py.value) (t : token) : list LogEntry :=
  match t with
  | Placeholder key =>
      match get settings key with
      | Some _ => []
      | None =>
          [mkLog "w" "Unable to replace '%s' placeholder in start/end gcode"
                 key]
      end
  | _ => []
  end.

Definition warnings (settings : dict Py.value) (tokens : list token)
  : list LogEntry :=
  flat_map (warning settings) tokens.

(** The state with more lines in its log. *)
Definition logged (coord matrix : Type) (st : State coord matrix)
           (lines : list LogEntry) : State coord matrix :=
  mkState (_stack st) (getGlobalContainerStack st) (scene_root st)
          (scene_locked st) (log st ++ lines)%list (sent st) (result st).

(** A computation that changes the state by adding lines to the log
    and in no other way, whether it returns or raises. *)
Definition only_logs (coord matrix A : Type)
           (m : M (State coord matrix) A) : Prop :=
  forall st, exists lines, snd (m st) = logged st lines.

(** The warning of the [except] branch of [_expandGcodeTokens]. *)
Definition fallback_warning : LogEntry :=
  mkLog "w" "Unabled to do token replacement on start/end gcode %s"
        "traceback".

(** The warning of [get_value] for a positional field. *)
Definition incorrectly_formatted (n : N) : LogEntry :=
  mkLog "w" "Incorrectly formatted placeholder '%s' in start/end gcode"
        (str_of_N n).

(** A remainder of a template that starts with a closing brace that is
    not doubled. *)
Definition stray_close (rest : string) : bool :=
  match rest with
  | String c EmptyString => Ascii.eqb c "}"
  | String c (String c' _) => Ascii.eqb c "}" && negb (Ascii.eqb c' "}")
  | EmptyString => false
  end.

(** A remainder that opens a placeholder and never closes it. *)
Definition unterminated (rest : string) : bool :=
  match rest with
  | String c body =>
      Ascii.eqb c "{"
      && forallb (fun c => negb (is_brace c)) (list_ascii_of_string body)
  | EmptyString => false
  end.

(** [needle] occurs in [hay]. *)
Definition occurs (needle hay : string) : Prop :=
  exists before after, hay = before ++ needle ++ after.

(** The characters of a text as tokens. *)
Definition characters (s : string) : list token :=
  map Character (list_ascii_of_string s).

End GcodeTemplate.

(* ================================================================== *)
(** ** Concrete stacks, providers and scenes                           *)
(* ================================================================== *)

Module Examples.
Import Py UM.

(** A container holding the given raw properties of the key
    ["infill_sparse_density"] and nothing else. *)
Definition instances (props : list (string * Py.value)) : Container :=
  mkContainer InstanceContainer
    (Some (fun key prop =>
             if String.eqb key "infill_sparse_density"
             then match get props prop with Some v => v | None => VNone end
             else VNone))
    [].

Definition empty_container : Container := instances [].

(** A function over a real setting, and one over an enum option only. *)
Definition over_layer_height : SettingFunction :=
  mkFunction ["layer_height"] "layer_height * 100".

Definition over_enum_option : SettingFunction :=
  mkFunction ["grid"] "20 if infill_pattern == grid else 10".

(** Properties of a stack with two extruders on the machine; the bound
    key is enabled, user-set, without resolve, settable per extruder. *)
Definition props (count : Z) (limit : Py.value) (key prop : string)
  : Py.value :=
  if String.eqb prop "value" then
    if String.eqb key "machine_extruder_count" then VInt count else VInt 20
  else if String.eqb prop "state" then VState User
  else if String.eqb prop "enabled" then VBool true
  else if String.eqb prop "settable_per_extruder" then VBool true
  else if String.eqb prop "limit_to_extruder" then limit
  else VNone.

Definition all_keys : list string :=
  ["machine_extruder_count"; "infill_sparse_density"; "layer_height"].

Definition global_stack (count : Z) (limit : Py.value) : ContainerStack :=
  mkStack "global" (props count limit)
          [instances [("value", VInt 20)]] None all_keys.

Definition extruder_stack (id : string) (containers : list Container)
  : ContainerStack :=
  mkStack id (props 2 (VStr "-1")) containers
          (Some (global_stack 2 (VStr "-1"))) all_keys.

(** An extruder stack: nothing in the user container, then a function
    over an enum option only, then a function over a real setting. *)
Definition enum_then_setting : ContainerStack :=
  mkStack "extruder_0" (props 2 (VStr "-1"))
          [ empty_container;
            instances [("value", VFunction over_enum_option)];
            instances [("value", VFunction over_layer_height)] ]
          None all_keys.

(** A literal in the user container over a function of a real setting. *)
Definition literal_then_setting : ContainerStack :=
  mkStack "extruder_0" (props 2 (VStr "-1"))
          [ instances [("value", VInt 30)];
            instances [("value", VFunction over_layer_height)] ]
          None all_keys.

Definition provider (stack : ContainerStack) (inherit : bool)
  : CuraPropertyProvider.Provider :=
  CuraPropertyProvider.mkProvider
    "infill_sparse_density" None (getId stack) (Some stack) inherit.

Definition start (stack : ContainerStack) (inherit : bool)
  : CuraPropertyProvider.State :=
  CuraPropertyProvider.mkState (provider stack inherit) [].

(** A machine with the extruders 0 and 1, the first one active. *)
Definition machine (count : Z) (limit : Py.value) : CuraPropertyProvider.Env :=
  CuraPropertyProvider.mkEnv
    (Some (global_stack count limit))
    (fun index =>
       match index with
       | VStr "0" | VInt 0 => Some literal_then_setting
       | VStr "1" | VInt 1 => Some (extruder_stack "extruder_1" [])
       | _ => None
       end)
    "extruder_0"
    (fun id =>
       if String.eqb id "extruder_0" then Some literal_then_setting
       else if String.eqb id "extruder_1"
            then Some (extruder_stack "extruder_1" [])
            else None)
    (fun _ _ => [0%nat]).

(** *** A scene and a job *)

(** Integer coordinates; the world transformation of a node is a shift
    along the first axis. *)
Definition shifted (mesh : StartSliceJob.MeshData Z) (by_x : Z)
  : StartSliceJob.MeshData Z :=
  StartSliceJob.mkMesh
    (match StartSliceJob.getVertices mesh with
     | Some verts =>
         Some (map (fun v : StartSliceJob.vertex Z =>
                      let '(x, y, z) := v in (x + by_x, y, z)) verts)
     | None => None
     end).

Definition minus (c : Z) : Z := c * -1.

Definition plain : StartSliceJob.Decorations :=
  StartSliceJob.mkDecorations false false None None.

(** A group node with a profile. *)
Definition group_node : StartSliceJob.Decorations :=
  StartSliceJob.mkDecorations
    false true (Some [("layer_height", VStr "0.2")]) None.

(** An object under the group node, with one override. *)
Definition child_object : StartSliceJob.SceneNode Z Z :=
  StartSliceJob.mkNode
    1 true (Some (StartSliceJob.mkMesh (Some [(1, 2, 3); (4, 5, 6)]))) 0
    false
    (StartSliceJob.mkDecorations false false None
                                 (Some [("speed", VStr "50")]))
    (Some group_node) [].

(** An object whose profile and whose overrides both set ["speed"]. *)
Definition twice_set : StartSliceJob.Decorations :=
  StartSliceJob.mkDecorations
    false false (Some [("speed", VStr "40")]) (Some [("speed", VStr "50")]).

Definition empty_root : StartSliceJob.SceneNode Z Z :=
  StartSliceJob.mkNode 0 true None 0 false plain None [].

Definition depth_first (root : StartSliceJob.SceneNode Z Z)
  : list (StartSliceJob.SceneNode Z Z) :=
  root :: StartSliceJob.getAllChildren root.

Definition in_print_order (root : StartSliceJob.SceneNode Z Z)
  : list (StartSliceJob.SceneNode Z Z) :=
  StartSliceJob.getAllChildren root.

Definition keep_root (root node : StartSliceJob.SceneNode Z Z)
  : StartSliceJob.SceneNode Z Z := root.

(** U+D800, a lone surrogate, as a text holds it. *)
Definition lone_surrogate : string :=
  String (ascii_of_nat 237)
         (String (ascii_of_nat 160) (String (ascii_of_nat 128) "")).

Definition no_compound_field (field : string)
           (auto : StartSliceJob.auto_arg) (kwargs : dict Py.value)
  : StartSliceJob.field_result := ([], Exc ValueError).

(** A global stack whose definitions know a bed temperature and the
    end g-code, but no start g-code. *)
Definition machine_definitions (keys : list string) : Container :=
  mkContainer DefinitionContainer None (map (fun k => Def k []) keys).

Definition slicing_stack (keys : list string) : ContainerStack :=
  mkStack "global"
          (fun key prop =>
             if String.eqb key "material_bed_temperature" then VInt 60
             else if String.eqb key "machine_start_gcode"
                  then VStr "M140 S{material_bed_temperature}"
                  else VStr "M104 S0")
          [machine_definitions keys] None keys.

Definition job (keys : list string) (root : StartSliceJob.SceneNode Z Z)
  : StartSliceJob.State Z Z :=
  StartSliceJob.mkState (Some (slicing_stack keys))
                        (Some (slicing_stack keys)) root false [] [] None.

Definition bed_settings : dict Py.value :=
  [("material_bed_temperature", VStr "60")].

(** A global stack that has no value for any key. *)
Definition silent_stack (keys : list string) : ContainerStack :=
  mkStack "global" (fun key prop => VNone)
          [machine_definitions keys] None keys.

Definition job_on (stack : ContainerStack)
           (root : StartSliceJob.SceneNode Z Z) : StartSliceJob.State Z Z :=
  StartSliceJob.mkState (Some stack) (Some stack) root false [] [] None.

(** A scene with the group of [child_object] under the root. *)
Definition group_scene_node : StartSliceJob.SceneNode Z Z :=
  StartSliceJob.mkNode 2 true None 0 false group_node (Some plain)
                       [child_object].

Definition scene_root : StartSliceJob.SceneNode Z Z :=
  StartSliceJob.mkNode 0 true None 0 false plain None
                       [group_scene_node; child_object].

(** An object without parent, alone under a root. *)
Definition orphan_object : StartSliceJob.SceneNode Z Z :=
  StartSliceJob.mkNode
    3 true (Some (StartSliceJob.mkMesh (Some [(0, 0, 0)]))) 0 false plain
    None [].

Definition orphan_root : StartSliceJob.SceneNode Z Z :=
  StartSliceJob.mkNode 0 true None 0 false plain None [orphan_object].

(** A global stack set to print one object at a time. *)
Definition sequential_stack : ContainerStack :=
  mkStack "global"
          (fun key prop =>
             if String.eqb key "print_sequence" then VStr "one_at_a_time"
             else VStr "")
          [] None [].

Definition all_keys_defined : list string :=
  ["material_bed_temperature"; "machine_start_gcode"; "machine_end_gcode"].

End Examples.

(* ================================================================== *)
(** ** Stack resolution and the inherit button                         *)
(* ================================================================== *)

Module PropertyProviderProofs.
Import Py UM CuraPropertyProvider.
Local Open Scope list_scope.

Ltac step :=
  unfold updateStack, updateShouldShowInherit, setContainerStackId,
         Logger_log, emit, update_self, bind, ret, gets, lift, modify,
         raise in *;
  simpl in *.

Lemma eqb_key_bound (k : string) : k <> "" -> String.eqb k "" = false.
Proof. intro H. now apply String.eqb_neq. Qed.

Lemma same_stack_refl (g : ContainerStack) : same_stack g g = true.
Proof. unfold same_stack. apply String.eqb_refl. Qed.

Lemma lookup_global (env : Env) :
  lookup_stack env "global" = getGlobalContainerStack env.
Proof. reflexivity. Qed.

(** [_determineInherit] reads the key and the stack of the provider and
    nothing else. *)
Lemma determineInherit_ext (p q : Provider) :
  _key p = _key q -> _stack p = _stack q ->
  determineInherit p = determineInherit q.
Proof.
  intros Hk Hs. unfold determineInherit. now rewrite Hk, Hs.
Qed.

(** C7.  Whenever the key has a resolve override, or its state is not
    [User], or it is not enabled, or the raw value of the topmost
    container is a [SettingFunction], [_determineInherit] returns
    [False], whatever the containers of the stack and of its ancestors
    hold; [shouldShowInherit] is then false once the property has been
    updated. *)
Theorem inherit_hidden_by_guards (st : State) (stack : ContainerStack) :
  _stack (self st) = Some stack ->
  not_None (getProperty stack (_key (self st)) "resolve") = true
  \/ ne_User (getProperty stack (_key (self st)) "state") = true
  \/ truthy (getProperty stack (_key (self st)) "enabled") = false
  \/ (exists top getprop,
         getTop stack = Some top
         /\ container_getProperty top = Some getprop
         /\ isinstance_SettingFunction
              (getprop (_key (self st)) "value") = true) ->
  determineInherit (self st) = Val false
  /\ fst (updateShouldShowInherit st) = Val tt
  /\ shouldShowInherit (self (snd (updateShouldShowInherit st))) = false.
Proof.
  intros Hs Hg.
  assert (Hd : determineInherit (self st) = Val false).
  { unfold determineInherit. rewrite Hs.
    destruct (not_None _); [reflexivity|].
    destruct (ne_User _); [reflexivity|].
    destruct (truthy _); simpl; [|reflexivity].
    destruct Hg as [Hg|[Hg|[Hg|(top & gp & Ht & Hc & Hf)]]];
      try discriminate.
    now rewrite Ht, Hc, Hf. }
  split; [exact Hd|].
  step. rewrite Hd.
  destruct (_should_show_inherit (self st)) eqn:E; simpl; auto.
Qed.

Lemma inherit_hidden_by_guards_witness :
  determineInherit
    (Examples.provider
       (mkStack "extruder_0" (Examples.props 2 (VStr "-1"))
                [Examples.instances
                   [("value", VFunction Examples.over_layer_height)];
                 Examples.instances [("value", VInt 30)]]
                None Examples.all_keys) true) = Val false.
Proof.
  refine (proj1 (@inherit_hidden_by_guards
                   (Examples.start _ true) _ eq_refl _)).
  right; right; right.
  eexists; eexists; repeat split; reflexivity.
Defined.

(** C8.  For a bound key, when the global stack's
    [machine_extruder_count] is at most 1, [_updateStack] returns with
    the provider bound to the global stack, whatever the key's
    [settable_per_extruder] and [limit_to_extruder] are. *)
Theorem single_extruder_targets_global
        (env : Env) (st : State) (g : ContainerStack) (count : Z) :
  _key (self st) <> "" ->
  getGlobalContainerStack env = Some g ->
  getProperty g "machine_extruder_count" "value" = VInt count ->
  count <= 1 ->
  fst (updateStack env st) = Val tt
  /\ _stack_id (self (snd (updateStack env st))) = "global"
  /\ _stack (self (snd (updateStack env st))) = Some g.
Proof.
  intros Hk Hg Hc Hle.
  assert (Hb : (count <=? 1) = true) by now apply Z.leb_le.
  step. rewrite (eqb_key_bound Hk), Hg.
  destruct (differs g _); [destruct (_global_container_stack _)|];
    simpl; rewrite Hc; simpl; rewrite Hb; simpl;
    rewrite ?lookup_global, ?Hg; auto.
Qed.

Lemma single_extruder_targets_global_witness :
  _stack_id
    (self (snd (updateStack (Examples.machine 1 (VStr "0"))
                            (Examples.start Examples.literal_then_setting
                                            false)))) = "global".
Proof.
  refine (proj1 (proj2 (@single_extruder_targets_global
                          (Examples.machine 1 (VStr "0"))
                          (Examples.start Examples.literal_then_setting
                                          false)
                          (Examples.global_stack 1 (VStr "0")) 1
                          _ eq_refl eq_refl _))).
  - discriminate.
  - lia.
Defined.

(** *** The walk over the containers *)

Section Walk.
Variable key : string.
Variable all_keys : list string.

Let sf := holds_setting_function key all_keys.
Let fixed := holds_fixed_value key all_keys.

(** One turn of the loop on a container that holds no function over a
    real setting: the walk goes on, and the second flag is raised when
    the container holds a value. *)
Lemma loop_continues (c : Container) (rest : list Container) (nfv : bool) :
  sf c = false ->
  inherit_loop key all_keys (c :: rest) false nfv
  = inherit_loop key all_keys rest false (nfv || fixed c).
Proof.
  unfold sf, fixed, holds_setting_function, holds_fixed_value, raw_value.
  intro H. simpl.
  destruct (container_getProperty c) as [gp|]; simpl.
  - destruct (gp key "value") as [| | | | |f]; simpl;
      rewrite ?orb_true_r, ?orb_false_r; try reflexivity.
    simpl in H. rewrite H. simpl. now rewrite orb_true_r.
  - now rewrite orb_false_r.
Qed.

(** One turn on a container that holds such a function: the walk stops. *)
Lemma loop_stops (c : Container) (rest : list Container) (nfv : bool) :
  sf c = true ->
  inherit_loop key all_keys (c :: rest) false nfv = (true, nfv).
Proof.
  unfold sf, holds_setting_function, raw_value.
  intro H. simpl.
  destruct (container_getProperty c) as [gp|]; [|discriminate].
  destruct (gp key "value") as [| | | | |f]; try discriminate.
  now rewrite H.
Qed.

Lemma loop_without_function (cs : list Container) (nfv : bool) :
  (forall c, In c cs -> sf c = false) ->
  inherit_loop key all_keys cs false nfv = (false, nfv || existsb fixed cs).
Proof.
  revert nfv. induction cs as [|c cs IH]; intros nfv H.
  - simpl. now rewrite orb_false_r.
  - rewrite loop_continues by (apply H; now left).
    rewrite IH by (intros; apply H; now right).
    simpl. now rewrite orb_assoc.
Qed.

Lemma loop_until_function (above : list Container) (c : Container)
      (below : list Container) (nfv : bool) :
  (forall a, In a above -> sf a = false) ->
  sf c = true ->
  inherit_loop key all_keys (above ++ c :: below) false nfv
  = (true, nfv || existsb fixed above).
Proof.
  revert nfv. induction above as [|a above IH]; intros nfv H Hc.
  - simpl app. rewrite loop_stops by assumption.
    simpl. now rewrite orb_false_r.
  - simpl app. rewrite loop_continues by (apply H; now left).
    rewrite IH by (try assumption; intros; apply H; now right).
    simpl. now rewrite orb_assoc.
Qed.

(** A list either has no element satisfying a test or splits at the
    first one that does. *)
Lemma first_split (f : Container -> bool) (cs : list Container) :
  (forall c, In c cs -> f c = false)
  \/ exists above c below,
       cs = above ++ c :: below /\ f c = true
       /\ forall a, In a above -> f a = false.
Proof.
  induction cs as [|c cs IH].
  - left. intros c [].
  - destruct (f c) eqn:E.
    + right. exists [], c, cs. repeat split; auto. intros a [].
    + destruct IH as [IH|(above & d & below & -> & Hd & Ha)].
      * left. intros a [<-|Ha]; auto.
      * right. exists (c :: above), d, below. repeat split; auto.
        intros a [<-|Hin]; auto.
Qed.

Lemma loop_true_iff (cs : list Container) :
  (let '(a, b) := inherit_loop key all_keys cs false false in a && b) = true
  <-> walk_finds key all_keys fixed cs.
Proof.
  unfold walk_finds. fold sf. split.
  - intro H.
    destruct (first_split sf cs) as [Hn|(above & c & below & -> & Hc & Ha)].
    + rewrite loop_without_function in H by assumption. discriminate.
    + rewrite loop_until_function in H by assumption. simpl in H.
      apply existsb_exists in H. eauto 8.
  - intros (above & c & below & -> & Hc & Ha & l & Hl & Hf).
    rewrite loop_until_function by assumption. simpl.
    apply existsb_exists. eauto.
Qed.

End Walk.

Lemma determineInherit_walk (p : Provider) (stack : ContainerStack) :
  passes_guards p stack ->
  determineInherit p
  = Val (let '(a, b) := inherit_loop (_key p) (getAllKeys stack)
                                     (all_containers stack) false false in
         a && b).
Proof.
  intros (Hs & Hr & Hu & He & top & gp & Ht & Hc & Hf).
  unfold determineInherit. rewrite Hs, Hr, Hu, He, Ht, Hc, Hf. simpl.
  now destruct (inherit_loop _ _ _ _ _).
Qed.

Lemma literal_is_fixed (key : string) (all_keys : list string)
      (c : Container) :
  holds_literal key c = true -> holds_fixed_value key all_keys c = true.
Proof.
  unfold holds_literal, holds_fixed_value.
  destruct (raw_value key c) as [[| | | | |f]|]; auto; discriminate.
Qed.

(** C2, as the code has it.  For a key passing the guards,
    [_determineInherit] is true exactly when the walk over the containers
    of the stack and of its ancestors, top first, reaches a container
    whose function uses a real setting key, where it stops, and has met
    before it a container holding a literal or a function that uses no
    real setting key.  So a walk meeting no function over a real setting
    key (only literals, or only functions over enum options) gives false,
    and a literal above a function over a real setting key gives true. *)
Theorem inherit_iff_fixed_value_above_function
        (p : Provider) (stack : ContainerStack) :
  passes_guards p stack ->
  let key := _key p in
  let all_keys := getAllKeys stack in
  let containers := all_containers stack in
  (determineInherit p = Val true
   <-> walk_finds key all_keys (holds_fixed_value key all_keys) containers)
  /\ ((forall c, In c containers ->
                 holds_setting_function key all_keys c = false) ->
      determineInherit p = Val false)
  /\ (walk_finds key all_keys (holds_literal key) containers ->
      determineInherit p = Val true).
Proof.
  intros Hg key all_keys containers.
  pose proof (determineInherit_walk Hg) as Hd. fold key all_keys containers in Hd.
  pose proof (loop_true_iff key all_keys containers) as Hiff.
  assert (Hi : determineInherit p = Val true
               <-> walk_finds key all_keys
                              (holds_fixed_value key all_keys) containers).
  { rewrite Hd. rewrite <- Hiff. split; [now intros [= ->]|now intros ->]. }
  split; [exact Hi|split].
  - intro Hn. rewrite Hd.
    now rewrite loop_without_function by exact Hn.
  - intros (above & c & below & E & Hc & Ha & l & Hl & Hlit).
    apply Hi. exists above, c, below. repeat split; auto.
    exists l. split; auto. now apply literal_is_fixed.
Qed.

Lemma example_passes_guards (stack : ContainerStack)
      (rest : list Container) (v : Py.value) :
  stack = mkStack "extruder_0" (Examples.props 2 (VStr "-1"))
                  (Examples.instances [("value", v)] :: rest)
                  None Examples.all_keys ->
  isinstance_SettingFunction v = false ->
  passes_guards (Examples.provider stack false) stack.
Proof.
  intros -> Hv. repeat split.
  eexists; eexists; repeat split. exact Hv.
Qed.

Lemma inherit_iff_fixed_value_above_function_witness :
  determineInherit (Examples.provider Examples.literal_then_setting false)
  = Val true.
Proof.
  refine (proj2 (proj2 (@inherit_iff_fixed_value_above_function
                          (Examples.provider Examples.literal_then_setting
                                             false)
                          Examples.literal_then_setting _)) _).
  - eapply example_passes_guards; reflexivity.
  - exists [Examples.instances [("value", VInt 30)]],
           (Examples.instances
              [("value", VFunction Examples.over_layer_height)]), [].
    repeat split.
    + intros a [<-|[]]. reflexivity.
    + eexists. split; [now left|reflexivity].
Defined.

(** C2, as the claim words it, fails: the stack [enum_then_setting] has
    no literal in any container, and [_determineInherit] is true on it,
    the function over an enum option counting as a fixed value. *)
Lemma inherit_without_literal :
  let p := Examples.provider Examples.enum_then_setting false in
  let stack := Examples.enum_then_setting in
  passes_guards p stack
  /\ ~ (determineInherit p = Val true
        <-> walk_finds (_key p) (getAllKeys stack)
                       (holds_literal (_key p)) (all_containers stack)).
Proof.
  intros p stack. split.
  - repeat split. exists Examples.empty_container.
    eexists; repeat split.
  - intros [H _]. specialize (H eq_refl).
    destruct H as (above & c & below & E & _ & _ & l & Hl & Hlit).
    assert (Hin : In l (all_containers stack)).
    { rewrite E. apply in_or_app. now left. }
    simpl in Hin.
    destruct Hin as [<-|[<-|[<-|[]]]]; discriminate.
Qed.

(** *** The passes of [_updateStack] *)

Lemma app_self_nil (A : Type) (l evs : list A) : l = l ++ evs -> evs = [].
Proof.
  intro H. apply (app_inv_head l). now rewrite app_nil_r.
Qed.

(** Settles whether a pass with an explicit trace recomputes. *)
Ltac settle_trace :=
  rewrite <- ?app_assoc; simpl;
  split;
  [ intros (evs & E & Hin);
    first [ apply app_inv_head in E | apply app_self_nil in E ];
    subst evs; simpl in Hin; intuition discriminate
  | intro Hb;
    first [ discriminate
          | eexists; split; [reflexivity|simpl; auto] ] ].

Lemma recomputes_iff_active_extruder (env : Env) (st : State) :
  recomputes_inherit env st <-> branch env (self st) = Val ActiveExtruder.
Proof.
  unfold recomputes_inherit, branch. step.
  destruct (String.eqb (_key (self st)) ""); [settle_trace|].
  destruct (getGlobalContainerStack env) as [g|]; [|settle_trace].
  destruct (differs g _); [destruct (_global_container_stack _)|]; simpl.
  all: destruct (le_int _ 1) as [[|]|e]; simpl; try settle_trace.
  all: destruct (truthy _); simpl; try settle_trace.
  all: destruct (not_None _); simpl.
  all: try (destruct (int _) as [n|e]; simpl; [destruct (0 <=? n); simpl|]).
  all: try settle_trace.
  all: try (destruct (getExtruderStack env _); simpl; settle_trace).
  all: match goal with
       | |- context [determineInherit ?p] =>
           destruct (determineInherit p) as [d|e]; simpl;
           [destruct (Bool.eqb d _); simpl|]
       end.
  all: settle_trace.
Qed.

Lemma differs_self (g : ContainerStack) : differs g (Some g) = false.
Proof. simpl. now rewrite same_stack_refl. Qed.

Lemma determineInherit_canon (p : Provider) :
  determineInherit p
  = determineInherit (mkProvider (_key p) None "" (_stack p) false).
Proof. now apply determineInherit_ext. Qed.

Ltac fields :=
  cbn [negb fst snd self trace _key _global_container_stack _stack_id
       _stack _should_show_inherit].

Ltac canon :=
  repeat match goal with
         | |- context [determineInherit ?p] =>
             lazymatch p with
             | mkProvider _ None "" _ false => fail
             | _ => rewrite (determineInherit_canon p); fields
             end
         end.

Lemma updateStack_idempotent (env : Env) (st : State) :
  let st1 := snd (updateStack env st) in
  fst (updateStack env st1) = fst (updateStack env st)
  /\ self (snd (updateStack env st1)) = self st1.
Proof.
  unfold updateStack, updateShouldShowInherit, setContainerStackId,
         Logger_log, emit, update_self, bind, ret, gets, lift, modify, raise.
  cbn [bound_global module_globals existsb String.eqb Ascii.eqb Bool.eqb orb].
  destruct (String.eqb (_key (self st)) "") eqn:Hk;
    [simpl; rewrite Hk; auto|].
  destruct (getGlobalContainerStack env) as [g|] eqn:Hg;
    [|simpl; rewrite Hk; auto].
  destruct (differs g (_global_container_stack (self st))) eqn:Hd;
    [destruct (_global_container_stack (self st))|]; fields.
  all: destruct (le_int (getProperty g "machine_extruder_count" "value") 1)
    as [[|]|ele] eqn:Hle; fields;
    rewrite ?Hk, ?differs_self, ?Hd, ?Hle; fields; auto.
  all: destruct (truthy (getProperty g (_key (self st))
                                     "settable_per_extruder")) eqn:Ht;
    fields; rewrite ?Hk, ?differs_self, ?Hd, ?Hle, ?Ht; fields; auto.
  all: destruct (not_None (getProperty g (_key (self st))
                                       "limit_to_extruder")) eqn:Hn; fields;
    [ destruct (int (getProperty g (_key (self st)) "limit_to_extruder"))
        as [n|ei] eqn:Hi; fields;
      [ destruct (0 <=? n) eqn:Hz; fields;
        [ destruct (getExtruderStack env
                      (getProperty g (_key (self st)) "limit_to_extruder"))
            eqn:Hx; fields | ] | ] | ].
  all: canon.
  all: try (destruct (determineInherit
                        (mkProvider (_key (self st)) None ""
                           (lookup_stack env (activeExtruderStackId env))
                           false)) as [d|ed] eqn:Hdet; fields;
            [destruct (Bool.eqb d (_should_show_inherit (self st))) eqn:Hb;
             fields|]).
  all: rewrite ?Hk, ?differs_self, ?Hd, ?Hle, ?Ht, ?Hn, ?Hi; fields;
       rewrite ?Hz, ?Hx; fields; canon; rewrite ?Hdet; fields;
       rewrite ?Hb, ?Bool.eqb_reflx; fields; auto.
Qed.

(** C6, as the code has it.  A pass of [_updateStack] calls
    [_updateShouldShowInherit] exactly when it leaves through the last
    branch, the one that binds the provider to the active extruder's
    stack; and a second pass in the same environment ends as the first
    did and leaves the target stack, [shouldShowRevert] and
    [shouldShowInherit] as the first pass left them. *)
Theorem inherit_recomputed_for_active_extruder_only
        (env : Env) (st : State) :
  (recomputes_inherit env st <-> branch env (self st) = Val ActiveExtruder)
  /\ let st1 := snd (updateStack env st) in
     let st2 := snd (updateStack env st1) in
     fst (updateStack env st1) = fst (updateStack env st)
     /\ _stack_id (self st2) = _stack_id (self st1)
     /\ _stack (self st2) = _stack (self st1)
     /\ shouldShowRevert env (self st2) = shouldShowRevert env (self st1)
     /\ shouldShowInherit (self st2) = shouldShowInherit (self st1).
Proof.
  split; [apply recomputes_iff_active_extruder|].
  intros st1 st2.
  destruct (updateStack_idempotent env st) as [Hr Hs].
  fold st1 in Hr, Hs. fold st2 in Hs.
  unfold shouldShowRevert, shouldShowInherit. rewrite Hs. auto.
Qed.

(** C6, as the claim words it, fails: with one extruder the pass leaves
    through the third branch without recomputing; the provider keeps the
    flag it had, here [true], where [_determineInherit] gives [False]. *)
Lemma single_extruder_pass_keeps_inherit :
  let env := Examples.machine 1 (VStr "-1") in
  let st := Examples.start Examples.literal_then_setting true in
  branch env (self st) = Val SingleExtruder
  /\ ~ (recomputes_inherit env st
        <-> branch env (self st) = Val SingleExtruder
            \/ branch env (self st) = Val ActiveExtruder)
  /\ shouldShowInherit (self (snd (updateStack env st))) = true
  /\ determineInherit (self (snd (updateStack env st))) = Val false.
Proof.
  intros env st. split; [reflexivity|split; [|split; reflexivity]].
  intros [_ H]. specialize (H (or_introl eq_refl)).
  apply recomputes_iff_active_extruder in H. discriminate.
Qed.

(** C3.  In the pass that reaches the [limit_to_extruder] branch (a bound
    key, more than one extruder, a key settable per extruder) with a
    non-negative index at which the extruder manager has no stack, the
    call of [Logger.log] raises [NameError]: the module never imports
    [Logger].  The pass records no warning; the target is left as it
    was. *)
Theorem missing_extruder_raises_NameError
        (env : Env) (st : State) (g : ContainerStack) (count n : Z) :
  let key := _key (self st) in
  let limit := getProperty g key "limit_to_extruder" in
  key <> "" ->
  getGlobalContainerStack env = Some g ->
  getProperty g "machine_extruder_count" "value" = VInt count ->
  1 < count ->
  truthy (getProperty g key "settable_per_extruder") = true ->
  not_None limit = true ->
  int limit = Val n ->
  0 <= n ->
  getExtruderStack env limit = None ->
  let st' := snd (updateStack env st) in
  fst (updateStack env st) = Exc (NameError "Logger")
  /\ _stack_id (self st') = _stack_id (self st)
  /\ _stack (self st') = _stack (self st)
  /\ forall lvl k e, In (Log lvl k e) (trace st') ->
                     In (Log lvl k e) (trace st).
Proof.
  intros key limit Hk Hg Hc Hlt Ht Hn Hi Hz Hx. subst key limit.
  assert (Hb : (count <=? 1) = false) by now apply Z.leb_gt.
  assert (Hz' : (0 <=? n) = true) by now apply Z.leb_le.
  unfold updateStack, setContainerStackId, Logger_log, emit, update_self,
         bind, ret, gets, lift, modify, raise.
  cbn [bound_global module_globals existsb String.eqb Ascii.eqb orb].
  rewrite (eqb_key_bound Hk), Hg.
  destruct (differs g _); [destruct (_global_container_stack _)|]; fields;
    rewrite Hc; cbn [le_int]; rewrite Hb, Ht; fields;
    rewrite Hn, Hi; fields; rewrite Hz', Hx; fields;
    repeat split; auto;
    intros lvl k e Hin;
    repeat (apply in_app_or in Hin; destruct Hin as [Hin|Hin]);
    simpl in Hin; intuition discriminate.
Qed.

Lemma missing_extruder_raises_NameError_witness :
  let env := Examples.machine 2 (VStr "5") in
  let st := Examples.start Examples.literal_then_setting false in
  fst (updateStack env st) = Exc (NameError "Logger")
  /\ trace (snd (updateStack env st)) = [Connect "global"]
  /\ _stack_id (self (snd (updateStack env st))) = "extruder_0".
Proof.
  intros env st.
  pose proof (@missing_extruder_raises_NameError
                env st (Examples.global_stack 2 (VStr "5")) 2 5) as H.
  simpl in H.
  destruct H as (Hr & Hid & _); try reflexivity; try lia; try discriminate.
  split; [exact Hr|split; [reflexivity|exact Hid]].
Defined.

End PropertyProviderProofs.

(* ================================================================== *)
(** ** The payload of the slice job                                    *)
(* ================================================================== *)

Module SliceJobProofs.
Import Py UM StartSliceJob GcodeTemplate.
Local Open Scope py_scope.

Lemma append_assoc (a b c : string) :
  ((a ++ b) ++ c = a ++ (b ++ c))%string.
Proof. induction a as [|x a IH]; simpl; [reflexivity|now rewrite IH]. Qed.

Lemma append_nil_r (a : string) : (a ++ "")%string = a.
Proof. induction a as [|x a IH]; simpl; [reflexivity|now rewrite IH]. Qed.

Section Expansion.
Variables coord matrix : Type.
Variable format_compound_field
  : string -> auto_arg -> dict Py.value -> field_result.
Variable settings : dict Py.value.

Local Abbreviation state := (State coord matrix).
Local Abbreviation scan :=
  (@vformat coord matrix format_compound_field settings).

Lemma logged_nil (st : state) : logged st [] = st.
Proof.
  destruct st. unfold logged. simpl. now rewrite app_nil_r.
Qed.

Lemma logged_logged (st : state) (a b : list LogEntry) :
  logged (logged st a) b = logged st (a ++ b).
Proof.
  unfold logged. simpl. now rewrite app_assoc.
Qed.

(** Inside a field, characters other than braces are collected. *)
Lemma scan_field (key : string) :
  forall (acc rest : string) (auto : auto_arg) (st : state),
    forallb (fun c => negb (is_brace c)) (list_ascii_of_string key) = true ->
    scan (Field 1 acc) auto (key ++ String "}" rest)%string st
    = (r <- replace_field format_compound_field (acc ++ key)%string
                          auto settings ;;
       out <- scan Text (snd r) rest ;;
       ret (fst r ++ out)%string) st.
Proof.
  induction key as [|c key IH]; intros acc rest auto st H.
  - simpl. now rewrite append_nil_r.
  - simpl in H. apply andb_prop in H as [Hc Hk].
    unfold is_brace in Hc. apply negb_true_iff, orb_false_elim in Hc.
    destruct Hc as [Ho Hc].
    cbn [append vformat]. rewrite Hc, Ho.
    rewrite IH by assumption. unfold snoc.
    now rewrite append_assoc.
Qed.

Lemma compound_char_brace (c : ascii) :
  compound_char c = false -> is_brace c = false.
Proof.
  unfold compound_char, is_brace. cbn [existsb].
  intro H. apply orb_false_elim in H as [H _].
  repeat (apply orb_false_elim in H as [? H]).
  apply orb_false_intro; assumption.
Qed.

Lemma keyword_no_brace (key : string) :
  is_compound key = false ->
  forallb (fun c => negb (is_brace c)) (list_ascii_of_string key) = true.
Proof.
  unfold is_compound.
  induction (list_ascii_of_string key) as [|c l IH]; simpl; [reflexivity|].
  intro H. apply orb_false_elim in H as [Hc Hl].
  now rewrite (compound_char_brace _ Hc), IH.
Qed.

(** An opening brace before anything but a brace opens a field. *)
Lemma scan_open (k : ascii) (rest : string) (auto : auto_arg) (st : state) :
  Ascii.eqb k "{" = false ->
  scan Text auto (String "{" (String k rest)) st
  = scan (Field 1 "") auto (String k rest) st.
Proof.
  intro H. cbn [vformat Ascii.eqb Bool.eqb]. now rewrite H.
Qed.

(** A keyword placeholder goes through [get_value] with its name. *)
Lemma replace_keyword (key : string) (auto : auto_arg) (st : state) :
  well_formed (Placeholder key) = true ->
  replace_field format_compound_field key auto settings st
  = (Val (replaced settings (Placeholder key), auto),
     logged st (warning settings (Placeholder key))).
Proof.
  simpl. intro H.
  apply andb_prop in H as [H Hc]. apply andb_prop in H as [He Hd].
  apply negb_true_iff in He, Hd, Hc.
  unfold replace_field. rewrite Hc, He, Hd.
  unfold get_value, bind, ret, Logger_log, modify.
  destruct (get settings key) as [v|]; simpl.
  - now rewrite logged_nil.
  - reflexivity.
Qed.

(** The scan of a rendered template yields its expansion and logs the
    warnings due. *)
Lemma scan_render (tokens : list token) :
  Forall (fun t => well_formed t = true) tokens ->
  forall (auto : auto_arg) (st : state),
    scan Text auto (render tokens) st
    = (Val (expansion settings tokens),
       logged st (warnings settings tokens)).
Proof.
  induction 1 as [|t tokens Ht _ IH]; intros auto st.
  - simpl. now rewrite logged_nil.
  - destruct t as [c| | |key].
    + simpl in Ht. unfold is_brace in Ht.
      apply negb_true_iff, orb_false_elim in Ht as [Ho Hc].
      cbn [render written append vformat]. rewrite Ho, Hc.
      unfold bind. rewrite IH. reflexivity.
    + cbn [render written append vformat Ascii.eqb Bool.eqb].
      unfold bind. rewrite IH. reflexivity.
    + cbn [render written append vformat Ascii.eqb Bool.eqb].
      unfold bind. rewrite IH. reflexivity.
    + pose proof Ht as Hw. simpl in Ht.
      apply andb_prop in Ht as [Ht Hc]. apply andb_prop in Ht as [He _].
      apply negb_true_iff in He, Hc.
      destruct key as [|k key]; [discriminate|].
      assert (Hk : Ascii.eqb k "{" = false).
      { unfold is_compound in Hc. simpl in Hc.
        apply orb_false_elim in Hc as [Hc _].
        apply compound_char_brace in Hc. unfold is_brace in Hc.
        now apply orb_false_elim in Hc as [Hc _]. }
      cbn [render written append].
      rewrite scan_open by exact Hk.
      rewrite append_assoc. cbn [append].
      change (String k (key ++ String "}" (render tokens)))%string
        with (String k key ++ String "}" (render tokens))%string.
      rewrite scan_field by now apply keyword_no_brace.
      unfold bind. cbn [append]. rewrite replace_keyword by exact Hw.
      cbn [fst snd]. rewrite IH. unfold ret.
      cbn [warnings flat_map expansion]. now rewrite logged_logged.
Qed.

End Expansion.

(** [_expandGcodeTokens], case by case: what the formatter produced
    when it returned a text UTF-8 can encode; otherwise the warning of
    the [except] branch and the encoding of the text of the value. *)
Lemma expand_cases
      (coord matrix : Type)
      (format_compound_field
       : string -> auto_arg -> dict Py.value -> field_result)
      (key : string) (value : Py.value) (settings : dict Py.value)
      (st : State coord matrix) :
  expandGcodeTokens format_compound_field key value settings st
  = match format format_compound_field value settings st with
    | (Val out, st') =>
        if has_surrogate out
        then (encode (str value), logged st' [fallback_warning])
        else (Val out, st')
    | (Exc _, st') => (encode (str value), logged st' [fallback_warning])
    end.
Proof.
  unfold expandGcodeTokens, try_except, bind, lift, encode.
  destruct (format format_compound_field value settings st)
    as [[out|e] st']; [destruct (has_surrogate out)|]; reflexivity.
Qed.




(** A value UTF-8 cannot encode, put in place of a placeholder, makes
    the expansion fall back: the template comes back as it was, its
    placeholder not replaced although the settings have the key. *)
Example unencodable_value_falls_back :
  let r := expandGcodeTokens
             Examples.no_compound_field "machine_start_gcode"
             (VStr "M117 {machine_name}")
             [("machine_name", VStr Examples.lone_surrogate)]
             (Examples.job [] Examples.empty_root) in
  fst r = Val "M117 {machine_name}"
  /\ log (snd r) = [fallback_warning].
Proof. split; reflexivity. Qed.

(** A placeholder the settings do not have is written back, with a
    warning. *)
Example unknown_placeholder_echoed :
  let r := expandGcodeTokens
             Examples.no_compound_field "machine_end_gcode"
             (VStr "{foo}") Examples.bed_settings
             (Examples.job [] Examples.empty_root) in
  fst r = Val "{foo}"
  /\ log (snd r)
     = [mkLog "w" "Unable to replace '%s' placeholder in start/end gcode"
              "foo"].
Proof. split; reflexivity. Qed.

(** A template the formatter rejects comes back as it was. *)
Example lone_brace_falls_back :
  fst (expandGcodeTokens
         Examples.no_compound_field "machine_end_gcode"
         (VStr "M104 S{material_bed_temperature") Examples.bed_settings
         (Examples.job [] Examples.empty_root))
  = Val "M104 S{material_bed_temperature".
Proof. reflexivity. Qed.

(** *** Dictionaries *)

Section Dict.
Variable V : Type.
Local Open Scope list_scope.

Lemma keys_set (d : dict V) (k' : string) (v : V) (k : string) :
  In k (keys (set d k' v)) <-> k = k' \/ In k (keys d).
Proof.
  unfold keys. induction d as [|[k0 v0] d IH]; simpl.
  - intuition.
  - destruct (String.eqb k' k0) eqn:E; simpl.
    + apply String.eqb_eq in E. subst k0. intuition.
    + rewrite IH. intuition.
Qed.

Lemma keys_update (other d : dict V) (k : string) :
  In k (keys (update d other)) <-> In k (keys d) \/ In k (keys other).
Proof.
  unfold update. revert d.
  induction other as [|[k0 v0] other IH]; intro d; simpl.
  - intuition.
  - rewrite IH, keys_set. simpl. intuition.
Qed.

Lemma get_None (d : dict V) (k : string) :
  get d k = None <-> ~ In k (keys d).
Proof.
  unfold keys. induction d as [|[k0 v0] d IH]; simpl.
  - intuition.
  - destruct (String.eqb k k0) eqn:E.
    + apply String.eqb_eq in E. subst k0. intuition discriminate.
    + apply String.eqb_neq in E. rewrite IH. intuition.
Qed.

End Dict.

(** *** The collected global settings *)

Section Collected.
Variable stack : ContainerStack.
Local Open Scope list_scope.

Lemma SettingDefinition_induction (P : SettingDefinition -> Prop) :
  (forall k children, Forall P children -> P (Def k children)) ->
  forall d, P d.
Proof.
  intro H. fix IH 1. intros [k children]. apply H.
  induction children as [|c children IHc]; constructor.
  - apply IH.
  - exact IHc.
Qed.

(** One turn of either collecting loop adds the keys of a definition. *)
Lemma keys_collect (d : SettingDefinition) (values : dict Py.value)
      (k : string) :
  (forall k, In k (keys (getAllChildSettingValues stack d))
             <-> In k (flat_map definition_keys (children d))) ->
  In k (keys (collect_definition stack values d))
  <-> In k (keys values) \/ In k (definition_keys d).
Proof.
  intro Hd. unfold collect_definition.
  rewrite keys_update, keys_set, Hd.
  destruct d as [k0 cs]. simpl. intuition.
Qed.

Lemma keys_collect_all (ds : list SettingDefinition) :
  Forall (fun d =>
            forall k, In k (keys (getAllChildSettingValues stack d))
                      <-> In k (flat_map definition_keys (children d))) ds ->
  forall (values : dict Py.value) (k : string),
    In k (keys (fold_left (collect_definition stack) ds values))
    <-> In k (keys values) \/ In k (flat_map definition_keys ds).
Proof.
  induction 1 as [|d ds Hd _ IH]; intros values k; simpl.
  - intuition.
  - rewrite IH. rewrite keys_collect by exact Hd.
    rewrite in_app_iff. intuition.
Qed.

Lemma keys_children (d : SettingDefinition) :
  forall k, In k (keys (getAllChildSettingValues stack d))
            <-> In k (flat_map definition_keys (children d)).
Proof.
  induction d as [k0 cs IH] using SettingDefinition_induction. intro k.
  simpl getAllChildSettingValues. simpl children.
  change (fold_left _ cs [])
    with (fold_left (collect_definition stack) cs []).
  rewrite (keys_collect_all IH). simpl. intuition.
Qed.

Lemma keys_containers (cs : list Container) :
  forall (values : dict Py.value) (k : string),
    In k (keys
            (fold_left
               (fun setting_values definition_container =>
                  fold_left (collect_definition stack)
                            (definitions definition_container)
                            setting_values)
               (filter (fun c => is_DefinitionContainer (container_class c))
                       cs)
               values))
    <-> In k (keys values)
        \/ In k (flat_map
                   (fun c =>
                      if is_DefinitionContainer (container_class c)
                      then flat_map definition_keys (definitions c)
                      else [])
                   cs).
Proof.
  induction cs as [|c cs IH]; intros values k; simpl.
  - intuition.
  - destruct (is_DefinitionContainer (container_class c)); simpl.
    + rewrite IH, keys_collect_all, in_app_iff; [intuition|].
      apply Forall_forall. intros d _. apply keys_children.
    + apply IH.
Qed.

(** The collected settings have exactly the keys the definition
    containers of the stack define. *)
Lemma collected_keys (k : string) :
  In k (keys (getAllSettingValues_of stack)) <-> In k (defined_keys stack).
Proof.
  unfold getAllSettingValues_of, defined_keys.
  rewrite keys_containers. simpl. intuition.
Qed.

End Collected.

(** *** The job *)

Section Run.
Variables coord matrix : Type.
Variable times_minus_one : coord -> coord.
Variable getTransformed : MeshData coord -> matrix -> MeshData coord.
Variables DepthFirstIterator OneAtATimeIterator
  : SceneNode coord matrix -> list (SceneNode coord matrix).
Variable removeChild
  : SceneNode coord matrix -> SceneNode coord matrix
    -> SceneNode coord matrix.
Variable format_compound_field
  : string -> auto_arg -> dict Py.value -> field_result.
Local Open Scope list_scope.

Local Abbreviation state := (State coord matrix).
Local Abbreviation collect :=
  (collect_groups DepthFirstIterator OneAtATimeIterator removeChild).

(** Collecting the groups touches neither the stack of the job, nor the
    socket, nor the result. *)
Lemma collect_groups_frame (st : state) :
  let st' := snd (collect st) in
  _stack st' = _stack st /\ sent st' = sent st /\ result st' = result st.
Proof.
  unfold collect_groups, set_lock, set_root, Logger_log, bind, ret, gets,
         modify, raise.
  cbn [fst snd scene_root].
  destruct (find _ _) as [node|]; [destruct (getParent node)|];
    cbn [fst snd scene_root getGlobalContainerStack _stack sent result];
    auto;
    (destruct (getGlobalContainerStack st) as [stack|];
     cbn [fst snd _stack sent result]; auto;
     destruct (eq_str _ _); cbn [fst snd _stack sent result]; auto;
     destruct (one_at_a_time_groups _ _);
     cbn [fst snd _stack sent result]; auto).
Qed.

(** C9.  When the groups collected from the scene are none, [run]
    returns there: it raises nothing, sends neither the settings nor the
    slice message, and leaves the result of the job unset as it was. *)
Theorem no_groups_no_message (st st' : State coord matrix) :
  collect_groups DepthFirstIterator OneAtATimeIterator removeChild st
  = (Val [], st') ->
  run times_minus_one getTransformed DepthFirstIterator OneAtATimeIterator
      removeChild format_compound_field st
  = (Val tt, st')
  /\ sent st' = sent st
  /\ result st' = result st.
Proof.
  intro H. split.
  - unfold run, bind. rewrite H. reflexivity.
  - pose proof (collect_groups_frame st) as F. rewrite H in F.
    simpl in F. tauto.
Qed.

(** C10.  [_sendGlobalSettings] reads [settings["machine_start_gcode"]]
    first of all: when no definition container of the stack defines that
    key it raises [KeyError], having logged and sent nothing, and so does
    a [run] that collected some group; it returns only when the key is
    among those defined. *)
Theorem start_gcode_key_required
        (st : State coord matrix) (stack : ContainerStack) :
  _stack st = Some stack ->
  (~ In "machine_start_gcode" (defined_keys stack) ->
   sendGlobalSettings format_compound_field st
   = (Exc (KeyError "machine_start_gcode"), st)
   /\ forall st0 group groups,
        collect_groups DepthFirstIterator OneAtATimeIterator removeChild st0
        = (Val (group :: groups), st) ->
        run times_minus_one getTransformed DepthFirstIterator
            OneAtATimeIterator removeChild format_compound_field st0
        = (Exc (KeyError "machine_start_gcode"), st))
  /\ (fst (sendGlobalSettings format_compound_field st) = Val tt ->
      In "machine_start_gcode" (defined_keys stack)).
Proof.
  intro Hs.
  assert (Hraise : ~ In "machine_start_gcode" (defined_keys stack) ->
                   sendGlobalSettings format_compound_field st
                   = (Exc (KeyError "machine_start_gcode"), st)).
  { intro Hn. rewrite <- collected_keys in Hn. apply get_None in Hn.
    unfold sendGlobalSettings, getAllSettingValues_job, bind, gets, ret,
           lift, getitem.
    rewrite Hs. cbn beta iota. now rewrite Hn. }
  split.
  - intro Hn. split; [now apply Hraise|].
    intros st0 group groups Hc. unfold run, bind. rewrite Hc.
    now rewrite Hraise.
  - intro Hv.
    destruct (in_dec string_dec "machine_start_gcode" (defined_keys stack))
      as [Hin|Hn]; [exact Hin|].
    rewrite (Hraise Hn) in Hv. discriminate.
Qed.

(** *** The objects of a group *)

(** The two column operations together. *)
Lemma engine_vertices_rows (verts : list (vertex coord)) :
  engine_vertices times_minus_one verts
  = map (fun v : vertex coord =>
           let '(x, y, z) := v in (x, times_minus_one z, y)) verts.
Proof.
  unfold engine_vertices. rewrite map_map. apply map_ext.
  intros [[x y] z]. reflexivity.
Qed.

(** A loop of [_handlePerObjectSettings] that returns has added one
    entry per item, and it returns when every text can be encoded. *)
Lemma flatten_pairs (d : dict Py.value) :
  forall l, flatten d = Val l -> l = pairs d.
Proof.
  induction d as [|[k v] d IH]; simpl; intros l H.
  - now injection H as <-.
  - unfold encode in H. destruct (has_surrogate (str v)); [discriminate|].
    destruct (flatten d) as [more|]; [|discriminate].
    injection H as <-. now rewrite (IH more eq_refl).
Qed.

Lemma flatten_encodable (d : dict Py.value) :
  encodable d -> flatten d = Val (pairs d).
Proof.
  induction 1 as [|[k v] d Hv _ IH]; simpl; [reflexivity|].
  simpl in Hv. unfold encode. now rewrite Hv, IH.
Qed.

Lemma handle_entries (node : Decorations) (l : list Setting) :
  handlePerObjectSettings node = Val l ->
  l = entries (getProfile node) ++ entries (getAllSettingValues node).
Proof.
  unfold handlePerObjectSettings, entries.
  destruct (getProfile node) as [profile|].
  - destruct (flatten profile) as [from_profile|] eqn:Ep; [|discriminate].
    apply flatten_pairs in Ep. subst from_profile.
    destruct (getAllSettingValues node) as [own|].
    + destruct (flatten own) as [l'|] eqn:Eo; [|discriminate].
      apply flatten_pairs in Eo. now intros [= <-]; subst.
    + intros [= <-]. now rewrite app_nil_r.
  - destruct (getAllSettingValues node) as [own|].
    + destruct (flatten own) as [l'|] eqn:Eo; [|discriminate].
      apply flatten_pairs in Eo. now intros [= <-]; subst.
    + now intros [= <-].
Qed.

Lemma handle_encodable (node : Decorations) :
  encodable_decorations node ->
  handlePerObjectSettings node
  = Val (entries (getProfile node) ++ entries (getAllSettingValues node)).
Proof.
  intros [Hp Ho]. unfold handlePerObjectSettings, entries.
  destruct (getProfile node) as [profile|].
  - rewrite (flatten_encodable (Hp profile eq_refl)).
    destruct (getAllSettingValues node) as [own|].
    + now rewrite (flatten_encodable (Ho own eq_refl)).
    + now rewrite app_nil_r.
  - destruct (getAllSettingValues node) as [own|]; [|reflexivity].
    now rewrite (flatten_encodable (Ho own eq_refl)).
Qed.

Lemma object_message_written (node : SceneNode coord matrix)
      (obj : Object (vertex coord)) :
  object_message times_minus_one getTransformed node = Val obj ->
  written_from times_minus_one getTransformed node obj.
Proof.
  unfold object_message, written_from.
  destruct (getMeshData node) as [mesh|]; [|discriminate].
  destruct (getVertices (getTransformed mesh _)) as [verts|] eqn:E;
    [|discriminate].
  destruct (handlePerObjectSettings _) as [own|] eqn:Eh; [|discriminate].
  apply handle_entries in Eh.
  intros [= <-]. exists mesh, verts. simpl.
  rewrite engine_vertices_rows. auto.
Qed.

Lemma object_messages_written (group : list (SceneNode coord matrix)) :
  forall m,
    object_messages times_minus_one getTransformed group = Val m ->
    exists objs, m = map (@AddObject _) objs
                 /\ Forall2 (written_from times_minus_one getTransformed) group objs.
Proof.
  induction group as [|node group IH]; simpl; intros m H.
  - injection H as <-. exists []. split; [reflexivity|constructor].
  - destruct (object_message _ _ node) as [obj|] eqn:E; [|discriminate].
    destruct (object_messages _ _ group) as [more|]; [|discriminate].
    injection H as <-.
    destruct (IH more eq_refl) as (objs & -> & HF).
    exists (obj :: objs). split; [reflexivity|].
    constructor; [now apply object_message_written|exact HF].
Qed.

Lemma objects_of_group (ss : list Setting) (objs : list (Object (vertex coord))) :
  objects_of (map (@AddSetting _) ss ++ map (@AddObject _) objs) = objs.
Proof.
  unfold objects_of. rewrite flat_map_app.
  induction ss as [|x ss IH]; simpl.
  - induction objs as [|o objs IHo]; simpl; [reflexivity|now rewrite IHo].
  - exact IH.
Qed.

(** The message of a group: the settings of the group node when the
    parent of the first object is one, then one object per node. *)
Lemma group_message_layout (group : list (SceneNode coord matrix))
      (m : list (ObjectListEntry (vertex coord))) :
  group_message times_minus_one getTransformed group = Val m ->
  exists first rest parent objs,
    group = first :: rest
    /\ getParent first = Some parent
    /\ m = map (@AddSetting _)
               (if isGroup parent
                then entries (getProfile parent)
                     ++ entries (getAllSettingValues parent)
                else [])
           ++ map (@AddObject _) objs
    /\ Forall2 (written_from times_minus_one getTransformed) group objs.
Proof.
  unfold group_message. destruct group as [|first rest]; [discriminate|].
  destruct (getParent first) as [parent|] eqn:Hp; [|discriminate].
  destruct (if isGroup parent then _ else _) as [own|] eqn:Eo;
    [|discriminate].
  destruct (object_messages _ _ (first :: rest)) as [objects|] eqn:E;
    [|discriminate].
  intros [= <-].
  destruct (object_messages_written _ E) as (objs & -> & HF).
  exists first, rest, parent, objs.
  split; [reflexivity|split; [exact Hp|split; [|exact HF]]].
  destruct (isGroup parent).
  - apply handle_entries in Eo. now subst own.
  - now injection Eo as <-.
Qed.

(** C1, as the code has it.  In the object lists of the slice message
    there is one object per node of the group, in the order of the
    group, and the vertices of an object are those of the node's mesh
    after its world transformation, in their order, each [(x, y, z)]
    written as [(x, -z, y)]. *)
Theorem vertices_in_engine_coordinates
        (object_groups : list (list (SceneNode coord matrix)))
        (object_lists : list (list (ObjectListEntry (vertex coord)))) :
  group_messages times_minus_one getTransformed object_groups
  = Val object_lists ->
  Forall2
    (fun group m =>
       Forall2
         (fun node obj =>
            exists mesh verts,
              getMeshData node = Some mesh
              /\ getVertices
                   (getTransformed mesh (getWorldTransformation node))
                 = Some verts
              /\ vertices obj
                 = map (fun v : vertex coord =>
                          let '(x, y, z) := v in (x, times_minus_one z, y))
                       verts)
         group (objects_of m))
    object_groups object_lists.
Proof.
  revert object_lists.
  induction object_groups as [|group groups IH]; simpl; intros lists H.
  - injection H as <-. constructor.
  - destruct (group_message _ _ group) as [m|] eqn:E; [|discriminate].
    destruct (group_messages _ _ groups) as [more|]; [|discriminate].
    injection H as <-. constructor; [|now apply IH].
    destruct (group_message_layout _ E)
      as (first & rest & parent & objs & _ & _ & -> & HF).
    rewrite objects_of_group.
    clear E. induction HF as [|node obj g os Hw _ IHF]; constructor; auto.
    destruct Hw as (mesh & verts & Hm & Hv & _ & Hx & _).
    exists mesh, verts. auto.
Qed.

(** C4, as the code has it.  The message of a group starts with the
    entries of the group node (its profile, then its own overrides) when
    the parent of the first object is a group node, and the objects
    follow; the settings of each object are the entries of its profile
    followed by the entries of its overrides, one entry per pair, those
    of a key set in both included. *)
Theorem settings_profile_then_overrides
        (group : list (SceneNode coord matrix))
        (m : list (ObjectListEntry (vertex coord))) :
  group_message times_minus_one getTransformed group = Val m ->
  exists first rest parent objs,
    group = first :: rest
    /\ getParent first = Some parent
    /\ m = map (@AddSetting _)
               (if isGroup parent
                then entries (getProfile parent)
                     ++ entries (getAllSettingValues parent)
                else [])
           ++ map (@AddObject _) objs
    /\ Forall2
         (fun node obj =>
            let decorations := callDecoration node in
            settings obj
            = entries (getProfile decorations)
              ++ entries (getAllSettingValues decorations)
            /\ List.length (settings obj)
               = (List.length (entries (getProfile decorations))
                  + List.length
                      (entries (getAllSettingValues decorations)))%nat)
         group objs.
Proof.
  intro H.
  destruct (group_message_layout _ H)
    as (first & rest & parent & objs & Hg & Hp & Hm & HF).
  exists first, rest, parent, objs. repeat split; auto.
  clear - HF. induction HF as [|node obj g os Hw _ IHF]; constructor; auto.
  destruct Hw as (_ & _ & _ & _ & _ & _ & Hs).
  cbv zeta. rewrite Hs. split; [reflexivity|apply length_app].
Qed.

End Run.

Local Open Scope list_scope.

Lemma vertices_in_engine_coordinates_witness :
  exists m obj,
    group_messages Examples.minus Examples.shifted [[Examples.child_object]]
    = Val [m]
    /\ objects_of m = [obj]
    /\ vertices obj = [(1, -3, 2); (4, -6, 5)].
Proof.
  destruct (group_messages Examples.minus Examples.shifted
                           [[Examples.child_object]])
    as [lists|] eqn:E; [|discriminate].
  pose proof (vertices_in_engine_coordinates _ _ _ E) as H.
  injection E as <-.
  inversion_clear H as [|g m gs ms Hm _].
  inversion_clear Hm as [|node obj ns os Hobj _].
  destruct Hobj as (mesh & verts & Hmesh & Hverts & Hx).
  injection Hmesh as <-. injection Hverts as <-.
  eexists; eexists. split; [reflexivity|split; [reflexivity|exact Hx]].
Defined.

(** C1, as the claim words it, fails: the object at the origin with the
    vertices [(1, 2, 3)] and [(4, 5, 6)] is written with [(1, -3, 2)] and
    [(4, -6, 5)], not with [(1, 3, -2)] and [(4, 6, -5)]. *)
Lemma vertex_not_written_x_z_minus_y :
  exists obj,
    object_message Examples.minus Examples.shifted Examples.child_object
    = Val obj
    /\ vertices obj = [(1, -3, 2); (4, -6, 5)]
    /\ vertices obj
       <> map (fun v : vertex Z => let '(x, y, z) := v in (x, z, - y))
              [(1, 2, 3); (4, 5, 6)].
Proof.
  eexists. split; [reflexivity|]. split; [reflexivity|discriminate].
Qed.

Lemma settings_profile_then_overrides_witness :
  exists m obj,
    group_message Examples.minus Examples.shifted [Examples.child_object]
    = Val m
    /\ m = [AddSetting (mkSetting "layer_height" "0.2"); AddObject obj]
    /\ settings obj = [mkSetting "speed" "50"].
Proof.
  destruct (group_message Examples.minus Examples.shifted
                          [Examples.child_object]) as [m|] eqn:E;
    [|discriminate].
  destruct (settings_profile_then_overrides _ _ _ E)
    as (first & rest & parent & objs & Hg & Hp & Hm & HF).
  injection Hg as <- <-. injection Hp as <-.
  inversion HF as [|node obj ns os [Hs _] Hrest]; subst.
  inversion Hrest; subst.
  exists (map (@AddSetting _)
              (entries (getProfile Examples.group_node)
               ++ entries (getAllSettingValues Examples.group_node))
          ++ [AddObject obj]), obj.
  split; [reflexivity|split; [reflexivity|exact Hs]].
Defined.

(** C4, as the claim words it, fails: a key set in the profile and in the
    overrides is sent twice, where merging the overrides into the profile
    would leave one entry. *)
Lemma duplicate_key_sent_twice :
  handlePerObjectSettings Examples.twice_set
  = Val [mkSetting "speed" "40"; mkSetting "speed" "50"]
  /\ handlePerObjectSettings Examples.twice_set
     <> flatten (update [("speed", VStr "40")] [("speed", VStr "50")]).
Proof.
  split; [reflexivity|discriminate].
Qed.

Lemma no_groups_no_message_witness :
  let st := Examples.job [] Examples.empty_root in
  let r := run Examples.minus Examples.shifted Examples.depth_first
               Examples.in_print_order Examples.keep_root
               Examples.no_compound_field st in
  fst r = Val tt /\ sent (snd r) = [] /\ result (snd r) = None.
Proof.
  intros st r.
  destruct (@no_groups_no_message
              Z Z Examples.minus Examples.shifted Examples.depth_first
              Examples.in_print_order Examples.keep_root
              Examples.no_compound_field st st eq_refl) as (Hr & Hs & Hres).
  subst r. rewrite Hr. repeat split.
Defined.

Lemma start_gcode_key_required_witness :
  let keys := ["material_bed_temperature"; "machine_end_gcode"] in
  let st := Examples.job keys Examples.empty_root in
  sendGlobalSettings Examples.no_compound_field st
  = (Exc (KeyError "machine_start_gcode"), st).
Proof.
  intros keys st.
  refine (proj1 (proj1 (@start_gcode_key_required
                          Z Z Examples.minus Examples.shifted
                          Examples.depth_first Examples.in_print_order
                          Examples.keep_root Examples.no_compound_field
                          st (Examples.slicing_stack keys) eq_refl) _)).
  simpl. intuition discriminate.
Defined.

(** With the start g-code among the definitions, the settings go out:
    the derived flags after the collected ones, the g-code expanded. *)
Example global_settings_sent :
  let keys := ["material_bed_temperature"; "machine_start_gcode"] in
  let r := sendGlobalSettings Examples.no_compound_field
                              (Examples.job keys Examples.empty_root) in
  fst r = Val tt
  /\ sent (snd r)
     = [SettingList
          [mkSetting "material_bed_temperature" "60";
           mkSetting "machine_start_gcode" "M140 S60";
           mkSetting "material_bed_temp_prepend" "False";
           mkSetting "material_print_temp_prepend" "True"]].
Proof. split; reflexivity. Qed.

End SliceJobProofs.

(* ================================================================== *)
(** ** More on the passes and handlers of the provider                *)
(* ================================================================== *)

Module PropertyProviderExtras.
Import Py UM CuraPropertyProvider PropertyProviderProofs.
Local Open Scope list_scope.

Ltac open_pass :=
  unfold updateStack, updateShouldShowInherit, setContainerStackId,
         Logger_log, emit, update_self, bind, ret, gets, lift, modify, raise;
  cbn [bound_global module_globals existsb String.eqb Ascii.eqb Bool.eqb orb].

(** X1.  Without a bound key, or while the application has no global
    stack, a pass of [_updateStack] returns at once: no attribute
    changes, no signal is connected, no stack id is set. *)
Theorem pass_deferred (env : Env) (st : State) :
  _key (self st) = "" \/ getGlobalContainerStack env = None ->
  updateStack env st = (Val tt, st).
Proof.
  intros [H|H]; open_pass.
  - now rewrite H.
  - destruct (String.eqb _ ""); [reflexivity|]. now rewrite H.
Qed.

Lemma pass_deferred_witness :
  updateStack
    (mkEnv None (fun _ => None) "extruder_0" (fun _ => None)
           (fun _ _ => []))
    (Examples.start Examples.literal_then_setting true)
  = (Val tt, Examples.start Examples.literal_then_setting true).
Proof.
  apply pass_deferred. now right.
Defined.

(** X2.  With more than one extruder and a key that is not settable per
    extruder, the pass binds the provider to the global stack, returns,
    and leaves [shouldShowInherit] as it was; its only events are those
    of the signal connection and the one stack id set. *)
Theorem not_settable_targets_global
        (env : Env) (st : State) (g : ContainerStack) (count : Z) :
  _key (self st) <> "" ->
  getGlobalContainerStack env = Some g ->
  getProperty g "machine_extruder_count" "value" = VInt count ->
  1 < count ->
  truthy (getProperty g (_key (self st)) "settable_per_extruder") = false ->
  let st' := snd (updateStack env st) in
  fst (updateStack env st) = Val tt
  /\ _stack_id (self st') = "global"
  /\ _stack (self st') = Some g
  /\ shouldShowInherit (self st') = shouldShowInherit (self st)
  /\ trace st'
     = trace st
       ++ connection_events g (_global_container_stack (self st))
       ++ [SetContainerStackId "global"].
Proof.
  intros Hk Hg Hc Hlt Ht.
  assert (Hb : (count <=? 1) = false) by now apply Z.leb_gt.
  open_pass. unfold connection_events, shouldShowInherit.
  rewrite (eqb_key_bound Hk), Hg.
  destruct (differs g _); [destruct (_global_container_stack _)|]; fields;
    rewrite Hc; cbn [le_int]; rewrite Hb, Ht; fields;
    rewrite ?lookup_global, ?Hg; rewrite <- ?app_assoc; auto.
Qed.

Lemma not_settable_targets_global_witness :
  let g := mkStack "global"
                   (fun key prop =>
                      if String.eqb prop "value" then VInt 2 else VBool false)
                   [] None [] in
  let env := mkEnv (Some g) (fun _ => None) "extruder_0" (fun _ => None)
                   (fun _ _ => []) in
  _stack_id
    (self (snd (updateStack
                  env (Examples.start Examples.literal_then_setting true))))
  = "global".
Proof.
  intros g env.
  refine (proj1 (proj2 (@not_settable_targets_global
                          env (Examples.start Examples.literal_then_setting
                                              true) g 2 _ eq_refl eq_refl
                          _ eq_refl))).
  all: first [discriminate | reflexivity].
Defined.

(** X3.  With more than one extruder, a key settable per extruder and a
    non-negative [limit_to_extruder] at which the extruder manager has a
    stack, the pass sets the id of that stack, returns without logging,
    and leaves [shouldShowInherit] as it was. *)
Theorem limited_targets_extruder
        (env : Env) (st : State) (g x : ContainerStack) (count n : Z) :
  let key := _key (self st) in
  let limit := getProperty g key "limit_to_extruder" in
  key <> "" ->
  getGlobalContainerStack env = Some g ->
  getProperty g "machine_extruder_count" "value" = VInt count ->
  1 < count ->
  truthy (getProperty g key "settable_per_extruder") = true ->
  not_None limit = true ->
  int limit = Val n ->
  0 <= n ->
  getExtruderStack env limit = Some x ->
  let st' := snd (updateStack env st) in
  fst (updateStack env st) = Val tt
  /\ _stack_id (self st') = getId x
  /\ shouldShowInherit (self st') = shouldShowInherit (self st)
  /\ trace st'
     = trace st
       ++ connection_events g (_global_container_stack (self st))
       ++ [SetContainerStackId (getId x)].
Proof.
  intros key limit Hk Hg Hc Hlt Ht Hn Hi Hz Hx. subst key limit.
  assert (Hb : (count <=? 1) = false) by now apply Z.leb_gt.
  assert (Hz' : (0 <=? n) = true) by now apply Z.leb_le.
  open_pass. unfold connection_events, shouldShowInherit.
  rewrite (eqb_key_bound Hk), Hg.
  destruct (differs g _); [destruct (_global_container_stack _)|]; fields;
    rewrite Hc; cbn [le_int]; rewrite Hb, Ht; fields;
    rewrite Hn, Hi; fields; rewrite Hz', Hx; fields;
    rewrite <- ?app_assoc; auto.
Qed.

Lemma limited_targets_extruder_witness :
  let env := Examples.machine 2 (VStr "1") in
  let st := Examples.start Examples.literal_then_setting false in
  _stack_id (self (snd (updateStack env st))) = "extruder_1".
Proof.
  intros env st.
  refine (proj1 (proj2 (@limited_targets_extruder
                          env st (Examples.global_stack 2 (VStr "1"))
                          (Examples.extruder_stack "extruder_1" []) 2 1
                          _ eq_refl eq_refl _ eq_refl eq_refl eq_refl _
                          eq_refl))).
  all: first [discriminate | reflexivity].
Defined.

(** *** Recomputing the flag *)

Lemma eqb_true_eq (a b : bool) : Bool.eqb a b = true -> a = b.
Proof. now destruct a, b. Qed.

(** X4.  When [_determineInherit] answers [d], [_updateShouldShowInherit]
    leaves the flag at [d] and emits [shouldShowInheritChanged] exactly
    when the flag changed; called again at once, it recomputes, changes
    nothing and emits nothing. *)
Theorem inherit_signal_on_change_only (st : State) (d : bool) :
  determineInherit (self st) = Val d ->
  let st1 := snd (updateShouldShowInherit st) in
  fst (updateShouldShowInherit st) = Val tt
  /\ shouldShowInherit (self st1) = d
  /\ trace st1
     = trace st
       ++ DetermineInherit :: change_events (shouldShowInherit (self st)) d
  /\ updateShouldShowInherit st1
     = (Val tt, mkState (self st1) (trace st1 ++ [DetermineInherit])).
Proof.
  intro Hd. open_pass. unfold change_events, shouldShowInherit.
  fields. rewrite Hd. fields.
  destruct (Bool.eqb d (_should_show_inherit (self st))) eqn:Hb; fields.
  - apply eqb_true_eq in Hb. rewrite Hd. fields.
    rewrite Hb, Bool.eqb_reflx. auto.
  - canon. rewrite (determineInherit_canon (self st)) in Hd.
    rewrite Hd. fields. rewrite Bool.eqb_reflx.
    rewrite <- app_assoc. auto.
Qed.

Lemma inherit_signal_on_change_only_witness :
  trace (snd (updateShouldShowInherit
                (Examples.start Examples.literal_then_setting false)))
  = [DetermineInherit; Emit "shouldShowInheritChanged"].
Proof.
  exact (proj1 (proj2 (proj2 (@inherit_signal_on_change_only
                                (Examples.start Examples.literal_then_setting
                                                false) true eq_refl)))).
Defined.

(** After [_updateShouldShowInherit] has returned, the flag is what
    [_determineInherit] answers on the provider as it then is. *)
Lemma flag_agrees_after_update (st : State) :
  fst (updateShouldShowInherit st) = Val tt ->
  determineInherit (self (snd (updateShouldShowInherit st)))
  = Val (shouldShowInherit (self (snd (updateShouldShowInherit st)))).
Proof.
  open_pass. unfold shouldShowInherit. fields.
  destruct (determineInherit (self st)) as [d|e] eqn:Hd; fields;
    [|discriminate].
  intros _.
  destruct (Bool.eqb d (_should_show_inherit (self st))) eqn:Hb; fields.
  - apply eqb_true_eq in Hb. now rewrite Hd, Hb.
  - canon. now rewrite <- determineInherit_canon.
Qed.

(** X5.  In the pass that binds the provider to the active extruder's
    stack, when [_determineInherit] answers [d] on that stack, the pass
    returns with the id of the active extruder's stack set and
    [shouldShowInherit] equal to [d]; after the events of the signal
    connection it sets the stack id, recomputes, and emits the change
    signal exactly when the flag changed. *)
Theorem active_extruder_pass
        (env : Env) (st : State) (g : ContainerStack) (d : bool) :
  getGlobalContainerStack env = Some g ->
  branch env (self st) = Val ActiveExtruder ->
  inherit_on (_key (self st))
             (lookup_stack env (activeExtruderStackId env)) = Val d ->
  let st' := snd (updateStack env st) in
  fst (updateStack env st) = Val tt
  /\ _stack_id (self st') = activeExtruderStackId env
  /\ shouldShowInherit (self st') = d
  /\ trace st'
     = trace st
       ++ connection_events g (_global_container_stack (self st))
       ++ [SetContainerStackId (activeExtruderStackId env);
           DetermineInherit]
       ++ change_events (shouldShowInherit (self st)) d.
Proof.
  unfold branch, inherit_on. intros Hg Hbr Hd. open_pass.
  unfold connection_events, change_events, shouldShowInherit.
  rewrite Hg in *.
  destruct (String.eqb (_key (self st)) ""); [discriminate|].
  destruct (le_int _ 1) as [[|]|ele]; try discriminate.
  destruct (truthy _); simpl in Hbr; [|discriminate].
  destruct (not_None (getProperty g (_key (self st)) "limit_to_extruder"))
    eqn:Hn;
    [ destruct (int (getProperty g (_key (self st)) "limit_to_extruder"))
        as [n|ei] eqn:Hi; [destruct (0 <=? n) eqn:Hz|] | ];
    try discriminate.
  all: destruct (_global_container_stack (self st)) as [o|];
    [destruct (differs g (Some o))|cbn [differs]];
    fields; rewrite ?Hn, ?Hi; fields; rewrite ?Hz; fields;
    canon; rewrite Hd; fields;
    (destruct (Bool.eqb d (_should_show_inherit (self st))) eqn:Hb; fields;
     [apply eqb_true_eq in Hb|]);
    (repeat split; auto; rewrite <- ?app_assoc; reflexivity).
Qed.

Lemma active_extruder_pass_witness :
  let env := Examples.machine 2 (VStr "-1") in
  let st := Examples.start Examples.literal_then_setting false in
  shouldShowInherit (self (snd (updateStack env st))) = true.
Proof.
  intros env st.
  exact (proj1 (proj2 (proj2 (@active_extruder_pass
                                env st (Examples.global_stack 2 (VStr "-1"))
                                true eq_refl eq_refl eq_refl)))).
Defined.

(** *** The connection to the global stack *)

Ltac settle_connection g :=
  try match goal with
      | H : _global_container_stack _ = _ |- _ => rewrite !H
      end;
  split;
  [ eexists; split; [reflexivity|];
    first [ apply same_stack_refl
          | match goal with
            | H : differs _ (Some _) = false |- _ =>
                simpl in H; apply negb_false_iff in H; exact H
            end ]
  | eexists; split;
    [ rewrite <- ?app_assoc; simpl;
      first [reflexivity | symmetry; apply app_nil_r]
    | intros id; simpl; intuition discriminate ] ].

(** X6.  A pass with a bound key and a global stack [g] leaves the
    provider tracking a stack with the id of [g], however the pass ends;
    it disconnects and connects the [propertiesChanged] signal only in
    its first lines, and there only when the tracked stack differs from
    [g]: a provider that tracks [g] already is not connected a second
    time. *)
Theorem global_stack_connected_once
        (env : Env) (st : State) (g : ContainerStack) :
  _key (self st) <> "" ->
  getGlobalContainerStack env = Some g ->
  let st' := snd (updateStack env st) in
  (exists o, _global_container_stack (self st') = Some o
             /\ same_stack g o = true)
  /\ exists events,
       trace st'
       = trace st
         ++ connection_events g (_global_container_stack (self st))
         ++ events
       /\ forall id, ~ In (Connect id) events /\ ~ In (Disconnect id) events.
Proof.
  intros Hk Hg. open_pass. unfold connection_events.
  rewrite (eqb_key_bound Hk), Hg.
  destruct (_global_container_stack (self st)) as [o|] eqn:Ho;
    [destruct (differs g (Some o)) eqn:Hdf|cbn [differs]]; fields.
  all: destruct (le_int _ 1) as [[|]|ele]; fields;
    try solve [settle_connection g].
  all: destruct (truthy _); fields; try solve [settle_connection g].
  all: destruct (not_None _); fields;
    [ destruct (int _) as [n|ei]; fields; [destruct (0 <=? n); fields|] | ];
    try solve [settle_connection g].
  all: try (destruct (getExtruderStack env _); fields;
            solve [settle_connection g]).
  all: match goal with
       | |- context [determineInherit ?p] =>
           destruct (determineInherit p) as [d|ed]; fields;
           [destruct (Bool.eqb d _); fields|]
       end;
    solve [settle_connection g].
Qed.

Lemma global_stack_connected_once_witness :
  let env := Examples.machine 2 (VStr "-1") in
  let st := Examples.start Examples.literal_then_setting true in
  exists o,
    _global_container_stack (self (snd (updateStack env st))) = Some o
    /\ same_stack (Examples.global_stack 2 (VStr "-1")) o = true.
Proof.
  intros env st.
  refine (proj1 (@global_stack_connected_once
                   env st (Examples.global_stack 2 (VStr "-1")) _ eq_refl)).
  discriminate.
Defined.

(** *** What the walk depends on *)

Lemma loop_inspected (key : string) (all_keys : list string)
      (cs : list Container) :
  forall nfv,
    inherit_loop key all_keys cs false nfv
    = inherit_loop key all_keys (inspected key all_keys cs) false nfv.
Proof.
  induction cs as [|c cs IH]; intro nfv; [reflexivity|].
  cbn [inspected].
  destruct (holds_setting_function key all_keys c) eqn:Hsf.
  - now rewrite !loop_stops.
  - rewrite loop_continues by exact Hsf.
    destruct (holds_fixed_value key all_keys c) eqn:Hf.
    + rewrite (@loop_continues key all_keys c (inspected key all_keys cs))
        by exact Hsf.
      rewrite Hf. apply IH.
    + rewrite orb_false_r. apply IH.
Qed.

(** X7.  For providers passing the guards, [_determineInherit] depends
    on the containers only through those that answer with a value for
    the key, in order, down to the first function over a real setting
    key: containers without [getProperty], containers silent on the key,
    the boundaries between a stack and its ancestors, and everything
    below that function do not matter. *)
Theorem inherit_depends_on_inspected
        (p p' : Provider) (stack stack' : ContainerStack) :
  passes_guards p stack ->
  passes_guards p' stack' ->
  _key p = _key p' ->
  getAllKeys stack = getAllKeys stack' ->
  inspected (_key p) (getAllKeys stack) (all_containers stack)
  = inspected (_key p) (getAllKeys stack) (all_containers stack') ->
  determineInherit p = determineInherit p'.
Proof.
  intros Hg Hg' Hk Ha Hi.
  rewrite (determineInherit_walk Hg), (determineInherit_walk Hg').
  rewrite <- Hk, <- Ha.
  rewrite loop_inspected.
  rewrite (loop_inspected (_key p) (getAllKeys stack) (all_containers stack')).
  now rewrite Hi.
Qed.

Lemma inherit_depends_on_inspected_witness :
  let longer :=
    mkStack "extruder_0" (Examples.props 2 (VStr "-1"))
            [ Examples.instances [("value", VInt 30)];
              mkContainer OtherContainer None [];
              Examples.empty_container ]
            (Some (mkStack "global" (Examples.props 2 (VStr "-1"))
                           [ Examples.instances
                               [("value",
                                 VFunction Examples.over_layer_height)];
                             Examples.instances [("value", VInt 10)] ]
                           None Examples.all_keys))
            Examples.all_keys in
  determineInherit (Examples.provider Examples.literal_then_setting false)
  = determineInherit (Examples.provider longer false).
Proof.
  intro longer.
  apply (@inherit_depends_on_inspected
           (Examples.provider Examples.literal_then_setting false)
           (Examples.provider longer false)
           Examples.literal_then_setting longer).
  - eapply example_passes_guards; reflexivity.
  - repeat split. eexists; eexists; repeat split.
  - reflexivity.
  - reflexivity.
  - reflexivity.
Defined.

(** *** The notification handlers *)

(** X8.  [_onLimitToExtruderChanged] does nothing for a notification
    about another key, nor for one that names neither
    [limit_to_extruder] nor [value]. *)
Theorem notification_filtered
        (env : Env) (st : State) (key : string) (names : list string) :
  key <> _key (self st)
  \/ (existsb (String.eqb "limit_to_extruder") names = false
      /\ existsb (String.eqb "value") names = false) ->
  onLimitToExtruderChanged env key names st = (Val tt, st).
Proof.
  unfold onLimitToExtruderChanged, bind, gets, ret.
  intros [H|[Hl Hv]].
  - apply String.eqb_neq in H. now rewrite H.
  - rewrite Hl, Hv. now destruct (negb _).
Qed.

Lemma notification_filtered_witness :
  onLimitToExtruderChanged
    (Examples.machine 2 (VStr "-1")) "layer_height" ["value"]
    (Examples.start Examples.literal_then_setting false)
  = (Val tt, Examples.start Examples.literal_then_setting false).
Proof.
  apply notification_filtered. left. discriminate.
Defined.

(** X9.  Once a notification has been handled without an exception (by
    [_onPropertiesChanged] whatever the handler of the base class did
    before, or by [_onLimitToExtruderChanged] for the bound key when
    [value] is among the names), [shouldShowInherit] is what
    [_determineInherit] answers on the provider as it then is. *)
Theorem flag_agrees_after_notification
        (env : Env) (st : State) (key : string) (names : list string)
        (super_handler : string -> list string -> M State unit) :
  (fst (onPropertiesChanged super_handler key names st) = Val tt ->
   let st' := snd (onPropertiesChanged super_handler key names st) in
   determineInherit (self st') = Val (shouldShowInherit (self st')))
  /\ (existsb (String.eqb "value") names = true ->
      fst (onLimitToExtruderChanged env (_key (self st)) names st) = Val tt ->
      let st' :=
        snd (onLimitToExtruderChanged env (_key (self st)) names st) in
      determineInherit (self st') = Val (shouldShowInherit (self st'))).
Proof.
  split.
  - unfold onPropertiesChanged, bind.
    destruct (super_handler key names st) as [[[]|e] st1]; [|discriminate].
    apply flag_agrees_after_update.
  - intro Hv. unfold onLimitToExtruderChanged, bind, gets.
    rewrite String.eqb_refl, Hv. cbn [negb].
    destruct ((if existsb (String.eqb "limit_to_extruder") names
               then updateStack env else ret tt) st) as [[[]|e] st1];
      [|discriminate].
    apply flag_agrees_after_update.
Qed.

Lemma flag_agrees_after_notification_witness :
  let st := Examples.start Examples.literal_then_setting false in
  let st' := snd (onLimitToExtruderChanged
                    (Examples.machine 1 (VStr "-1"))
                    "infill_sparse_density" ["limit_to_extruder"; "value"]
                    st) in
  determineInherit (self st') = Val (shouldShowInherit (self st')).
Proof.
  intros st st'.
  exact (proj2 (@flag_agrees_after_notification
                  (Examples.machine 1 (VStr "-1")) st "" 
                  ["limit_to_extruder"; "value"] (fun _ _ => ret tt))
               eq_refl eq_refl).
Defined.

End PropertyProviderExtras.

(* ================================================================== *)
(** ** More on the slice job                                           *)
(* ================================================================== *)

Module SliceJobExtras.
Import Py UM StartSliceJob GcodeTemplate SliceJobProofs.
Local Open Scope py_scope.

Section Formatting.
Variables coord matrix : Type.
Variable format_compound_field
  : string -> auto_arg -> dict Py.value -> field_result.
Variable settings : dict Py.value.

Local Abbreviation state := (State coord matrix).
Local Abbreviation scan :=
  (@vformat coord matrix format_compound_field settings).

(** The scan of rendered tokens followed by more text: the tokens are
    replaced, their warnings logged, and the scan goes on. *)
Lemma scan_render_then (tokens : list token) :
  Forall (fun t => well_formed t = true) tokens ->
  forall (rest : string) (auto : auto_arg) (st : state),
    scan Text auto (render tokens ++ rest)%string st
    = (out <- scan Text auto rest ;;
       ret (expansion settings tokens ++ out)%string)
        (logged st (warnings settings tokens)).
Proof.
  induction 1 as [|t tokens Ht _ IH]; intros rest auto st.
  - cbn [render append warnings flat_map expansion]. rewrite logged_nil.
    unfold bind, ret. now destruct (scan Text auto rest st) as [[out|e] st'].
  - destruct t as [c| | |key].
    + simpl in Ht. unfold is_brace in Ht.
      apply negb_true_iff, orb_false_elim in Ht as [Ho Hc].
      cbn [render written append vformat]. rewrite Ho, Hc.
      unfold bind at 1. rewrite IH. unfold bind, ret.
      cbn [warnings flat_map warning app].
      now destruct (scan Text auto rest _) as [[out|e] st'].
    + cbn [render written append vformat Ascii.eqb Bool.eqb].
      unfold bind at 1. rewrite IH. unfold bind, ret.
      cbn [warnings flat_map warning app].
      now destruct (scan Text auto rest _) as [[out|e] st'].
    + cbn [render written append vformat Ascii.eqb Bool.eqb].
      unfold bind at 1. rewrite IH. unfold bind, ret.
      cbn [warnings flat_map warning app].
      now destruct (scan Text auto rest _) as [[out|e] st'].
    + pose proof Ht as Hw. simpl in Ht.
      apply andb_prop in Ht as [Ht Hc]. apply andb_prop in Ht as [He _].
      apply negb_true_iff in He, Hc.
      destruct key as [|k key]; [discriminate|].
      assert (Hk : Ascii.eqb k "{" = false).
      { unfold is_compound in Hc. simpl in Hc.
        apply orb_false_elim in Hc as [Hc _].
        apply compound_char_brace in Hc. unfold is_brace in Hc.
        now apply orb_false_elim in Hc as [Hc _]. }
      cbn [render written append].
      rewrite scan_open by exact Hk.
      rewrite !append_assoc. cbn [append].
      change (String k (key ++ String "}" (render tokens ++ rest)))%string
        with (String k key ++ String "}" (render tokens ++ rest))%string.
      rewrite scan_field by now apply keyword_no_brace.
      unfold bind at 1. cbn [append]. rewrite replace_keyword by exact Hw.
      cbn [fst snd]. unfold bind at 1. rewrite IH.
      cbn [warnings flat_map expansion]. rewrite logged_logged.
      unfold bind, ret.
      destruct (scan Text auto rest _) as [[out|e] st']; [|reflexivity].
      now rewrite append_assoc.
Qed.

(** A field that runs to the end of the text is a [ValueError]. *)
Lemma scan_field_open (body : string) :
  forallb (fun c => negb (is_brace c)) (list_ascii_of_string body) = true ->
  forall (depth : nat) (acc : string) (auto : auto_arg) (st : state),
    scan (Field depth acc) auto body st = (Exc ValueError, st).
Proof.
  induction body as [|c body IH]; intros H depth acc auto st.
  - reflexivity.
  - simpl in H. apply andb_prop in H as [Hc Hb].
    unfold is_brace in Hc. apply negb_true_iff, orb_false_elim in Hc.
    destruct Hc as [Ho Hc].
    cbn [vformat]. rewrite Hc, Ho. now apply IH.
Qed.

Lemma scan_malformed (rest : string) (auto : auto_arg) (st : state) :
  stray_close rest = true \/ unterminated rest = true ->
  scan Text auto rest st = (Exc ValueError, st).
Proof.
  intros [H|H].
  - destruct rest as [|c [|c' rest]]; simpl in H; try discriminate.
    + apply Ascii.eqb_eq in H. subst c. reflexivity.
    + apply andb_prop in H as [Hc Hn]. apply Ascii.eqb_eq in Hc. subst c.
      apply negb_true_iff in Hn.
      cbn [vformat Ascii.eqb Bool.eqb]. now rewrite Hn.
  - destruct rest as [|c body]; simpl in H; [discriminate|].
    apply andb_prop in H as [Hc Hb]. apply Ascii.eqb_eq in Hc. subst c.
    destruct body as [|c' body]; [reflexivity|].
    pose proof Hb as Hb'. simpl in Hb'. apply andb_prop in Hb' as [Hc' _].
    unfold is_brace in Hc'. apply negb_true_iff, orb_false_elim in Hc'.
    destruct Hc' as [Ho _].
    rewrite scan_open by exact Ho.
    now apply scan_field_open.
Qed.

(** X10.  One stray closing brace, or a placeholder left open, after any
    number of well-formed tokens, in a template UTF-8 can encode: the
    template comes back whole, none of its placeholders replaced; the
    warnings of the placeholders before the malformed place were logged
    all the same, and the warning of the fallback follows them. *)
Theorem malformed_template_returned_whole
        (key : string) (st : state) (tokens : list token) (rest : string) :
  Forall (fun t => well_formed t = true) tokens ->
  stray_close rest = true \/ unterminated rest = true ->
  has_surrogate (render tokens ++ rest) = false ->
  expandGcodeTokens format_compound_field key
                    (VStr (render tokens ++ rest)) settings st
  = (Val (render tokens ++ rest)%string,
     logged st (warnings settings tokens ++ [fallback_warning])).
Proof.
  intros Hw Hm He.
  rewrite expand_cases. unfold format.
  rewrite scan_render_then by exact Hw.
  unfold bind at 1. rewrite scan_malformed by exact Hm.
  unfold encode. cbn [str]. rewrite He.
  now rewrite logged_logged.
Qed.

Lemma digit_not_compound (c : ascii) :
  is_digit c = true -> compound_char c = false.
Proof.
  destruct c as [b0 b1 b2 b3 b4 b5 b6 b7].
  destruct b0, b1, b2, b3, b4, b5, b6, b7; intro H;
    first [reflexivity | vm_compute in H; discriminate H].
Qed.

Lemma digits_not_compound (digits : string) :
  all_digits digits = true -> is_compound digits = false.
Proof.
  unfold all_digits, is_compound.
  induction (list_ascii_of_string digits) as [|c l IH]; simpl;
    [reflexivity|].
  intro H. apply andb_prop in H as [Hc Hl].
  now rewrite (digit_not_compound _ Hc), IH.
Qed.

(** A positional placeholder, empty or a number, goes through the second
    branch of [get_value]. *)
Lemma replace_positional (digits : string) (st : state) :
  all_digits digits = true ->
  (N_of_digits digits <= least_maxsize)%N ->
  exists auto,
    replace_field format_compound_field digits (Auto 0) settings st
    = (Val (("{" ++ str_of_N (N_of_digits digits) ++ "}")%string, auto),
       logged st [incorrectly_formatted (N_of_digits digits)]).
Proof.
  intros H Hle. apply N.leb_le in Hle. unfold replace_field.
  rewrite (digits_not_compound _ H).
  destruct digits as [|k digits].
  - exists (Auto 1). reflexivity.
  - cbn [String.eqb]. rewrite H, Hle. exists Manual. reflexivity.
Qed.

(** X11.  A placeholder that is a number up to 2147483647 written in
    ASCII digits, among well-formed tokens, in a template whose
    expansion UTF-8 can encode: it is written back as its number
    between braces, leading zeros dropped (["{007}"] as ["{7}"]), with
    the warning for an incorrectly formatted placeholder, and the tokens
    around it are expanded as usual. *)
Theorem positional_placeholder_echoed
        (key : string) (st : state) (before after : list token)
        (digits : string) :
  Forall (fun t => well_formed t = true) before ->
  Forall (fun t => well_formed t = true) after ->
  digits <> "" ->
  all_digits digits = true ->
  (N_of_digits digits <= least_maxsize)%N ->
  has_surrogate (expansion settings before
                 ++ "{" ++ str_of_N (N_of_digits digits) ++ "}"
                 ++ expansion settings after) = false ->
  expandGcodeTokens format_compound_field key
    (VStr (render before ++ "{" ++ digits ++ "}" ++ render after))
    settings st
  = (Val (expansion settings before
          ++ "{" ++ str_of_N (N_of_digits digits) ++ "}"
          ++ expansion settings after)%string,
     logged st (warnings settings before
                ++ [incorrectly_formatted (N_of_digits digits)]
                ++ warnings settings after)).
Proof.
  intros Hb Ha _ Hd Hle He.
  rewrite expand_cases. unfold format.
  rewrite scan_render_then by exact Hb.
  assert (Hk : forall rest,
             exists k body, (digits ++ String "}" rest)%string = String k body
                            /\ Ascii.eqb k "{" = false).
  { intro rest. destruct digits as [|k digits].
    - exists "}"%char, rest. auto.
    - exists k, (digits ++ String "}" rest)%string. split; [reflexivity|].
      unfold all_digits in Hd. simpl in Hd. apply andb_prop in Hd as [Hk _].
      apply digit_not_compound, compound_char_brace in Hk.
      unfold is_brace in Hk. now apply orb_false_elim in Hk as [Hk _]. }
  unfold bind at 1. cbn [append].
  destruct (Hk (render after)) as (k & body & E & Hne).
  change ("}" ++ render after)%string with (String "}" (render after)).
  rewrite E, scan_open by exact Hne. rewrite <- E.
  rewrite scan_field
    by (apply keyword_no_brace; now apply digits_not_compound).
  unfold bind at 1. cbn [append].
  destruct (@replace_positional digits
                                (logged st (warnings settings before))
                                Hd Hle)
    as (auto & ->).
  cbn [fst snd]. unfold bind at 1. rewrite scan_render by exact Ha.
  unfold ret. cbn [fst snd]. rewrite !logged_logged.
  cbn [append] in He |- *. rewrite !append_assoc. cbn [append].
  now rewrite He.
Qed.

End Formatting.

Lemma malformed_template_returned_whole_witness :
  fst (expandGcodeTokens
         Examples.no_compound_field "machine_start_gcode"
         (VStr "M140 S{material_bed_temperature} ; done}")
         Examples.bed_settings (Examples.job [] Examples.empty_root))
  = Val "M140 S{material_bed_temperature} ; done}".
Proof.
  pose proof (@malformed_template_returned_whole
                Z Z Examples.no_compound_field Examples.bed_settings
                "machine_start_gcode" (Examples.job [] Examples.empty_root)
                (characters "M140 S"
                 ++ [Placeholder "material_bed_temperature"]
                 ++ characters " ; done")%list
                "}") as H.
  exact (f_equal fst (H ltac:(repeat constructor) (or_introl eq_refl)
                        eq_refl)).
Defined.

Lemma positional_placeholder_echoed_witness :
  fst (expandGcodeTokens
         Examples.no_compound_field "machine_start_gcode"
         (VStr "G1 X{007} S{material_bed_temperature}")
         Examples.bed_settings (Examples.job [] Examples.empty_root))
  = Val "G1 X{7} S60".
Proof.
  pose proof (@positional_placeholder_echoed
                Z Z Examples.no_compound_field Examples.bed_settings
                "machine_start_gcode" (Examples.job [] Examples.empty_root)
                (characters "G1 X")
                (characters " S"
                 ++ [Placeholder "material_bed_temperature"])%list
                "007") as H.
  exact (f_equal fst (H ltac:(repeat constructor) ltac:(repeat constructor)
                        ltac:(discriminate) eq_refl
                        ltac:(vm_compute; discriminate) eq_refl)).
Defined.

(** *** The collected settings *)

Section CollectedValues.
Variable stack : ContainerStack.
Local Open Scope list_scope.

Lemma set_nodup (V : Type) (d : dict V) (k : string) (v : V) :
  NoDup (keys d) -> NoDup (keys (set d k v)).
Proof.
  unfold keys. induction d as [|[k0 v0] d IH]; simpl; intro H.
  - constructor; [intros []|constructor].
  - destruct (String.eqb k k0) eqn:E; simpl.
    + apply String.eqb_eq in E. now subst k0.
    + apply String.eqb_neq in E. inversion_clear H as [|x l Hn Hd].
      constructor; [|now apply IH].
      intro Hin. apply (keys_set d k v k0) in Hin.
      destruct Hin as [->|Hin]; [now apply E|now apply Hn].
Qed.

Lemma update_nodup (V : Type) (other d : dict V) :
  NoDup (keys d) -> NoDup (keys (update d other)).
Proof.
  unfold update. revert d.
  induction other as [|[k v] other IH]; intros d H; simpl; [exact H|].
  apply IH. now apply set_nodup.
Qed.

Lemma set_current (d : dict Py.value) (k : string) :
  current_values stack d ->
  current_values stack (set d k (getProperty stack k "value")).
Proof.
  unfold current_values.
  induction d as [|[k0 v0] d IH]; simpl; intro H.
  - constructor; [reflexivity|constructor].
  - inversion_clear H as [|x l Hx Hl].
    destruct (String.eqb k k0); constructor; auto.
Qed.

Lemma set_current_value (d : dict Py.value) (k : string) (v : Py.value) :
  v = getProperty stack k "value" ->
  current_values stack d ->
  current_values stack (set d k v).
Proof. intros ->. apply set_current. Qed.

Lemma update_current (other d : dict Py.value) :
  current_values stack other ->
  current_values stack d ->
  current_values stack (update d other).
Proof.
  unfold update. revert d.
  induction other as [|[k v] other IH]; intros d Ho Hd; simpl; [exact Hd|].
  inversion_clear Ho as [|x l Hx Hl]. simpl in Hx.
  apply IH; [exact Hl|]. now apply set_current_value.
Qed.

Lemma children_current (d : SettingDefinition) :
  current_values stack (getAllChildSettingValues stack d).
Proof.
  induction d as [k cs IH] using SettingDefinition_induction.
  simpl. assert (H0 : current_values stack []) by constructor.
  revert H0. generalize (@nil (string * Py.value)).
  induction IH as [|c cs Hc _ IHcs]; intros values Hv; simpl; [exact Hv|].
  apply IHcs. apply update_current; [exact Hc|now apply set_current].
Qed.

Lemma collect_current (values : dict Py.value) (d : SettingDefinition) :
  current_values stack values ->
  current_values stack (collect_definition stack values d).
Proof.
  intro H. unfold collect_definition.
  apply update_current; [apply children_current|now apply set_current].
Qed.

Lemma collect_nodup (values : dict Py.value) (d : SettingDefinition) :
  NoDup (keys values) ->
  NoDup (keys (collect_definition stack values d)).
Proof.
  intro H. unfold collect_definition.
  now apply update_nodup, set_nodup.
Qed.

Lemma collected_invariant :
  NoDup (keys (getAllSettingValues_of stack))
  /\ current_values stack (getAllSettingValues_of stack).
Proof.
  unfold getAllSettingValues_of.
  assert (H0 : NoDup (keys (@nil (string * Py.value)))
               /\ current_values stack []) by (split; constructor).
  revert H0. generalize (@nil (string * Py.value)).
  induction (filter _ (getContainers stack)) as [|c cs IH];
    intros values Hv; simpl; [exact Hv|].
  apply IH. clear IH. revert values Hv.
  induction (definitions c) as [|d ds IHd]; intros values [Hn Hc]; simpl;
    [now split|].
  apply IHd. split; [now apply collect_nodup|now apply collect_current].
Qed.

Lemma get_current (d : dict Py.value) (k : string) :
  current_values stack d ->
  In k (keys d) ->
  get d k = Some (getProperty stack k "value").
Proof.
  unfold current_values, keys.
  induction d as [|[k0 v0] d IH]; simpl; intros H Hin; [contradiction|].
  inversion_clear H as [|x l Hx Hl]. simpl in Hx.
  destruct (String.eqb k k0) eqn:E.
  - apply String.eqb_eq in E. now subst.
  - apply String.eqb_neq in E. destruct Hin as [->|Hin]; [now elim E|].
    now apply IH.
Qed.

Lemma collected_get (k : string) :
  In k (defined_keys stack) ->
  get (getAllSettingValues_of stack) k = Some (getProperty stack k "value").
Proof.
  intro H. apply get_current; [apply collected_invariant|].
  now apply collected_keys.
Qed.

(** With encodable values on the stack, what is collected is
    encodable. *)
Lemma collected_encodable :
  values_encodable stack -> encodable (getAllSettingValues_of stack).
Proof.
  intro He. destruct collected_invariant as [_ Hc].
  pose proof (fun k => proj1 (collected_keys stack k)) as Hk.
  unfold current_values, encodable, keys in *.
  induction Hc as [|[k v] d Hv _ IH]; constructor.
  - simpl in *. subst v. apply He, Hk. now left.
  - apply IH. intros k' Hin. apply Hk. now right.
Qed.

Lemma set_encodable (d : dict Py.value) (k : string) (v : Py.value) :
  encodable d -> has_surrogate (str v) = false -> encodable (set d k v).
Proof.
  unfold encodable. intros Hd Hv.
  induction Hd as [|[k0 v0] d H0 Hd IH]; simpl.
  - now repeat constructor.
  - destruct (String.eqb k k0); constructor; assumption.
Qed.

(** X12.  [_getAllSettingValues] gives a dictionary with one entry for every
    key defined by a definition container of the stack, at any depth,
    and for no other key; a key defined more than once has one entry;
    and the value of every entry is the value the stack now has for the
    key. *)
Theorem collected_settings_are_current :
  NoDup (keys (getAllSettingValues_of stack))
  /\ forall k,
       (In k (defined_keys stack) ->
        get (getAllSettingValues_of stack) k
        = Some (getProperty stack k "value"))
       /\ (~ In k (defined_keys stack) ->
           get (getAllSettingValues_of stack) k = None).
Proof.
  destruct collected_invariant as [Hn Hc].
  split; [exact Hn|]. intro k. split; intro H.
  - apply get_current; [exact Hc|]. now apply collected_keys.
  - apply get_None. now rewrite collected_keys.
Qed.

End CollectedValues.

(** *** Sending the global settings *)

Section GlobalSettings.
Variables coord matrix : Type.
Variable format_compound_field
  : string -> auto_arg -> dict Py.value -> field_result.
Local Open Scope list_scope.

Local Abbreviation state := (State coord matrix).

Lemma only_logs_ret (A : Type) (a : A) : only_logs (@ret state A a).
Proof. intro st. exists []. simpl. now rewrite logged_nil. Qed.

Lemma only_logs_raise (A : Type) (e : exn) : only_logs (@raise state A e).
Proof. intro st. exists []. simpl. now rewrite logged_nil. Qed.

Lemma only_logs_lift (A : Type) (r : res A) : only_logs (@lift state A r).
Proof. intro st. exists []. simpl. now rewrite logged_nil. Qed.

Lemma only_logs_log (lvl msg arg : string) :
  only_logs (@Logger_log coord matrix lvl msg arg).
Proof. intro st. now exists [mkLog lvl msg arg]. Qed.

Lemma only_logs_lines (lines : list LogEntry) :
  only_logs (@Logger_lines coord matrix lines).
Proof. intro st. now exists lines. Qed.

Lemma only_logs_bind (A B : Type) (m : M state A) (k : A -> M state B) :
  only_logs m -> (forall a, only_logs (k a)) -> only_logs (bind m k).
Proof.
  intros Hm Hk st. unfold bind.
  destruct (Hm st) as [l1 H1].
  destruct (m st) as [[a|e] st1]; simpl in H1; subst st1.
  - destruct (Hk a (logged st l1)) as [l2 H2].
    exists (l1 ++ l2). now rewrite H2, logged_logged.
  - now exists l1.
Qed.

Lemma only_logs_try (A : Type) (m : M state A) (h : exn -> M state A) :
  only_logs m -> (forall e, only_logs (h e)) -> only_logs (try_except m h).
Proof.
  intros Hm Hh st. unfold try_except.
  destruct (Hm st) as [l1 H1].
  destruct (m st) as [[a|e] st1]; simpl in H1; subst st1.
  - now exists l1.
  - destruct (Hh e (logged st l1)) as [l2 H2].
    exists (l1 ++ l2). now rewrite H2, logged_logged.
Qed.

Lemma get_value_logs (key : FieldKey) (kwargs : dict Py.value) :
  only_logs (@get_value coord matrix key kwargs).
Proof.
  destruct key as [k|n]; simpl.
  - destruct (get kwargs k); [apply only_logs_ret|].
    apply only_logs_bind; [apply only_logs_log|intro; apply only_logs_ret].
  - apply only_logs_bind; [apply only_logs_log|intro; apply only_logs_ret].
Qed.

Lemma replace_field_logs (field : string) (auto : auto_arg)
      (kwargs : dict Py.value) :
  only_logs (@replace_field coord matrix format_compound_field
                            field auto kwargs).
Proof.
  assert (Hf : only_logs (@format_field coord matrix format_compound_field
                                        field auto kwargs)).
  { apply only_logs_bind; [apply only_logs_lines|intro; apply only_logs_lift]. }
  unfold replace_field.
  destruct (is_compound field); [exact Hf|].
  destruct (String.eqb field "").
  { destruct auto; [|apply only_logs_raise].
    apply only_logs_bind; [apply get_value_logs|intro; apply only_logs_ret]. }
  destruct (all_digits field).
  { destruct (N_of_digits field <=? least_maxsize)%N; [|exact Hf].
    destruct auto as [[|n]|]; try apply only_logs_raise;
      (apply only_logs_bind;
       [apply get_value_logs|intro; apply only_logs_ret]). }
  apply only_logs_bind; [apply get_value_logs|intro; apply only_logs_ret].
Qed.

Ltac logs :=
  repeat first
         [ apply only_logs_raise
         | apply only_logs_ret
         | apply only_logs_bind; [|intro]
         | apply replace_field_logs
         | assumption ].

(** One step of the scan, in either mode. *)
Lemma vformat_text (kwargs : dict Py.value) (auto : auto_arg)
      (c : ascii) (rest : string) :
  @vformat coord matrix format_compound_field kwargs Text auto
           (String c rest)
  = if Ascii.eqb c "{" then
      match rest with
      | EmptyString => raise ValueError
      | String c' rest' =>
          if Ascii.eqb c' "{"
          then bind (vformat format_compound_field kwargs Text auto rest')
                    (fun out => ret (String "{" out))
          else vformat format_compound_field kwargs (Field 1 "") auto rest
      end
    else if Ascii.eqb c "}" then
      match rest with
      | EmptyString => raise ValueError
      | String c' rest' =>
          if Ascii.eqb c' "}"
          then bind (vformat format_compound_field kwargs Text auto rest')
                    (fun out => ret (String "}" out))
          else raise ValueError
      end
    else bind (vformat format_compound_field kwargs Text auto rest)
              (fun out => ret (String c out)).
Proof. destruct rest; reflexivity. Qed.

Lemma vformat_field (kwargs : dict Py.value) (auto : auto_arg)
      (depth : nat) (acc : string) (c : ascii) (rest : string) :
  @vformat coord matrix format_compound_field kwargs (Field depth acc) auto
           (String c rest)
  = if Ascii.eqb c "}" then
      match depth with
      | O => raise ValueError
      | S O =>
          bind (replace_field format_compound_field acc auto kwargs)
               (fun r =>
                  bind (vformat format_compound_field kwargs Text (snd r)
                                rest)
                       (fun out => ret (fst r ++ out)%string))
      | S depth' =>
          vformat format_compound_field kwargs (Field depth' (snoc acc c))
                  auto rest
      end
    else if Ascii.eqb c "{" then
      vformat format_compound_field kwargs (Field (S depth) (snoc acc c))
              auto rest
    else
      vformat format_compound_field kwargs (Field depth (snoc acc c))
              auto rest.
Proof. destruct rest; reflexivity. Qed.

(** The formatter changes the state by logging only. *)
Lemma vformat_logs (kwargs : dict Py.value) (s : string) :
  (forall m auto,
      only_logs (@vformat coord matrix format_compound_field
                          kwargs m auto s))
  /\ (forall c m auto,
         only_logs (@vformat coord matrix format_compound_field
                             kwargs m auto (String c s))).
Proof.
  induction s as [|a s [IH1 IH2]].
  - assert (H0 : forall m auto,
               only_logs (@vformat coord matrix format_compound_field
                                   kwargs m auto "")).
    { intros [|d acc] auto; simpl; logs. }
    split; [exact H0|].
    intros c [|d acc] auto.
    + rewrite vformat_text.
      destruct (Ascii.eqb c "{"); [logs|].
      destruct (Ascii.eqb c "}"); logs; apply H0.
    + rewrite vformat_field.
      destruct (Ascii.eqb c "}");
        [destruct d as [|[|d]]|destruct (Ascii.eqb c "{")];
        logs; apply H0.
  - split; [apply IH2|].
    intros c [|d acc] auto.
    + rewrite vformat_text.
      destruct (Ascii.eqb c "{").
      * destruct (Ascii.eqb a "{"); logs; [apply IH1|apply IH2].
      * destruct (Ascii.eqb c "}");
          [destruct (Ascii.eqb a "}")|]; logs; [apply IH1|apply IH2].
    + rewrite vformat_field.
      destruct (Ascii.eqb c "}");
        [destruct d as [|[|d]]|destruct (Ascii.eqb c "{")];
        logs; apply IH2.
Qed.

Lemma expand_logs (key : string) (value : Py.value)
      (settings : dict Py.value) :
  only_logs (@expandGcodeTokens coord matrix format_compound_field
                                key value settings).
Proof.
  unfold expandGcodeTokens. apply only_logs_try.
  - apply only_logs_bind; [|intro; apply only_logs_lift].
    unfold format. destruct value; try apply only_logs_raise.
    apply vformat_logs.
  - intro e. apply only_logs_bind; [apply only_logs_log|].
    intro. apply only_logs_lift.
Qed.

(** [_expandGcodeTokens] returns, whatever it is given that UTF-8 can
    encode. *)
Lemma expand_returns (key : string) (value : Py.value)
      (settings : dict Py.value) (st : state) :
  has_surrogate (str value) = false ->
  exists out lines,
    expandGcodeTokens format_compound_field key value settings st
    = (Val out, logged st lines).
Proof.
  intro Hv. destruct (expand_logs key value settings st) as [lines H].
  rewrite expand_cases in *. unfold encode in *. rewrite Hv in *.
  destruct (format format_compound_field value settings st)
    as [[out|e] st1]; [destruct (has_surrogate out)|];
    cbn [snd] in H; rewrite H; eexists; exists lines; reflexivity.
Qed.

(** When the loop over the items returns, it has added one entry per
    item, named by its key, having logged only; the value of an entry
    that is not g-code is the text of the value of the item. *)
Lemma setting_messages_sound (settings : dict Py.value)
      (items : dict Py.value) :
  forall (st st' : state) (msgs : list Setting),
    setting_messages format_compound_field items settings st
    = (Val msgs, st') ->
    (exists lines, st' = logged st lines)
    /\ map name msgs = keys items
    /\ forall k v, In (k, v) items -> is_gcode_key k = false ->
                   In (mkSetting k (str v)) msgs.
Proof.
  induction items as [|[k v] items IH]; intros st st' msgs.
  - simpl. unfold ret. intros [= <- <-]. split; [|split].
    + exists []. now rewrite logged_nil.
    + reflexivity.
    + intros k v [].
  - cbn [setting_messages]. fold (is_gcode_key k).
    assert (Hstep :
      forall (bytes : string) (l1 : list LogEntry),
        (is_gcode_key k = false -> bytes = str v) ->
        (more <- setting_messages format_compound_field items settings ;;
         ret (mkSetting k bytes :: more)) (logged st l1) = (Val msgs, st') ->
        (exists lines, st' = logged st lines)
        /\ map name msgs = keys ((k, v) :: items)
        /\ forall k' v', In (k', v') ((k, v) :: items) ->
                         is_gcode_key k' = false ->
                         In (mkSetting k' (str v')) msgs).
    { intros bytes l1 Hb. unfold bind, ret.
      destruct (setting_messages _ items settings (logged st l1))
        as [[more|e] st2] eqn:E2; [|discriminate].
      intros [= <- <-].
      destruct (IH _ _ _ E2) as ([l2 ->] & Hn & Hm).
      split; [|split].
      - exists (l1 ++ l2). now rewrite logged_logged.
      - simpl. now rewrite Hn.
      - intros k' v' [[= <- <-]|Hin] Hk'.
        + left. now rewrite (Hb Hk').
        + right. now apply Hm. }
    unfold bind at 1.
    destruct (is_gcode_key k) eqn:Hg.
    + destruct (expand_logs k v settings st) as [l1 H1].
      destruct (expandGcodeTokens _ k v settings st) as [[out|e] st1];
        [|discriminate].
      cbn [snd] in H1. subst st1. apply Hstep. discriminate.
    + unfold lift, encode.
      destruct (has_surrogate (str v)); [discriminate|].
      rewrite <- (logged_nil st) at 1. now apply Hstep.
Qed.

(** The loop returns when every text can be encoded. *)
Lemma setting_messages_returns (settings : dict Py.value)
      (items : dict Py.value) :
  encodable items ->
  forall st : state,
  exists msgs lines,
    setting_messages format_compound_field items settings st
    = (Val msgs, logged st lines).
Proof.
  induction 1 as [|[k v] items Hv _ IH]; intro st.
  - exists [], []. simpl. now rewrite logged_nil.
  - cbn [setting_messages]. fold (is_gcode_key k). simpl in Hv.
    destruct (is_gcode_key k).
    + destruct (@expand_returns k v settings st Hv) as (out & l1 & E).
      unfold bind at 1. rewrite E.
      destruct (IH (logged st l1)) as (msgs & l2 & E2).
      unfold bind at 1. rewrite E2. unfold ret.
      exists (mkSetting k out :: msgs), (l1 ++ l2).
      now rewrite logged_logged.
    + unfold bind at 1, lift, encode. rewrite Hv.
      destruct (IH st) as (msgs & l2 & E2).
      unfold bind at 1. rewrite E2. unfold ret.
      now exists (mkSetting k (str v) :: msgs), l2.
Qed.

Lemma in_set (V : Type) (d : dict V) (k : string) (v : V) :
  In (k, v) (set d k v).
Proof.
  induction d as [|[k0 v0] d IH]; simpl; [now left|].
  destruct (String.eqb k k0); [now left|now right].
Qed.

Lemma in_set_other (V : Type) (d : dict V) (k k' : string) (v v' : V) :
  k <> k' -> In (k, v) d -> In (k, v) (set d k' v').
Proof.
  intro Hne. induction d as [|[k0 v0] d IH]; simpl; [intros []|].
  intros [[= -> ->]|Hin].
  - destruct (String.eqb k' k) eqn:E; [|now left].
    apply String.eqb_eq in E. now elim Hne.
  - destruct (String.eqb k' k0); right; auto.
Qed.

Lemma get_in (V : Type) (d : dict V) (k : string) (v : V) :
  get d k = Some v -> In (k, v) d.
Proof.
  induction d as [|[k0 v0] d IH]; simpl; [discriminate|].
  destruct (String.eqb k k0) eqn:E.
  - apply String.eqb_eq in E. intros [= ->]. left. now subst.
  - right. now apply IH.
Qed.

Lemma prefix_app (needle hay : string) :
  prefix needle hay = true <-> exists after, hay = (needle ++ after)%string.
Proof.
  revert hay. induction needle as [|a needle IH]; intro hay.
  - split; [intros _; now exists hay|]. intros _. now destruct hay.
  - destruct hay as [|b hay]; simpl.
    + split; [discriminate|intros [after H]; discriminate].
    + destruct (ascii_dec a b) as [->|Hne].
      * rewrite IH. split; intros [after H]; exists after; congruence.
      * split; [discriminate|]. intros [after [= H _]]. now elim Hne.
Qed.

Lemma contains_step (needle hay : string) :
  contains needle hay
  = if prefix needle hay then true
    else match hay with
         | EmptyString => false
         | String _ rest => contains needle rest
         end.
Proof. now destruct hay. Qed.

(** [contains] decides occurrence. *)
Lemma contains_occurs (needle hay : string) :
  contains needle hay = true <-> occurs needle hay.
Proof.
  unfold occurs. split.
  - induction hay as [|c hay IH]; rewrite contains_step;
      destruct (prefix needle _) eqn:E; try discriminate.
    + intros _. apply prefix_app in E as [after E]. now exists "", after.
    + intros _. apply prefix_app in E as [after E]. now exists "", after.
    + intro H. destruct (IH H) as (before & after & ->).
      now exists (String c before), after.
  - intros (before & after & ->).
    induction before as [|c before IH]; rewrite contains_step.
    + assert (E : prefix needle (needle ++ after) = true)
        by (apply prefix_app; now exists after).
      cbn [append]. now rewrite E.
    + cbn [append]. destruct (prefix needle _); [reflexivity|exact IH].
Qed.

(** The settings [_sendGlobalSettings] sends: those collected, with the
    two derived flags set. *)
Lemma send_global_unfold (st : state) (stack : ContainerStack)
      (gcode : string) :
  _stack st = Some stack ->
  In "machine_start_gcode" (defined_keys stack) ->
  getProperty stack "machine_start_gcode" "value" = VStr gcode ->
  let settings :=
    set (set (getAllSettingValues_of stack) "material_bed_temp_prepend"
             (VBool (negb (contains "{material_bed_temperature}" gcode))))
        "material_print_temp_prepend"
        (VBool (negb (contains "{material_print_temperature}" gcode))) in
  sendGlobalSettings format_compound_field st
  = (message <- setting_messages format_compound_field settings settings ;;
     sendMessage (SettingList message)) st.
Proof.
  intros Hs Hin Hv settings.
  pose proof (@collected_get stack _ Hin) as Hget.
  unfold sendGlobalSettings, getAllSettingValues_job, bind, gets, ret, lift,
         getitem.
  rewrite Hs. cbn beta iota. rewrite Hget, Hv. cbn [not_in].
  reflexivity.
Qed.

(** What [_sendGlobalSettings] has done when it returns, the start
    g-code being defined and a text. *)
Lemma send_global_sound (st st' : state) (stack : ContainerStack)
      (gcode : string) :
  _stack st = Some stack ->
  In "machine_start_gcode" (defined_keys stack) ->
  getProperty stack "machine_start_gcode" "value" = VStr gcode ->
  sendGlobalSettings format_compound_field st = (Val tt, st') ->
  let settings :=
    set (set (getAllSettingValues_of stack) "material_bed_temp_prepend"
             (VBool (negb (contains "{material_bed_temperature}" gcode))))
        "material_print_temp_prepend"
        (VBool (negb (contains "{material_print_temperature}" gcode))) in
  exists msgs lines,
    st' = snd (sendMessage (SettingList msgs) (logged st lines))
    /\ map name msgs = keys settings
    /\ forall k v, In (k, v) settings -> is_gcode_key k = false ->
                   In (mkSetting k (str v)) msgs.
Proof.
  intros Hs Hin Hv E settings.
  rewrite (send_global_unfold st Hs Hin Hv) in E. fold settings in E.
  unfold bind in E.
  destruct (setting_messages _ settings settings st) as [[msgs|e] st1] eqn:E1;
    [|discriminate].
  destruct (setting_messages_sound _ _ _ E1) as ([lines ->] & Hn & Hm).
  exists msgs, lines. split; [|split; assumption].
  now injection E as <-.
Qed.

(** It returns when the stack has encodable values. *)
Lemma send_global_returns (st : state) (stack : ContainerStack)
      (gcode : string) :
  _stack st = Some stack ->
  In "machine_start_gcode" (defined_keys stack) ->
  getProperty stack "machine_start_gcode" "value" = VStr gcode ->
  values_encodable stack ->
  exists st', sendGlobalSettings format_compound_field st = (Val tt, st').
Proof.
  intros Hs Hin Hv He.
  rewrite (send_global_unfold st Hs Hin Hv).
  match goal with
  | |- context [setting_messages _ ?d ?d] =>
      destruct (@setting_messages_returns d d) with (st := st)
        as (msgs & lines & E)
  end.
  - apply set_encodable; [apply set_encodable|];
      [now apply collected_encodable| |];
      now destruct (contains _ gcode).
  - unfold bind. rewrite E. eexists. reflexivity.
Qed.

Lemma send_global_explicit (st : state) (stack : ContainerStack)
      (gcode : string) :
  _stack st = Some stack ->
  In "machine_start_gcode" (defined_keys stack) ->
  getProperty stack "machine_start_gcode" "value" = VStr gcode ->
  values_encodable stack ->
  let settings :=
    set (set (getAllSettingValues_of stack) "material_bed_temp_prepend"
             (VBool (negb (contains "{material_bed_temperature}" gcode))))
        "material_print_temp_prepend"
        (VBool (negb (contains "{material_print_temperature}" gcode))) in
  exists msgs lines,
    sendGlobalSettings format_compound_field st
    = (Val tt, snd (sendMessage (SettingList msgs) (logged st lines)))
    /\ map name msgs = keys settings
    /\ forall k v, In (k, v) settings -> is_gcode_key k = false ->
                   In (mkSetting k (str v)) msgs.
Proof.
  intros Hs Hin Hv He settings.
  destruct (send_global_returns st Hs Hin Hv He) as [st' E].
  destruct (@send_global_sound st st' stack gcode Hs Hin Hv E)
    as (msgs & lines & -> & Hn & Hm).
  now exists msgs, lines.
Qed.

(** The two derived flags in a message that holds the settings sent. *)
Lemma flags_in_message (stack : ContainerStack) (gcode : string)
      (msgs : list Setting) :
  (forall k v,
      In (k, v)
         (set (set (getAllSettingValues_of stack) "material_bed_temp_prepend"
                   (VBool (negb (contains "{material_bed_temperature}"
                                          gcode))))
              "material_print_temp_prepend"
              (VBool (negb (contains "{material_print_temperature}"
                                     gcode)))) ->
      is_gcode_key k = false -> In (mkSetting k (str v)) msgs) ->
  (occurs "{material_bed_temperature}" gcode ->
   In (mkSetting "material_bed_temp_prepend" "False") msgs)
  /\ (~ occurs "{material_bed_temperature}" gcode ->
      In (mkSetting "material_bed_temp_prepend" "True") msgs)
  /\ (occurs "{material_print_temperature}" gcode ->
      In (mkSetting "material_print_temp_prepend" "False") msgs)
  /\ (~ occurs "{material_print_temperature}" gcode ->
      In (mkSetting "material_print_temp_prepend" "True") msgs).
Proof.
  intro Hm.
  assert (Hbed : In (mkSetting "material_bed_temp_prepend"
                       (str (VBool (negb (contains
                          "{material_bed_temperature}" gcode))))) msgs).
  { apply Hm; [|reflexivity].
    apply in_set_other; [discriminate|]. apply in_set. }
  assert (Hprint : In (mkSetting "material_print_temp_prepend"
                         (str (VBool (negb (contains
                            "{material_print_temperature}" gcode))))) msgs).
  { apply Hm; [|reflexivity]. apply in_set. }
  repeat split; intro H.
  - apply contains_occurs in H. now rewrite H in Hbed.
  - destruct (contains "{material_bed_temperature}" gcode) eqn:C;
      [|exact Hbed]. apply contains_occurs in C. now elim H.
  - apply contains_occurs in H. now rewrite H in Hprint.
  - destruct (contains "{material_print_temperature}" gcode) eqn:C;
      [|exact Hprint]. apply contains_occurs in C. now elim H.
Qed.

(** X13.  When the start g-code is defined and is a text, and the stack's
    values are texts UTF-8 can encode, [_sendGlobalSettings] returns
    after sending one [SettingList] message and nothing else; the
    message has one entry for every defined key and for each of the two
    derived flags, no name twice; and an entry that is not g-code and
    not named as one of the two flags carries the text of the stack's
    current value of its key. *)
Theorem global_settings_sent_once (st : state) (stack : ContainerStack)
        (gcode : string) :
  _stack st = Some stack ->
  In "machine_start_gcode" (defined_keys stack) ->
  getProperty stack "machine_start_gcode" "value" = VStr gcode ->
  values_encodable stack ->
  exists msgs lines,
    sendGlobalSettings format_compound_field st
    = (Val tt, snd (sendMessage (SettingList msgs) (logged st lines)))
    /\ NoDup (map name msgs)
    /\ (forall k, In k (map name msgs)
                  <-> In k (defined_keys stack)
                      \/ k = "material_bed_temp_prepend"
                      \/ k = "material_print_temp_prepend")
    /\ (forall k, In k (defined_keys stack) ->
                  is_gcode_key k = false ->
                  k <> "material_bed_temp_prepend" ->
                  k <> "material_print_temp_prepend" ->
                  In (mkSetting k (str (getProperty stack k "value"))) msgs).
Proof.
  intros Hs Hin Hv He.
  destruct (send_global_explicit st Hs Hin Hv He)
    as (msgs & lines & E & Hn & Hm).
  destruct (collected_invariant stack) as [Hnd _].
  exists msgs, lines. split; [exact E|]. rewrite Hn. split; [|split].
  - now apply set_nodup, set_nodup.
  - intro k. rewrite !keys_set, collected_keys. intuition.
  - intros k Hk Hg Hb Hp. apply Hm; [|exact Hg].
    apply in_set_other; [exact Hp|]. apply in_set_other; [exact Hb|].
    apply get_in. now apply (@collected_get stack).
Qed.

(** X14.  The two derived flags say whether the start g-code lacks the
    placeholder: [material_bed_temp_prepend] is sent as ["False"] when
    ["{material_bed_temperature}"] occurs in the start g-code and as
    ["True"] when it does not, and [material_print_temp_prepend]
    likewise for ["{material_print_temperature}"]; this also when a
    definition defines a key of that name.  So it is in every message
    [_sendGlobalSettings] returns after, and it returns when the stack's
    values are texts UTF-8 can encode. *)
Theorem prepend_flags_follow_start_gcode
        (st : state) (stack : ContainerStack) (gcode : string) :
  _stack st = Some stack ->
  In "machine_start_gcode" (defined_keys stack) ->
  getProperty stack "machine_start_gcode" "value" = VStr gcode ->
  (values_encodable stack ->
   exists st', sendGlobalSettings format_compound_field st = (Val tt, st'))
  /\ forall st',
       sendGlobalSettings format_compound_field st = (Val tt, st') ->
       exists msgs lines,
         sendGlobalSettings format_compound_field st
         = (Val tt, snd (sendMessage (SettingList msgs) (logged st lines)))
         /\ (occurs "{material_bed_temperature}" gcode ->
             In (mkSetting "material_bed_temp_prepend" "False") msgs)
         /\ (~ occurs "{material_bed_temperature}" gcode ->
             In (mkSetting "material_bed_temp_prepend" "True") msgs)
         /\ (occurs "{material_print_temperature}" gcode ->
             In (mkSetting "material_print_temp_prepend" "False") msgs)
         /\ (~ occurs "{material_print_temperature}" gcode ->
             In (mkSetting "material_print_temp_prepend" "True") msgs).
Proof.
  intros Hs Hin Hv. split.
  - intro He. exact (@send_global_returns st stack gcode Hs Hin Hv He).
  - intros st' E.
    destruct (@send_global_sound st st' stack gcode Hs Hin Hv E)
      as (msgs & lines & -> & _ & Hm).
    exists msgs, lines. split; [exact E|].
    exact (@flags_in_message stack gcode msgs Hm).
Qed.

(** X15.  When the start g-code is defined but the stack's value for it is
    not a text, [_sendGlobalSettings] raises [TypeError] at the test for
    the bed temperature placeholder; nothing is sent and nothing
    logged. *)
Theorem start_gcode_must_be_text (st : state) (stack : ContainerStack) :
  _stack st = Some stack ->
  In "machine_start_gcode" (defined_keys stack) ->
  (forall gcode,
      getProperty stack "machine_start_gcode" "value" <> VStr gcode) ->
  sendGlobalSettings format_compound_field st = (Exc TypeError, st).
Proof.
  intros Hs Hin Hv.
  pose proof (@collected_get stack _ Hin) as Hget.
  unfold sendGlobalSettings, getAllSettingValues_job, bind, gets, ret, lift,
         getitem.
  rewrite Hs. cbn beta iota. rewrite Hget.
  destruct (getProperty stack "machine_start_gcode" "value") as [| | |g| |];
    try reflexivity.
  now elim (Hv g).
Qed.

End GlobalSettings.

(** *** The scene and the messages of a run *)

Section Scene.
Variables coord matrix : Type.
Variable times_minus_one : coord -> coord.
Variable getTransformed : MeshData coord -> matrix -> MeshData coord.
Variables DepthFirstIterator OneAtATimeIterator
  : SceneNode coord matrix -> list (SceneNode coord matrix).
Variable removeChild
  : SceneNode coord matrix -> SceneNode coord matrix
    -> SceneNode coord matrix.
Variable format_compound_field
  : string -> auto_arg -> dict Py.value -> field_result.
Local Open Scope list_scope.

Local Abbreviation state := (State coord matrix).
Local Abbreviation node := (SceneNode coord matrix).

Lemma filter_all (A : Type) (f : A -> bool) (l : list A) :
  Forall (fun x => f x = true) (filter f l).
Proof.
  apply Forall_forall. intros x H. now apply filter_In in H.
Qed.

Lemma all_at_once_groups_printable (root : node) :
  Forall (fun group =>
            group <> []
            /\ Forall (fun n => printable n = true
                                /\ outside_buildarea n = false) group)
         (all_at_once_groups DepthFirstIterator root)
  /\ (List.length (all_at_once_groups DepthFirstIterator root) <= 1)%nat.
Proof.
  unfold all_at_once_groups.
  pose proof (filter_all
                (fun n : node =>
                   is_SceneNode n && has_vertices n
                   && negb (outside_buildarea n))
                (DepthFirstIterator root)) as H.
  destruct (filter _ (DepthFirstIterator root)) as [|n l]; simpl.
  - split; [constructor|lia].
  - split; [|lia]. constructor; [|constructor].
    split; [discriminate|].
    eapply Forall_impl; [|exact H]. intros x Hx. cbv beta in Hx.
    apply andb_prop in Hx as [Hp Ho]. apply negb_true_iff in Ho.
    now split.
Qed.

Lemma one_at_a_time_groups_printable (root : node) :
  Forall (fun group =>
            group <> [] /\ Forall (fun n => printable n = true) group)
         (one_at_a_time_groups OneAtATimeIterator root).
Proof.
  unfold one_at_a_time_groups. apply Forall_flat_map.
  apply Forall_forall. intros top _.
  destruct (outside_buildarea top); [constructor|].
  pose proof (filter_all
                (fun child : node =>
                   is_SceneNode child && has_vertices child)
                (getAllChildren top ++ [top])) as H.
  destruct (filter _ (getAllChildren top ++ [top])) as [|n l];
    constructor; [|constructor].
  split; [discriminate|exact H].
Qed.

(** What collecting the groups gives, by the branch taken. *)
Lemma collect_groups_result (st st' : state)
      (groups : list (list node)) :
  collect_groups DepthFirstIterator OneAtATimeIterator removeChild st
  = (Val groups, st') ->
  exists stack root,
    getGlobalContainerStack st = Some stack
    /\ scene_locked st' = false
    /\ if eq_str (getProperty stack "print_sequence" "value")
                 "one_at_a_time"
       then groups = one_at_a_time_groups OneAtATimeIterator root
            /\ log st'
               = log st ++ match groups with
                           | [] => [no_order_warning]
                           | _ => []
                           end
       else groups = all_at_once_groups DepthFirstIterator root
            /\ log st' = log st.
Proof.
  unfold collect_groups, set_lock, set_root, Logger_log, bind, ret, gets,
         modify, raise.
  cbn [fst snd scene_root].
  destruct (find _ _) as [n|]; [destruct (getParent n)|];
    cbn [fst snd scene_root getGlobalContainerStack]; try discriminate.
  all: destruct (getGlobalContainerStack st) as [stack|]; try discriminate.
  all: destruct (eq_str _ _) eqn:Hm.
  all: try (destruct (one_at_a_time_groups _ _) eqn:Hg).
  all: intros [= <- <-]; eexists; eexists; split; [reflexivity|];
    cbn [scene_locked log]; split; [reflexivity|]; rewrite Hm;
    rewrite ?Hg; rewrite ?app_nil_r; split; reflexivity.
Qed.

Lemma collected_groups_printable
      (st st' : state) (groups : list (list node)) :
  collect_groups DepthFirstIterator OneAtATimeIterator removeChild st
  = (Val groups, st') ->
  Forall (fun group =>
            group <> [] /\ Forall (fun n => printable n = true) group)
         groups.
Proof.
  intro H.
  apply collect_groups_result in H as (stack & root & _ & _ & Hr).
  destruct (eq_str _ _); destruct Hr as [-> _].
  - apply one_at_a_time_groups_printable.
  - destruct (all_at_once_groups_printable root) as [Ha _].
    eapply Forall_impl; [|exact Ha]. intros g [Hn Hg]. split; [exact Hn|].
    eapply Forall_impl; [|exact Hg]. now intros n [Hp _].
Qed.

(** X16.  Every group collected is non-empty and holds only nodes that are
    exactly [SceneNode]s with a vertex array; outside the one-at-a-time
    mode there is at most one group and none of its nodes is outside
    the build area. *)
Theorem groups_hold_printable_nodes
        (st st' : state) (groups : list (list node)) :
  collect_groups DepthFirstIterator OneAtATimeIterator removeChild st
  = (Val groups, st') ->
  Forall (fun group =>
            group <> [] /\ Forall (fun n => printable n = true) group)
         groups
  /\ forall stack,
       getGlobalContainerStack st = Some stack ->
       eq_str (getProperty stack "print_sequence" "value") "one_at_a_time"
       = false ->
       (List.length groups <= 1)%nat
       /\ Forall (Forall (fun n => outside_buildarea n = false)) groups.
Proof.
  intro H.
  apply collect_groups_result in H as (stack & root & Hs & _ & Hr).
  destruct (eq_str _ _) eqn:Hm.
  - destruct Hr as [-> _]. split.
    + apply one_at_a_time_groups_printable.
    + intros stack' Hs' Hm'. congruence.
  - destruct Hr as [-> _].
    destruct (all_at_once_groups_printable root) as [Ha Hl]. split.
    + eapply Forall_impl; [|exact Ha]. intros g [Hn Hg]. split; [exact Hn|].
      eapply Forall_impl; [|exact Hg]. now intros n [Hp _].
    + intros _ _ _. split; [exact Hl|].
      eapply Forall_impl; [|exact Ha]. intros g [_ Hg].
      eapply Forall_impl; [|exact Hg]. now intros n [_ Ho].
Qed.

(** X17.  The scene lock taken by [run] is released when the groups have been
    collected, and is still held when collecting them raises. *)
Theorem scene_lock_released_on_return (st : state) :
  match fst (collect_groups DepthFirstIterator OneAtATimeIterator
                            removeChild st) with
  | Val _ =>
      scene_locked (snd (collect_groups DepthFirstIterator OneAtATimeIterator
                                        removeChild st)) = false
  | Exc _ =>
      scene_locked (snd (collect_groups DepthFirstIterator OneAtATimeIterator
                                        removeChild st)) = true
  end.
Proof.
  unfold collect_groups, set_lock, set_root, Logger_log, bind, ret, gets,
         modify, raise.
  cbn [fst snd scene_root].
  destruct (find _ _) as [n|]; [destruct (getParent n)|];
    cbn [fst snd scene_root getGlobalContainerStack scene_locked];
    try reflexivity.
  all: destruct (getGlobalContainerStack st) as [stack|];
    cbn [fst snd scene_locked]; try reflexivity.
  all: destruct (eq_str _ _); cbn [fst snd scene_locked]; try reflexivity.
  all: destruct (one_at_a_time_groups _ _);
    cbn [fst snd scene_locked]; reflexivity.
Qed.

(** X18.  A scene without printable objects is passed over in silence, except
    in the one-at-a-time mode, where one warning is logged. *)
Theorem empty_scene_warns_in_one_at_a_time_only
        (st st' : state) (stack : ContainerStack) :
  getGlobalContainerStack st = Some stack ->
  collect_groups DepthFirstIterator OneAtATimeIterator removeChild st
  = (Val [], st') ->
  log st'
  = log st
    ++ if eq_str (getProperty stack "print_sequence" "value") "one_at_a_time"
       then [no_order_warning] else [].
Proof.
  intros Hs H.
  apply collect_groups_result in H as (stack' & root & Hs' & _ & Hr).
  assert (stack' = stack) by congruence. subst stack'.
  destruct (eq_str _ _); destruct Hr as [_ ->];
    [reflexivity|now rewrite app_nil_r].
Qed.

(** *** Building the slice message *)

Lemma object_message_built (n : node) :
  (forall mesh T, getVertices mesh <> None ->
                  getVertices (getTransformed mesh T) <> None) ->
  printable n = true ->
  encodable_decorations (callDecoration n) ->
  exists obj, object_message times_minus_one getTransformed n = Val obj.
Proof.
  intros Ht Hp He. unfold printable, has_vertices in Hp.
  apply andb_prop in Hp as [_ Hv]. unfold object_message.
  destruct (getMeshData n) as [mesh|]; [|discriminate].
  specialize (Ht mesh (getWorldTransformation n)).
  destruct (getVertices mesh); [|discriminate].
  destruct (getVertices (getTransformed mesh _)) as [verts|].
  - rewrite (handle_encodable He). eexists. reflexivity.
  - exfalso. apply Ht; [discriminate|reflexivity].
Qed.

Lemma object_messages_built (group : list node) :
  (forall mesh T, getVertices mesh <> None ->
                  getVertices (getTransformed mesh T) <> None) ->
  Forall (fun n => printable n = true) group ->
  Forall (fun n => encodable_decorations (callDecoration n)) group ->
  exists objs,
    object_messages times_minus_one getTransformed group
    = Val (map (@AddObject _) objs)
    /\ List.length objs = List.length group.
Proof.
  intros Ht H He. induction H as [|n group Hn _ IH]; simpl.
  - now exists [].
  - inversion_clear He as [|n' g' Hen Heg].
    destruct (object_message_built n Ht Hn Hen) as [obj ->].
    destruct (IH Heg) as (objs & -> & Hl).
    exists (obj :: objs). simpl. now rewrite Hl.
Qed.

(** X19.  When the world transformation keeps the vertex array of a mesh,
    the first node of every group has a parent, and the values in the
    profile and the overrides of every node of a group, and of the
    parent of its first node when that is a group node, are texts UTF-8
    can encode, the slice message of the groups collected is built
    without an exception: one object list per group, with one object
    per node of the group. *)
Theorem slice_message_built
        (st st' : state) (groups : list (list node)) :
  collect_groups DepthFirstIterator OneAtATimeIterator removeChild st
  = (Val groups, st') ->
  (forall mesh T, getVertices mesh <> None ->
                  getVertices (getTransformed mesh T) <> None) ->
  Forall (fun group =>
            forall first rest, group = first :: rest ->
                               getParent first <> None) groups ->
  Forall (fun group =>
            forall first rest parent,
              group = first :: rest ->
              getParent first = Some parent ->
              isGroup parent = true ->
              encodable_decorations parent) groups ->
  Forall (Forall (fun n => encodable_decorations (callDecoration n)))
         groups ->
  exists object_lists,
    group_messages times_minus_one getTransformed groups = Val object_lists
    /\ map (fun m => List.length (objects_of m)) object_lists
       = map (@List.length _) groups.
Proof.
  intros Hc Ht Hp Hpe He.
  pose proof (@collected_groups_printable st st' groups Hc) as Hg. clear Hc.
  revert Hp Hpe He Hg.
  induction groups as [|group groups IH]; intros Hp Hpe He Hg; simpl.
  - now exists [].
  - inversion_clear Hg as [|g gs [Hne Hpr] Hgs].
    inversion_clear Hp as [|g' gs' Hfirst Hps].
    inversion_clear Hpe as [|g2 gs2 Hpar Hpes].
    inversion_clear He as [|g3 gs3 Henc Hes].
    destruct (object_messages_built Ht Hpr Henc) as (objs & Ho & Hl).
    unfold group_message.
    destruct group as [|first rest]; [now elim Hne|].
    destruct (getParent first) as [parent|] eqn:E;
      [|now elim (Hfirst first rest eq_refl)].
    assert (Hown : exists own,
               (if isGroup parent then handlePerObjectSettings parent
                else Val []) = Val own).
    { destruct (isGroup parent) eqn:G; [|now exists []].
      rewrite (handle_encodable (Hpar first rest parent eq_refl E G)).
      eexists. reflexivity. }
    destruct Hown as [own ->]. rewrite Ho.
    destruct (IH Hps Hpes Hes Hgs) as (lists & -> & Hlen).
    eexists. split; [reflexivity|].
    simpl map. f_equal; [|exact Hlen].
    rewrite objects_of_group. exact Hl.
Qed.

(** *** A whole run *)

(** What [run] does after groups were collected and the settings sent. *)
Lemma run_after_settings
      (st st1 st2 : state) (stack : ContainerStack) (gcode : string)
      (group : list node) (groups : list (list node)) :
  collect_groups DepthFirstIterator OneAtATimeIterator removeChild st
  = (Val (group :: groups), st1) ->
  _stack st = Some stack ->
  In "machine_start_gcode" (defined_keys stack) ->
  getProperty stack "machine_start_gcode" "value" = VStr gcode ->
  sendGlobalSettings format_compound_field st1 = (Val tt, st2) ->
  run times_minus_one getTransformed DepthFirstIterator OneAtATimeIterator
      removeChild format_compound_field st
  = (object_lists <-
       lift (group_messages times_minus_one getTransformed
                            (group :: groups)) ;;
     Logger_log "d" "Sending data to engine for slicing." "" ;;;
     sendMessage (Slice object_lists) ;;;
     Logger_log "d" "Sending data to engine is completed" "" ;;;
     setResult true) st2
  /\ (exists msgs, sent st2 = sent st ++ [SettingList msgs])
  /\ result st2 = result st
  /\ scene_locked st2 = false.
Proof.
  intros Hc Hs Hin Hv E.
  pose proof (collect_groups_frame
                DepthFirstIterator OneAtATimeIterator removeChild st) as F.
  rewrite Hc in F. cbn [snd] in F. destruct F as (Fs & Fsent & Fres).
  pose proof Hc as Hl.
  apply collect_groups_result in Hl as (_ & _ & _ & Hlock & _).
  rewrite <- Fs in Hs.
  destruct (@send_global_sound _ _ format_compound_field st1 st2 stack gcode
                               Hs Hin Hv E)
    as (msgs & lines & -> & _).
  split; [|split; [|split]].
  - unfold run. unfold bind at 1. rewrite Hc.
    unfold bind at 1. now rewrite E.
  - exists msgs. simpl. now rewrite Fsent.
  - simpl. exact Fres.
  - simpl. exact Hlock.
Qed.

(** X20.  A run that collects some group, with the start g-code defined as a
    text and the stack's values texts UTF-8 can encode, and builds the
    slice message sends two messages, the settings first and the slice
    second, sets the result of the job to [True], and ends with the
    scene lock released. *)
Theorem run_sends_settings_then_slice
        (st st1 : state) (stack : ContainerStack) (gcode : string)
        (group : list node) (groups : list (list node))
        (object_lists : list (list (ObjectListEntry (vertex coord)))) :
  collect_groups DepthFirstIterator OneAtATimeIterator removeChild st
  = (Val (group :: groups), st1) ->
  _stack st = Some stack ->
  In "machine_start_gcode" (defined_keys stack) ->
  getProperty stack "machine_start_gcode" "value" = VStr gcode ->
  values_encodable stack ->
  group_messages times_minus_one getTransformed (group :: groups)
  = Val object_lists ->
  let r := run times_minus_one getTransformed DepthFirstIterator
               OneAtATimeIterator removeChild format_compound_field st in
  fst r = Val tt
  /\ (exists msgs,
         sent (snd r) = sent st ++ [SettingList msgs; Slice object_lists])
  /\ result (snd r) = Some true
  /\ scene_locked (snd r) = false.
Proof.
  intros Hc Hs Hin Hv He Hm r.
  pose proof (collect_groups_frame
                DepthFirstIterator OneAtATimeIterator removeChild st) as F.
  rewrite Hc in F. cbn [snd] in F. destruct F as (Fs & _).
  assert (Hs1 : _stack st1 = Some stack) by now rewrite Fs.
  destruct (@send_global_returns _ _ format_compound_field st1 stack gcode
                                 Hs1 Hin Hv He) as [st2 E2].
  destruct (@run_after_settings st st1 st2 stack gcode group groups
                                Hc Hs Hin Hv E2)
    as (E & [msgs Hsent] & _ & Hlock).
  subst r. rewrite E.
  unfold bind, lift, Logger_log, sendMessage, setResult, modify.
  rewrite Hm. cbn [fst snd sent result scene_locked].
  repeat split; auto.
  exists msgs. rewrite Hsent. now rewrite <- app_assoc.
Qed.

(** X21.  When the settings were sent and building the slice message
    raises, the exception leaves [run] after the settings message was
    sent: the engine has the settings, no slice, and the job has no
    result. *)
Theorem settings_sent_before_slice_fails
        (st st1 : state) (stack : ContainerStack) (gcode : string)
        (group : list node) (groups : list (list node)) (e : exn) :
  collect_groups DepthFirstIterator OneAtATimeIterator removeChild st
  = (Val (group :: groups), st1) ->
  _stack st = Some stack ->
  In "machine_start_gcode" (defined_keys stack) ->
  getProperty stack "machine_start_gcode" "value" = VStr gcode ->
  fst (sendGlobalSettings format_compound_field st1) = Val tt ->
  group_messages times_minus_one getTransformed (group :: groups) = Exc e ->
  let r := run times_minus_one getTransformed DepthFirstIterator
               OneAtATimeIterator removeChild format_compound_field st in
  fst r = Exc e
  /\ (exists msgs, sent (snd r) = sent st ++ [SettingList msgs])
  /\ result (snd r) = result st.
Proof.
  intros Hc Hs Hin Hv Hsend Hm r.
  destruct (sendGlobalSettings format_compound_field st1)
    as [[[]|e1] st2] eqn:E2; [|discriminate].
  destruct (@run_after_settings st st1 st2 stack gcode group groups
                                Hc Hs Hin Hv E2)
    as (E & Hsent & Hres & _).
  subst r. rewrite E.
  unfold bind, lift. rewrite Hm. cbn [fst snd].
  repeat split; auto.
Qed.

End Scene.

Local Open Scope list_scope.

(** The values of the example stack are texts UTF-8 can encode. *)
Lemma slicing_values_encodable :
  values_encodable (Examples.slicing_stack Examples.all_keys_defined).
Proof.
  intros k Hk. simpl in Hk.
  destruct Hk as [<-|[<-|[<-|[]]]]; reflexivity.
Qed.

Ltac encodable_example :=
  split; intros d Hd; simpl in Hd; try discriminate;
  injection Hd as <-; repeat constructor.

Lemma global_settings_sent_once_witness :
  exists msgs lines,
    sendGlobalSettings
      Examples.no_compound_field
      (Examples.job Examples.all_keys_defined Examples.empty_root)
    = (Val tt,
       snd (sendMessage
              (SettingList msgs)
              (logged (Examples.job Examples.all_keys_defined
                                    Examples.empty_root) lines)))
    /\ NoDup (map name msgs).
Proof.
  destruct (@global_settings_sent_once
              Z Z Examples.no_compound_field
              (Examples.job Examples.all_keys_defined Examples.empty_root)
              (Examples.slicing_stack Examples.all_keys_defined)
              "M140 S{material_bed_temperature}" eq_refl)
    as (msgs & lines & E & Hn & _).
  - simpl. auto.
  - reflexivity.
  - exact slicing_values_encodable.
  - exists msgs, lines. split; assumption.
Defined.

Lemma prepend_flags_follow_start_gcode_witness :
  exists msgs lines,
    sendGlobalSettings
      Examples.no_compound_field
      (Examples.job Examples.all_keys_defined Examples.empty_root)
    = (Val tt,
       snd (sendMessage
              (SettingList msgs)
              (logged (Examples.job Examples.all_keys_defined
                                    Examples.empty_root) lines)))
    /\ In (mkSetting "material_bed_temp_prepend" "False") msgs.
Proof.
  destruct (@prepend_flags_follow_start_gcode
              Z Z Examples.no_compound_field
              (Examples.job Examples.all_keys_defined Examples.empty_root)
              (Examples.slicing_stack Examples.all_keys_defined)
              "M140 S{material_bed_temperature}" eq_refl)
    as [Hret Hflags].
  - simpl. auto.
  - reflexivity.
  - destruct (Hret slicing_values_encodable) as [st' Hst].
    destruct (Hflags st' Hst) as (msgs & lines & E & Hb & _).
    exists msgs, lines. split; [exact E|]. apply Hb.
    now exists "M140 S"%string, ""%string.
Defined.

Lemma start_gcode_must_be_text_witness :
  sendGlobalSettings
    Examples.no_compound_field
    (Examples.job_on (Examples.silent_stack Examples.all_keys_defined)
                     Examples.empty_root)
  = (Exc TypeError,
     Examples.job_on (Examples.silent_stack Examples.all_keys_defined)
                     Examples.empty_root).
Proof.
  apply (@start_gcode_must_be_text
           Z Z Examples.no_compound_field
           (Examples.job_on (Examples.silent_stack Examples.all_keys_defined)
                            Examples.empty_root)
           (Examples.silent_stack Examples.all_keys_defined) eq_refl).
  - simpl. auto.
  - discriminate.
Defined.

Lemma groups_hold_printable_nodes_witness :
  Forall (fun group : list (SceneNode Z Z) =>
            group <> [] /\ Forall (fun n => printable n = true) group)
         [[Examples.child_object]].
Proof.
  exact (proj1 (@groups_hold_printable_nodes
                  Z Z Examples.depth_first Examples.in_print_order
                  Examples.keep_root
                  (Examples.job Examples.all_keys_defined Examples.scene_root)
                  (Examples.job Examples.all_keys_defined Examples.scene_root)
                  [[Examples.child_object]] eq_refl)).
Defined.

Lemma empty_scene_warns_in_one_at_a_time_only_witness :
  log (snd (collect_groups
              Examples.depth_first Examples.in_print_order Examples.keep_root
              (Examples.job_on Examples.sequential_stack
                               Examples.empty_root)))
  = [no_order_warning].
Proof.
  exact (@empty_scene_warns_in_one_at_a_time_only
           Z Z Examples.depth_first Examples.in_print_order
           Examples.keep_root
           (Examples.job_on Examples.sequential_stack Examples.empty_root)
           _ Examples.sequential_stack eq_refl eq_refl).
Defined.

Lemma slice_message_built_witness :
  exists object_lists,
    group_messages Examples.minus Examples.shifted [[Examples.child_object]]
    = Val object_lists
    /\ map (fun m => List.length (objects_of m)) object_lists = [1%nat].
Proof.
  apply (@slice_message_built
           Z Z Examples.minus Examples.shifted Examples.depth_first
           Examples.in_print_order Examples.keep_root
           (Examples.job Examples.all_keys_defined Examples.scene_root)
           (Examples.job Examples.all_keys_defined Examples.scene_root)
           [[Examples.child_object]] eq_refl).
  - intros [[verts|]] T H; simpl; [discriminate|now elim H].
  - repeat constructor. intros first rest [= <- <-]. discriminate.
  - constructor; [|constructor].
    intros first rest parent [= <- <-] [= <-] _. encodable_example.
  - constructor; [|constructor]. constructor; [|constructor].
    encodable_example.
Defined.

Lemma run_sends_settings_then_slice_witness :
  let r := run Examples.minus Examples.shifted Examples.depth_first
               Examples.in_print_order Examples.keep_root
               Examples.no_compound_field
               (Examples.job Examples.all_keys_defined Examples.scene_root) in
  fst r = Val tt /\ result (snd r) = Some true.
Proof.
  intro r.
  destruct (group_messages Examples.minus Examples.shifted
                           [[Examples.child_object]])
    as [object_lists|] eqn:Hm; [|discriminate].
  destruct (@run_sends_settings_then_slice
              Z Z Examples.minus Examples.shifted Examples.depth_first
              Examples.in_print_order Examples.keep_root
              Examples.no_compound_field
              (Examples.job Examples.all_keys_defined Examples.scene_root)
              (Examples.job Examples.all_keys_defined Examples.scene_root)
              (Examples.slicing_stack Examples.all_keys_defined)
              "M140 S{material_bed_temperature}"
              [Examples.child_object] [] object_lists
              eq_refl eq_refl) as (Hr & _ & Hres & _).
  - simpl. auto.
  - reflexivity.
  - exact slicing_values_encodable.
  - exact Hm.
  - split; assumption.
Defined.

Lemma settings_sent_before_slice_fails_witness :
  let st := Examples.job Examples.all_keys_defined Examples.orphan_root in
  let r := run Examples.minus Examples.shifted Examples.depth_first
               Examples.in_print_order Examples.keep_root
               Examples.no_compound_field st in
  fst r = Exc AttributeError /\ result (snd r) = None.
Proof.
  intros st r.
  destruct (@settings_sent_before_slice_fails
              Z Z Examples.minus Examples.shifted Examples.depth_first
              Examples.in_print_order Examples.keep_root
              Examples.no_compound_field st st
              (Examples.slicing_stack Examples.all_keys_defined)
              "M140 S{material_bed_temperature}"
              [Examples.orphan_object] [] AttributeError
              eq_refl eq_refl) as (Hr & _ & Hres).
  - simpl. auto.
  - reflexivity.
  - reflexivity.
  - reflexivity.
  - split; assumption.
Defined.

End SliceJobExtras.
